(** * The A417 Maisemore - Over Roundabout flood monitor

    A shallow embedding of the inference layer of the repository:
    - [site/src/types.ts] and [site/src/logic.ts]: trend detection, flood-status
      classification and the road-assessment reconciler;
    - the route-check worker ([checkRoute], [findClosestDistance], [haversineM]);
    - the traffic worker ([fetchMapbox], [aggregateReadings], [mpsToMph]);
    - the HTTP entry of the route-check worker and its cache, the [readings]
      table of the traffic worker with its two queries and its pruning, and
      the load of the page in [site/src/App.tsx] with its headline.

    A JavaScript [number] is an IEEE 754 binary64 value, so it is modelled by
    Rocq's primitive [float]: [+], [-], [*], [/], [<], [>=] and [Math.abs] below
    are the very operations the engine performs, NaN and infinities included. *)

From Stdlib Require Uint63 DecimalString.
From Stdlib Require Import Floats ZArith Lia Bool String Ascii List.
Import ListNotations.

Set Warnings "-inexact-float".
Local Open Scope float_scope.

(* ================================================================== *)
(** ** JavaScript numbers and the built-ins the sources call *)
(* ================================================================== *)

Module JS.

(** [a > b] and [a >= b] of the source, written with the primitive tests. *)
Definition gtb (a b : float) : bool := b <? a.
Definition geb (a b : float) : bool := b <=? a.

(** An integer as a [number]: exact below 2^53, which covers every array
    length and every millisecond count used here. *)
Definition of_Z (z : Z) : float :=
  match z with
  | Z0 => 0
  | Zpos _ => of_uint63 (Uint63.of_Z z)
  | Zneg p => - of_uint63 (Uint63.of_Z (Zpos p))
  end.

Definition of_nat (n : nat) : float := of_Z (Z.of_nat n).

(** [Math.round]: the integral value closest to [x], ties towards
    +infinity; NaN, the infinities and the zeros are returned unchanged and
    a negative argument that rounds to zero gives [-0].  The value
    [floor (x + 1/2)] is computed exactly on the decoded mantissa. *)
Definition Math_round (x : float) : float :=
  match Prim2SF x with
  | S754_finite s m e =>
      if (0 <=? e)%Z then x
      else
        let num := (if s then Z.neg m else Z.pos m) in
        let n := ((2 * num + 2 ^ (- e)) / 2 ^ (1 - e))%Z in
        if (n =? 0)%Z then (if s then PrimFloat.neg_zero else PrimFloat.zero) else of_Z n
  | _ => x
  end.

Definition Math_PI : float := 3.141592653589793.

(** [xs.reduce((a, b) => a + b, 0)]. *)
Definition sum (xs : list float) : float := fold_left PrimFloat.add xs 0.

(** [xs.some(p)], [xs.filter(p)], [xs.find(p)] are [existsb], [filter]
    and [find] of the list library. *)

(** [xs.slice(-n)]: the last [n] elements, the whole array when it is
    shorter. *)
Definition slice_last {A} (n : nat) (xs : list A) : list A :=
  skipn (List.length xs - n) xs.

(** The built-ins whose result ECMAScript leaves to the host: the parse of
    a date string ([new Date(s).getTime()], NaN when [s] is no date) and the
    implementation-approximated [Math.sin], [Math.cos] and [Math.atan2].
    The embedded functions take them as a parameter. *)
Record Host := {
  Date_getTime : string -> float;
  Math_sin : float -> float;
  Math_cos : float -> float;
  Math_atan2 : float -> float -> float
}.

(** The ambient state a call can read: the wall clock behind [Date.now()],
    in milliseconds since the epoch. *)
Record World := { Date_now : float }.

(** An awaited [fetch] response, with its body both as text and decoded. *)
Record Response (J : Type) := {
  ok : bool;
  status : Z;
  text : string;
  json : J
}.
Arguments ok {J} _.
Arguments status {J} _.
Arguments text {J} _.
Arguments json {J} _.

(** A call either returns a value or throws [new Error(message)]. *)
Inductive Outcome (A : Type) :=
| Return (a : A)
| Throw (message : string).
Arguments Return {A} _.
Arguments Throw {A} _.

(** [`${n}`] for an integral [n]. *)
Definition string_of_Z (z : Z) : string :=
  DecimalString.NilZero.string_of_int (Z.to_int z).

End JS.

(* ================================================================== *)
(** ** A reference host, to run the embedding on concrete inputs *)
(* ================================================================== *)

Module RefHost.

Definition digit (c : ascii) : option Z :=
  let n := Z.of_nat (nat_of_ascii c) in
  if ((48 <=? n) && (n <=? 57))%Z%bool then Some (n - 48)%Z else None.

Fixpoint digits (acc : Z) (cs : list ascii) : option Z :=
  match cs with
  | [] => Some acc
  | c :: rest =>
      match digit c with
      | Some d => digits (10 * acc + d)%Z rest
      | None => None
      end
  end.

(** Days from 1970-01-01 to the civil date [y]-[m]-[d] (proleptic
    Gregorian calendar). *)
Definition days_from_civil (y m d : Z) : Z :=
  let y' := (if m <=? 2 then y - 1 else y)%Z in
  let era := (y' / 400)%Z in
  let yoe := (y' - era * 400)%Z in
  let mp := (if 2 <? m then m - 3 else m + 9)%Z in
  let doy := ((153 * mp + 2) / 5 + d - 1)%Z in
  let doe := (yoe * 365 + yoe / 4 - yoe / 100 + doy)%Z in
  (era * 146097 + doe - 719468)%Z.

(** The UTC date-time form of the gauge feed, [YYYY-MM-DDTHH:MM:SSZ];
    anything else is no date. *)
Definition parse_iso (s : string) : option Z :=
  match list_ascii_of_string s with
  | [y1; y2; y3; y4; d1; m1; m2; d2; a1; a2; t; h1; h2; c1; n1; n2; c2; s1; s2; z] =>
      if (Ascii.eqb d1 "-" && Ascii.eqb d2 "-" && Ascii.eqb t "T"
          && Ascii.eqb c1 ":" && Ascii.eqb c2 ":" && Ascii.eqb z "Z")%bool
      then
        match digits 0 [y1; y2; y3; y4], digits 0 [m1; m2], digits 0 [a1; a2],
              digits 0 [h1; h2], digits 0 [n1; n2], digits 0 [s1; s2] with
        | Some y, Some m, Some d, Some hh, Some mm, Some ss =>
            if ((1 <=? m) && (m <=? 12) && (1 <=? d) && (d <=? 31)
                && (hh <=? 23) && (mm <=? 59) && (ss <=? 59))%Z%bool
            then Some ((((days_from_civil y m d * 24 + hh) * 60 + mm) * 60 + ss) * 1000)%Z
            else None
        | _, _, _, _, _, _ => None
        end
      else None
  | _ => None
  end.

Definition getTime (s : string) : float :=
  match parse_iso s with
  | Some ms => JS.of_Z ms
  | None => nan
  end.

(** Truncated power series after a reduction of the argument. *)
Fixpoint sin_series (n : nat) (k term x2 acc : float) : float :=
  match n with
  | O => acc
  | S n' =>
      let term' := - (term * x2) / ((2 * k + 2) * (2 * k + 3)) in
      sin_series n' (k + 1) term' x2 (acc + term')
  end.

Fixpoint cos_series (n : nat) (k term x2 acc : float) : float :=
  match n with
  | O => acc
  | S n' =>
      let term' := - (term * x2) / ((2 * k + 1) * (2 * k + 2)) in
      cos_series n' (k + 1) term' x2 (acc + term')
  end.

Fixpoint atan_series (n : nat) (k power x2 acc : float) : float :=
  match n with
  | O => acc
  | S n' =>
      let power' := - (power * x2) in
      atan_series n' (k + 1) power' x2 (acc + power' / (2 * k + 3))
  end.

Definition reduce (x : float) : float :=
  x - 2 * JS.Math_PI * JS.Math_round (x / (2 * JS.Math_PI)).

Definition sin (x : float) : float :=
  let r := reduce x in sin_series 14 0 r (r * r) r.

Definition cos (x : float) : float :=
  let r := reduce x in cos_series 14 0 1 (r * r) 1.

(** [atan t] for [0 <= t <= 1]: two half-angle steps, then the series. *)
Definition atan01 (t : float) : float :=
  let half u := u / (1 + PrimFloat.sqrt (1 + u * u)) in
  let u := half (half t) in
  4 * atan_series 14 0 u (u * u) u.

Definition atan_pos (t : float) : float :=
  if 1 <? t then JS.Math_PI / 2 - atan01 (1 / t) else atan01 t.

Definition atan (t : float) : float :=
  if t <? 0 then - atan_pos (- t) else atan_pos t.

Definition atan2 (y x : float) : float :=
  if 0 <? x then atan (y / x)
  else if x <? 0 then
    (if y <? 0 then atan (y / x) - JS.Math_PI else atan (y / x) + JS.Math_PI)
  else if 0 <? y then JS.Math_PI / 2
  else if y <? 0 then - (JS.Math_PI / 2)
  else y + x.

Definition host : JS.Host := {|
  JS.Date_getTime := getTime;
  JS.Math_sin := sin;
  JS.Math_cos := cos;
  JS.Math_atan2 := atan2
|}.

End RefHost.

(* ================================================================== *)
(** ** site/src/types.ts *)
(* ================================================================== *)

Module RouteStatus.
Inductive t := ROUTING_THROUGH | ROUTING_AROUND | NO_ROUTE | ERROR.

Definition eqb (a b : t) : bool :=
  match a, b with
  | ROUTING_THROUGH, ROUTING_THROUGH | ROUTING_AROUND, ROUTING_AROUND
  | NO_ROUTE, NO_ROUTE | ERROR, ERROR => true
  | _, _ => false
  end.

(** [routeStatus === "..."] on a [RouteStatus | null]. *)
Definition equals (r : option t) (s : t) : bool :=
  match r with
  | Some a => eqb a s
  | None => false
  end.
End RouteStatus.

Module FloodStatus.
Inductive t := FLOODED | NEAR_FLOOD | RECEDING | CLEAR | UNKNOWN.

(** [floodStatus === "..."]. *)
Definition eqb (a b : t) : bool :=
  match a, b with
  | FLOODED, FLOODED | NEAR_FLOOD, NEAR_FLOOD | RECEDING, RECEDING
  | CLEAR, CLEAR | UNKNOWN, UNKNOWN => true
  | _, _ => false
  end.
End FloodStatus.

Module TrendDirection.
Inductive t := RISING | FALLING | STEADY | UNKNOWN.
End TrendDirection.

Module Types.

Inductive TrafficStatus := LIVE_DATA | NO_LIVE_DATA | ERROR.

Record TrafficWindow := {
  description : string;
  since : option string;
  readings : float;
  readingsWithLiveData : float
}.

Record TrafficResponse := {
  timestamp : string;
  location : string;
  status : TrafficStatus;
  window : TrafficWindow;
  averageSpeedMph : option float;
  mostRecentLiveSpeedMph : option float;
  mostRecentLiveTimestamp : option string
}.

Record EAReading := {
  dateTime : string;
  value : float
}.

(** Thresholds (Sandhurst gauge, metres). *)
Module THRESHOLDS.
Definition ROAD_FLOOD : float := 3.98.
Definition FLOOD_WARNING : float := 3.90.
Definition NORMAL_HIGH : float := 3.00.
End THRESHOLDS.

End Types.

(* ================================================================== *)
(** ** site/src/logic.ts *)
(* ================================================================== *)

Module Logic.
Import Types.

(** [determineTrend].  After the two length tests [recent] has a first and
    a last element; the last branch of the [match] stands for the
    [TypeError] an empty [recent] would raise and is never taken
    (see [determineTrend_reads_window]). *)
Definition determineTrend (readings : list EAReading) : TrendDirection.t :=
  if (List.length readings <? 4)%nat then TrendDirection.UNKNOWN
  else
    let recent := JS.slice_last 8 readings in
    if (List.length recent <? 2)%nat then TrendDirection.UNKNOWN
    else
      match nth_error recent 0, nth_error recent (List.length recent - 1) with
      | Some first, Some last =>
          let diff := value last - value first in
          if abs diff <? 0.02 then TrendDirection.STEADY
          else if JS.gtb diff 0 then TrendDirection.RISING
          else TrendDirection.FALLING
      | _, _ => TrendDirection.UNKNOWN
      end.

Definition SEVEN_DAYS_MS : float := 7 * 24 * 60 * 60 * 1000.

(** [determineFloodStatus].  [Date.now()] is read from the ambient world
    [w]; [new Date(r.dateTime).getTime()] is the host's parse. *)
Definition determineFloodStatus (h : JS.Host) (w : JS.World)
    (currentLevel : option float) (readings : list EAReading) : FloodStatus.t :=
  match currentLevel with
  | None => FloodStatus.UNKNOWN
  | Some currentLevel =>
      if JS.geb currentLevel (THRESHOLDS.ROAD_FLOOD - 0.05) then FloodStatus.FLOODED
      else if JS.geb currentLevel (THRESHOLDS.FLOOD_WARNING - 0.05) then FloodStatus.NEAR_FLOOD
      else
        let sevenDaysAgo := JS.Date_now w - SEVEN_DAYS_MS in
        let recentFlood :=
          existsb (fun r =>
                     JS.geb (value r) THRESHOLDS.ROAD_FLOOD
                     && JS.gtb (JS.Date_getTime h (dateTime r)) sevenDaysAgo)
                  readings in
        if recentFlood && JS.gtb currentLevel THRESHOLDS.NORMAL_HIGH
        then FloodStatus.RECEDING
        else FloodStatus.CLEAR
  end.

(** [findRecentFloodPeakTime]: the loop state is [(peakValue, peakTime)]. *)
Definition findRecentFloodPeakTime (h : JS.Host) (w : JS.World)
    (readings : list EAReading) : option string :=
  let sevenDaysAgo := JS.Date_now w - SEVEN_DAYS_MS in
  snd (fold_left
         (fun (st : float * option string) r =>
            let '(peakValue, peakTime) := st in
            if JS.geb (value r) THRESHOLDS.ROAD_FLOOD
               && JS.gtb (JS.Date_getTime h (dateTime r)) sevenDaysAgo
               && JS.gtb (value r) peakValue
            then (value r, Some (dateTime r))
            else st)
         readings (0, None)).

(** [findTimeWaterDroppedBelowFlood]: [scanDown readings n] runs the loop
    [for (i = n - 1; i >= 0; i--)]. *)
Fixpoint scanDown (readings : list EAReading) (n : nat) : option string :=
  match n with
  | O => None
  | S i =>
      match nth_error readings i with
      | Some r =>
          if JS.geb (value r) THRESHOLDS.ROAD_FLOOD then
            match nth_error readings (i + 1) with
            | Some next => Some (dateTime next)
            | None => Some (dateTime r)
            end
          else scanDown readings i
      | None => None
      end
  end.

Definition findTimeWaterDroppedBelowFlood (readings : list EAReading) : option string :=
  scanDown readings (List.length readings).

Inductive Confidence := HIGH | MEDIUM | LOW.

Record RoadAssessment := {
  isOpen : option bool; (* None = uncertain *)
  confidence : Confidence;
  reason : string
}.

(** [trafficSinceFlood && trafficSinceFlood.window.readingsWithLiveData > 0]
    and its [=== 0] sibling: an object is truthy, [null] is not. *)
Definition liveSince (t : option TrafficResponse) : bool :=
  match t with
  | Some t => JS.gtb (readingsWithLiveData (window t)) 0
  | None => false
  end.

Definition noneSince (t : option TrafficResponse) : bool :=
  match t with
  | Some t => readingsWithLiveData (window t) =? 0
  | None => false
  end.

Definition assessRoadStatus
    (floodStatus : FloodStatus.t)
    (routeStatus : option RouteStatus.t)
    (_trafficData : option TrafficResponse)
    (trafficSinceFlood : option TrafficResponse) : RoadAssessment :=
  (* If currently above flood level, road is closed *)
  if FloodStatus.eqb floodStatus FloodStatus.FLOODED then
      {| isOpen := Some false; confidence := HIGH;
         reason := "Water levels are above the road flooding threshold." |}
  (* If near flood level, road is probably still open unless evidence suggests otherwise *)
  else if FloodStatus.eqb floodStatus FloodStatus.NEAR_FLOOD then
      if RouteStatus.equals routeStatus RouteStatus.ROUTING_AROUND
         || RouteStatus.equals routeStatus RouteStatus.NO_ROUTE
      then
        {| isOpen := Some false; confidence := MEDIUM;
           reason := "Water levels are near the road flooding threshold and the route planner is directing traffic around this road. The road may be impassable. Note that the route planner can sometimes be wrong." |}
      else
        {| isOpen := Some true; confidence := MEDIUM;
           reason := "Water levels are near the road flooding threshold but the road is likely still passable. Conditions may deteriorate — drive with caution." |}
  (* If receding from flood, use traffic and route data *)
  else if FloodStatus.eqb floodStatus FloodStatus.RECEDING then
      if liveSince trafficSinceFlood then
        {| isOpen := Some true; confidence := HIGH;
           reason := "Cars have been detected on the road since water levels dropped. The road appears to be open." |}
      else if RouteStatus.equals routeStatus RouteStatus.ROUTING_THROUGH then
        if noneSince trafficSinceFlood then
          {| isOpen := Some true; confidence := MEDIUM;
             reason := "The route planner is directing traffic through this road, but no cars have been detected yet. The traffic sensor can be unreliable, so the road is probably open." |}
        else
          {| isOpen := Some true; confidence := MEDIUM;
             reason := "The route planner is directing traffic through this road. However, the route planner occasionally shows the road as open prematurely." |}
      else if RouteStatus.equals routeStatus RouteStatus.ROUTING_AROUND
              || RouteStatus.equals routeStatus RouteStatus.NO_ROUTE
      then
        {| isOpen := Some false; confidence := MEDIUM;
           reason := "Water levels have dropped, but the route planner is still directing traffic around this road. The road may still be closed or obstructed. Note that the route planner sometimes shows the road as closed when it has reopened." |}
      else
        {| isOpen := None; confidence := LOW;
           reason := "Water levels have dropped below the flood threshold recently. We can't confirm whether the road has reopened yet." |}
  (* CLEAR status *)
  else
      if RouteStatus.equals routeStatus RouteStatus.ROUTING_THROUGH then
        {| isOpen := Some true; confidence := HIGH;
           reason := "Water levels are normal and traffic is routing through." |}
      else if RouteStatus.equals routeStatus RouteStatus.ROUTING_AROUND then
        {| isOpen := Some false; confidence := MEDIUM;
           reason := "Water levels are normal, but the route planner is directing traffic around this road. There may be a closure for other reasons. The route planner can sometimes be wrong." |}
      else
        {| isOpen := Some true; confidence := LOW;
           reason := "Water levels are within normal range." |}.

End Logic.

(* ================================================================== *)
(** ** The route-check worker *)
(* ================================================================== *)

Module RouteCheck.

Record Point := { latitude : float; longitude : float }.

Record Summary := {
  lengthInMeters : float;
  travelTimeInSeconds : float;
  trafficDelayInSeconds : float
}.

Record Leg := { points : list Point }.

Record TomTomRoute := { summary : Summary; legs : list Leg }.

(** [routes] is read through [raw.routes?.length]: it may be missing. *)
Record TomTomRoutingResponse := { routes : option (list TomTomRoute) }.

Record LatLng := { lat : float; lng : float }.

(** Midpoint of the A417 stretch. *)
Definition A417_MIDPOINT : LatLng :=
  {| lat := 51.8840967853921; lng := -2.2672132659056956 |}.

Definition DIRECT_DISTANCE_M : float := 1800.
Definition DETOUR_THRESHOLD_MULTIPLIER : float := 2.5.
Definition MIDPOINT_PROXIMITY_M : float := 150.

(** Haversine distance in metres between two lat/lng points; the square
    [x ** 2] is taken as [x * x]. *)
Definition haversineM (h : JS.Host) (lat1 lng1 lat2 lng2 : float) : float :=
  let R := 6371000 in
  let toRad d := (d * JS.Math_PI) / 180 in
  let dLat := toRad (lat2 - lat1) in
  let dLng := toRad (lng2 - lng1) in
  let sq x := x * x in
  let a :=
    sq (JS.Math_sin h (dLat / 2))
    + JS.Math_cos h (toRad lat1) * JS.Math_cos h (toRad lat2)
      * sq (JS.Math_sin h (dLng / 2)) in
  R * 2 * JS.Math_atan2 h (PrimFloat.sqrt a) (PrimFloat.sqrt (1 - a)).

(** One turn of the loop of [findClosestDistance]. *)
Definition closer (h : JS.Host) (target : LatLng) (minDist : float) (point : Point) : float :=
  let dist := haversineM h (latitude point) (longitude point) (lat target) (lng target) in
  if dist <? minDist then dist else minDist.

Definition findClosestDistance (h : JS.Host) (routePoints : list Point) (target : LatLng) : float :=
  fold_left (closer h target) routePoints infinity.

Record RouteInfo := {
  distanceM : float;
  durationSec : float;
  trafficDelaySec : float;
  distanceRatio : float;
  closestToMidpointM : float;
  geometry : list (float * float)
}.

Record RouteCheck := {
  timestamp : string;
  location : string;
  status : RouteStatus.t;
  route : option RouteInfo
}.

Definition LOCATION : string := "A417 Maisemore – Over Roundabout".

(** [checkRoute], from the awaited response on; [now] is
    [new Date().toISOString()].  [res] is a response that arrived, with
    its body read as text and decoded to a routing answer of the declared
    type.  A [fetch] that rejects, a body that is not JSON and a route
    without [legs] or [summary] make the source throw as well: they are
    no inputs of this definition, which therefore says what [checkRoute]
    answers on a well-formed response and not when it returns in
    general. *)
Definition checkRoute (h : JS.Host) (now : string) (apiKey : string)
    (res : JS.Response TomTomRoutingResponse) : JS.Outcome RouteCheck :=
  if String.eqb apiKey "" then JS.Throw "TOMTOM_API_KEY is not configured"
  else if negb (JS.ok res) then
    JS.Throw ("TomTom Routing API returned " ++ JS.string_of_Z (JS.status res)
              ++ ": " ++ JS.text res)
  else
    let raw := JS.json res in
    match routes raw with
    | None | Some [] =>
        JS.Return {| timestamp := now; location := LOCATION;
                     status := RouteStatus.NO_ROUTE; route := None |}
    | Some (route :: _) =>
        let routePoints := flat_map points (legs route) in
        (* Check 1: Is the route distance close to the direct distance? *)
        let distanceRatio := lengthInMeters (summary route) / DIRECT_DISTANCE_M in
        let isShortRoute := distanceRatio <? DETOUR_THRESHOLD_MULTIPLIER in
        (* Check 2: Does the route pass near the A417 midpoint? *)
        let closestToMidpoint := findClosestDistance h routePoints A417_MIDPOINT in
        let passesNearMidpoint := closestToMidpoint <? MIDPOINT_PROXIMITY_M in
        (* Route is "through" if it's short AND passes near the midpoint *)
        let routingThrough := isShortRoute && passesNearMidpoint in
        let status :=
          if routingThrough then RouteStatus.ROUTING_THROUGH
          else RouteStatus.ROUTING_AROUND in
        JS.Return
          {| timestamp := now; location := LOCATION; status := status;
             route := Some
               {| distanceM := lengthInMeters (summary route);
                  durationSec := travelTimeInSeconds (summary route);
                  trafficDelaySec := trafficDelayInSeconds (summary route);
                  distanceRatio := JS.Math_round (distanceRatio * 100) / 100;
                  closestToMidpointM := JS.Math_round closestToMidpoint;
                  geometry := map (fun p => (longitude p, latitude p)) routePoints |} |}
    end.

End RouteCheck.

(* ================================================================== *)
(** ** The traffic worker *)
(* ================================================================== *)

Module ReadingStatus.
Inductive t := NO_MATCH | NO_DATA | HAS_LIVE_DATA | NO_LIVE_DATA | ERROR.

(** The text bound to the [status] column. *)
Definition to_string (s : t) : string :=
  match s with
  | NO_MATCH => "NO_MATCH"
  | NO_DATA => "NO_DATA"
  | HAS_LIVE_DATA => "HAS_LIVE_DATA"
  | NO_LIVE_DATA => "NO_LIVE_DATA"
  | ERROR => "ERROR"
  end.
End ReadingStatus.

Module AggregatedStatus.
Inductive t := LIKELY_OPEN | NO_LIVE_DATA | INSUFFICIENT_DATA.
End AggregatedStatus.

Module Segment.
Record t := { speedMph : float; congestion : string; distanceM : float }.
End Segment.

Module TrafficMonitor.

Record Annotation := {
  speed : option (list float);
  congestion : option (list string);
  distance : option (list float)
}.

Record MapboxLeg := { annotation : option Annotation }.

Record Geometry := { type : string; coordinates : list (float * float) }.

Record MapboxMatching := {
  confidence : float;
  geometry : Geometry;
  legs : list MapboxLeg
}.

(** [matchings] is read through [raw.matchings?.length]. *)
Record MapboxMatchResponse := {
  code : string;
  matchings : option (list MapboxMatching)
}.

Definition AGGREGATION_WINDOW_MINUTES : Z := 30.

(** [JSON.stringify] is kept symbolic: [geometryJson] and [segmentsJson]
    carry the value that is serialised, [None] standing for [null]. *)
Module MapboxResult.
Record t := {
  status : ReadingStatus.t;
  hasLiveData : bool;
  avgSpeedMph : option float;
  confidence : option float;
  geometryJson : option Geometry;
  segmentsJson : option (list Segment.t)
}.
End MapboxResult.

Definition mpsToMph (mps : float) : float :=
  JS.Math_round (mps * 2.23694 * 10) / 10.

(** [leg.annotation?.speed] and its two siblings. *)
Definition field {A} (f : Annotation -> option (list A)) (leg : MapboxLeg) : option (list A) :=
  match annotation leg with
  | Some a => f a
  | None => None
  end.

(** [if (xs) all.push(...xs)]: an array, even an empty one, is truthy. *)
Definition pushAll {A} (all : list A) (xs : option (list A)) : list A :=
  match xs with
  | Some xs => all ++ xs
  | None => all
  end.

(** The three accumulators after the loop over [matching.legs]. *)
Definition gather (legs : list MapboxLeg) : list float * list string * list float :=
  fold_left
    (fun '(allSpeeds, allCongestion, allDistances) leg =>
       (pushAll allSpeeds (field speed leg),
        pushAll allCongestion (field congestion leg),
        pushAll allDistances (field distance leg)))
    legs ([], [], []).

Definition isUnknown (c : string) : bool := String.eqb c "unknown".

(** The callback of [allSpeeds.map((s, i) => ...)], with the array
    [liveSpeedsMph] it pushes to threaded through: one step takes the live
    speeds and segments collected so far to those after segment [i]. *)
Definition visit (allCongestion : list string) (allDistances : list float)
    (st : list float * list Segment.t) (s : float) (i : nat)
    : list float * list Segment.t :=
  let '(liveSpeedsMph, segments) := st in
  let congestion := nth i allCongestion "unknown"%string in
  let liveSpeedsMph :=
    if negb (isUnknown congestion) then liveSpeedsMph ++ [mpsToMph s]
    else liveSpeedsMph in
  (liveSpeedsMph,
   segments ++ [ {| Segment.speedMph := mpsToMph s;
                    Segment.congestion := congestion;
                    Segment.distanceM :=
                      JS.Math_round (nth i allDistances 0 * 10) / 10 |} ]).

Fixpoint visitAll (allCongestion : list string) (allDistances : list float)
    (st : list float * list Segment.t) (i : nat) (allSpeeds : list float)
    : list float * list Segment.t :=
  match allSpeeds with
  | [] => st
  | s :: rest =>
      visitAll allCongestion allDistances
               (visit allCongestion allDistances st s i) (S i) rest
  end.

(** [fetchMapbox], from the awaited response on. *)
Definition fetchMapbox (token : string)
    (res : JS.Response MapboxMatchResponse) : JS.Outcome MapboxResult.t :=
  if String.eqb token "" then JS.Throw "MAPBOX_ACCESS_TOKEN is not configured"
  else if negb (JS.ok res) then
    JS.Throw ("Mapbox API returned " ++ JS.string_of_Z (JS.status res)
              ++ ": " ++ JS.text res)
  else
    let raw := JS.json res in
    match (if String.eqb (code raw) "Ok" then matchings raw else None) with
    | None | Some [] =>
        JS.Return
          {| MapboxResult.status := ReadingStatus.NO_MATCH;
             MapboxResult.hasLiveData := false;
             MapboxResult.avgSpeedMph := None;
             MapboxResult.confidence := None;
             MapboxResult.geometryJson := None;
             MapboxResult.segmentsJson := None |}
    | Some (matching :: _) =>
        let '(allSpeeds, allCongestion, allDistances) := gather (legs matching) in
        if (List.length allSpeeds =? 0)%nat then
          JS.Return
            {| MapboxResult.status := ReadingStatus.NO_DATA;
               MapboxResult.hasLiveData := false;
               MapboxResult.avgSpeedMph := None;
               MapboxResult.confidence := Some (confidence matching);
               MapboxResult.geometryJson := Some (geometry matching);
               MapboxResult.segmentsJson := None |}
        else
          let hasLiveData := existsb (fun c => negb (isUnknown c)) allCongestion in
          (* Only average speeds from segments with live congestion data *)
          let '(liveSpeedsMph, segments) :=
            visitAll allCongestion allDistances ([], []) 0 allSpeeds in
          let avgSpeedMph :=
            if (0 <? List.length liveSpeedsMph)%nat
            then Some (JS.sum liveSpeedsMph / JS.of_nat (List.length liveSpeedsMph))
            else None in
          JS.Return
            {| MapboxResult.status :=
                 if hasLiveData then ReadingStatus.HAS_LIVE_DATA
                 else ReadingStatus.NO_LIVE_DATA;
               MapboxResult.hasLiveData := hasLiveData;
               MapboxResult.avgSpeedMph := avgSpeedMph;
               MapboxResult.confidence := Some (confidence matching);
               MapboxResult.geometryJson := Some (geometry matching);
               MapboxResult.segmentsJson := Some segments |}
    end.

(** One row of the [readings] table, as [aggregateReadings] selects it. *)
Module ReadingRow.
Record t := {
  timestamp : string;
  status : string;
  has_live_data : float;
  avg_speed_mph : option float;
  confidence : option float;
  geometry_json : option Geometry
}.
End ReadingRow.

(** The row [pollAndStore] inserts at time [now] for the outcome of
    [fetchMapbox]: the values of its two [bind] calls. *)
Definition pollAndStore (now : string) (result : JS.Outcome MapboxResult.t) : ReadingRow.t :=
  match result with
  | JS.Return result =>
      {| ReadingRow.timestamp := now;
         ReadingRow.status := ReadingStatus.to_string (MapboxResult.status result);
         ReadingRow.has_live_data := if MapboxResult.hasLiveData result then 1 else 0;
         ReadingRow.avg_speed_mph := MapboxResult.avgSpeedMph result;
         ReadingRow.confidence := MapboxResult.confidence result;
         ReadingRow.geometry_json := MapboxResult.geometryJson result |}
  | JS.Throw _ =>
      {| ReadingRow.timestamp := now;
         ReadingRow.status := "ERROR";
         ReadingRow.has_live_data := 0;
         ReadingRow.avg_speed_mph := None;
         ReadingRow.confidence := None;
         ReadingRow.geometry_json := None |}
  end.

Module Window.
Record t := {
  description : string;
  since : option string;
  readings : nat;
  readingsWithLiveData : option nat (* absent from the empty answer *)
}.
End Window.

(** The object [aggregateReadings] returns. *)
Module Aggregate.
Record t := {
  timestamp : string;
  location : string;
  window : Window.t;
  status : AggregatedStatus.t;
  averageSpeedMph : option float;
  mostRecentLiveSpeedMph : option float;
  mostRecentLiveTimestamp : option string;
  geometry : option Geometry
}.
End Aggregate.

Definition LOCATION : string := "A417 Maisemore – Over Roundabout".

Definition hasSpeed (r : ReadingRow.t) : bool :=
  match ReadingRow.avg_speed_mph r with Some _ => true | None => false end.

Definition hasGeometry (r : ReadingRow.t) : bool :=
  match ReadingRow.geometry_json r with Some _ => true | None => false end.

(** [xs.filter(r => r.avg_speed_mph !== null).map(r => r.avg_speed_mph!)]. *)
Fixpoint speedsOf (rows : list ReadingRow.t) : list float :=
  match rows with
  | [] => []
  | r :: rest =>
      match ReadingRow.avg_speed_mph r with
      | Some v => v :: speedsOf rest
      | None => speedsOf rest
      end
  end.

(** [aggregateReadings], from the rows of the query on: [rows] is
    [rows.results], newest first ([ORDER BY timestamp DESC]); [now] is
    [new Date().toISOString()]. *)
Definition aggregateReadings (now : string) (since : option string)
    (rows : option (list ReadingRow.t)) : Aggregate.t :=
  let truthy := match since with Some s => negb (String.eqb s "") | None => false end in
  let windowLabel :=
    (if truthy then "since " ++ match since with Some s => s | None => "" end
     else "last " ++ JS.string_of_Z AGGREGATION_WINDOW_MINUTES ++ " minutes")%string in
  let readings := match rows with Some rs => rs | None => [] end in
  if (List.length readings =? 0)%nat then
    {| Aggregate.timestamp := now; Aggregate.location := LOCATION;
       Aggregate.window :=
         {| Window.description := windowLabel; Window.since := since;
            Window.readings := 0; Window.readingsWithLiveData := None |};
       Aggregate.status := AggregatedStatus.INSUFFICIENT_DATA;
       Aggregate.averageSpeedMph := None;
       Aggregate.mostRecentLiveSpeedMph := None;
       Aggregate.mostRecentLiveTimestamp := None;
       Aggregate.geometry := None |}
  else
    (* Any reading with live data in the window = road is open *)
    let liveReadings := filter (fun r => ReadingRow.has_live_data r =? 1) readings in
    let anyLiveData := (0 <? List.length liveReadings)%nat in
    (* Average speed across all readings that had live data *)
    let liveSpeeds := speedsOf liveReadings in
    let avgSpeed :=
      if (0 <? List.length liveSpeeds)%nat
      then Some (JS.Math_round
                   (JS.sum liveSpeeds / JS.of_nat (List.length liveSpeeds) * 10) / 10)
      else None in
    (* Most recent reading with live data (rows are already DESC by timestamp) *)
    let mostRecentLive := find hasSpeed liveReadings in
    (* GeoJSON LineString from the most recent reading that had geometry *)
    let latestWithGeometry := find hasGeometry readings in
    let geometry :=
      match latestWithGeometry with
      | Some r => ReadingRow.geometry_json r
      | None => None
      end in
    let status :=
      if anyLiveData then AggregatedStatus.LIKELY_OPEN
      else AggregatedStatus.NO_LIVE_DATA in
    {| Aggregate.timestamp := now; Aggregate.location := LOCATION;
       Aggregate.window :=
         {| Window.description := windowLabel; Window.since := since;
            Window.readings := List.length readings;
            Window.readingsWithLiveData := Some (List.length liveReadings) |};
       Aggregate.status := status;
       Aggregate.averageSpeedMph := avgSpeed;
       Aggregate.mostRecentLiveSpeedMph :=
         match mostRecentLive with
         | Some r => ReadingRow.avg_speed_mph r
         | None => None
         end;
       Aggregate.mostRecentLiveTimestamp :=
         match mostRecentLive with
         | Some r => Some (ReadingRow.timestamp r)
         | None => None
         end;
       Aggregate.geometry := geometry |}.

End TrafficMonitor.

(* ================================================================== *)
(** ** The route-check worker: its HTTP entry *)
(* ================================================================== *)

Module RouteWorker.

(** The body of a response.  [JSON.stringify(data, null, 2)] is kept
    symbolic: the body carries the value that is serialised. *)
Inductive Body :=
| NoBody
| Payload (data : RouteCheck.RouteCheck)
| Failure (error : string).

Record Response := {
  status : Z;
  headers : list (string * string);
  body : Body
}.

(** Cache for 5 minutes *)
Definition CACHE_TTL_SECONDS : Z := 300.

Definition CORS_HEADERS : list (string * string) :=
  [ ("Access-Control-Allow-Origin", "*");
    ("Access-Control-Allow-Methods", "GET, OPTIONS");
    ("Access-Control-Allow-Headers", "Content-Type") ]%string.

(** The CORS headers, spread, and the content type after them. *)
Definition jsonResponse (data : Body) (status : Z) : Response :=
  {| status := status;
     headers := CORS_HEADERS ++ [("Content-Type", "application/json")%string];
     body := data |}.

(** [headers.set(name, value)]: the value of an existing header is
    replaced, a new header is added at the end. *)
Fixpoint set (name value : string) (hs : list (string * string)) : list (string * string) :=
  match hs with
  | [] => [(name, value)]
  | (n, v) :: rest =>
      if String.eqb n name then (name, value) :: rest
      else (n, v) :: set name value rest
  end.

(** The worker's entry in [caches.default] under its one cache key,
    the root of the request's URL: a stored response, or nothing.  The
    platform drops the entry when its [max-age] has passed; [fetch] takes
    the cache as it finds it at the call. *)
Definition Cache := option Response.

(** [fetch(request, env)]: the response, and the cache after the call.
    [upstream] is the awaited answer of the routing API, consulted only
    when [checkRoute] runs. *)
Definition fetch (h : JS.Host) (now : string) (method : string) (cache : Cache)
    (TOMTOM_API_KEY : string)
    (upstream : JS.Response RouteCheck.TomTomRoutingResponse) : Response * Cache :=
  if String.eqb method "OPTIONS" then
    ({| status := 200; headers := CORS_HEADERS; body := NoBody |}, cache)
  else if negb (String.eqb method "GET") then
    (jsonResponse (Failure "Method not allowed") 405, cache)
  else
    (* Serve from cache if available *)
    match cache with
    | Some cached => (cached, cache)
    | None =>
        match RouteCheck.checkRoute h now TOMTOM_API_KEY upstream with
        | JS.Return data =>
            let response := jsonResponse (Payload data) 200 in
            let response :=
              {| status := status response;
                 headers := set "Cache-Control"
                                ("public, max-age=" ++ JS.string_of_Z CACHE_TTL_SECONDS)
                                (headers response);
                 body := body response |} in
            (response, Some response)
        | JS.Throw message => (jsonResponse (Failure message) 500, cache)
        end
    end.

End RouteWorker.

(* ================================================================== *)
(** ** The traffic worker: its table and its two queries *)
(* ================================================================== *)

Module TrafficWorker.
Import TrafficMonitor.

(** The [readings] table, in insertion order.  The columns [id] and
    [segments_json] are never read back and are left out. *)
Definition Table := list ReadingRow.t.

(** [a < b] on TEXT values: SQLite compares them byte by byte. *)
Definition textLt (a b : string) : bool :=
  match String.compare a b with
  | Lt => true
  | _ => false
  end.

(** [ORDER BY timestamp DESC], by insertion; rows with the same timestamp
    come out in an order SQL leaves open. *)
Fixpoint insertDesc (r : ReadingRow.t) (rows : list ReadingRow.t) : list ReadingRow.t :=
  match rows with
  | [] => [r]
  | x :: rest =>
      if textLt (ReadingRow.timestamp x) (ReadingRow.timestamp r)
      then r :: x :: rest
      else x :: insertDesc r rest
  end.

Definition orderDesc (rows : list ReadingRow.t) : list ReadingRow.t :=
  fold_right insertDesc [] rows.

(** [SELECT ... FROM readings WHERE timestamp > cutoff ORDER BY timestamp DESC]. *)
Definition select (cutoff : string) (db : Table) : list ReadingRow.t :=
  orderDesc (filter (fun r => textLt cutoff (ReadingRow.timestamp r)) db).

(** [aggregateReadings(db, since)] with its query.  [windowStart] is the
    value SQLite gives to [datetime('now', '-30 minutes')] when the
    statement runs; it is the cutoff when [since] is missing or empty. *)
Definition aggregateReadings (now windowStart : string) (db : Table)
    (since : option string) : Aggregate.t :=
  let cutoff :=
    match since with
    | Some s => if String.eqb s "" then windowStart else s
    | None => windowStart
    end in
  TrafficMonitor.aggregateReadings now since (Some (select cutoff db)).

(** [DELETE FROM readings WHERE timestamp < cutoff]. *)
Definition prune (cutoff : string) (db : Table) : Table :=
  filter (fun r => negb (textLt (ReadingRow.timestamp r) cutoff)) db.

(** [pollAndStore(env)] on the table: the row of the poll is inserted,
    then the rows older than [pruneBefore], the value of
    [datetime('now', '-7 days')], are deleted. *)
Definition pollAndStore (now pruneBefore : string)
    (result : JS.Outcome MapboxResult.t) (db : Table) : Table :=
  prune pruneBefore (db ++ [TrafficMonitor.pollAndStore now result]).

End TrafficWorker.

(* ================================================================== *)
(** ** site/src/App.tsx: the load of the page and its headline *)
(* ================================================================== *)

Module App.
Import Types Logic.

(** [RouteCheckResponse] of types.ts. *)
Module RouteCheckResponse.
Record Route := {
  distanceM : float;
  durationSec : float;
  trafficDelaySec : float;
  distanceRatio : float;
  closestToMidpointM : float
}.
Record t := {
  timestamp : string;
  location : string;
  status : RouteStatus.t;
  route : option Route
}.
End RouteCheckResponse.

(** The state [loadData] sets.  [floodWarnings] is stored as fetched and
    read by no decision; it is left out, with [loading], [lastUpdated]
    and [error]. *)
Module State.
Record t := {
  currentLevel : option float;
  readings : list EAReading;
  trend : TrendDirection.t;
  floodStatus : FloodStatus.t;
  routeDuration : option float;
  routeDelay : option float;
  trafficData : option TrafficResponse;
  roadAssessment : option RoadAssessment
}.
End State.

(** [promise.catch(() => fallback)]. *)
Definition orElse {A} (p : JS.Outcome A) (fallback : A) : A :=
  match p with
  | JS.Return a => a
  | JS.Throw _ => fallback
  end.

(** [let x = null; try { x = await p } catch (e) { }]. *)
Definition attempt {A} (p : JS.Outcome A) : option A :=
  match p with
  | JS.Return a => Some a
  | JS.Throw _ => None
  end.

(** [loadData].  The four fetchers of api.ts stand by their outcomes;
    [fetchTraffic] is called without [since] and, at most once, with the
    drop time. *)
Definition loadData (h : JS.Host) (w : JS.World)
    (fetchRiverReadings : JS.Outcome (list EAReading))
    (fetchLatestReading : JS.Outcome (option EAReading))
    (fetchRouteCheck : JS.Outcome RouteCheckResponse.t)
    (fetchTraffic : option string -> JS.Outcome TrafficResponse) : State.t :=
  (* Fetch river data and warnings in parallel *)
  let readingsData := orElse fetchRiverReadings [] in
  let latestData := orElse fetchLatestReading None in
  let level := option_map value latestData in
  let trendDir := determineTrend readingsData in
  let status := determineFloodStatus h w level readingsData in
  (* Fetch road data *)
  let routeData := attempt fetchRouteCheck in
  let rStatus := option_map RouteCheckResponse.status routeData in
  let route :=
    match routeData with
    | Some routeData => RouteCheckResponse.route routeData
    | None => None
    end in
  let rDuration := option_map RouteCheckResponse.durationSec route in
  let rDelay := option_map RouteCheckResponse.trafficDelaySec route in
  let tData := attempt (fetchTraffic None) in
  (* If there was a recent flood, check traffic since water dropped *)
  let tSinceFlood :=
    if FloodStatus.eqb status FloodStatus.RECEDING
       || FloodStatus.eqb status FloodStatus.CLEAR
    then
      match findTimeWaterDroppedBelowFlood readingsData with
      | Some dropTime =>
          if String.eqb dropTime "" then None
          else attempt (fetchTraffic (Some dropTime))
      | None => None
      end
    else None in
  let assessment := assessRoadStatus status rStatus tData tSinceFlood in
  {| State.currentLevel := level;
     State.readings := readingsData;
     State.trend := trendDir;
     State.floodStatus := status;
     State.routeDuration := rDuration;
     State.routeDelay := rDelay;
     State.trafficData := tData;
     State.roadAssessment := Some assessment |}.

Module StatusConfig.
Record t := { answer : string; detail : string }.
End StatusConfig.

(** [roadAssessment === null || roadAssessment.isOpen]: [null] and
    [false] are falsy. *)
Definition nullOrOpen (roadAssessment : option RoadAssessment) : bool :=
  match roadAssessment with
  | None => true
  | Some a =>
      match isOpen a with
      | Some b => b
      | None => false
      end
  end.

Definition getStatusConfig (status : FloodStatus.t) (trend : TrendDirection.t)
    (roadAssessment : option RoadAssessment) : StatusConfig.t :=
  match status with
  | FloodStatus.FLOODED =>
      {| StatusConfig.answer := "Yes.";
         StatusConfig.detail :=
           match trend with
           | TrendDirection.RISING =>
               "The river is above the road flooding level and still rising. The A417 is impassable."
           | TrendDirection.FALLING =>
               "The river is above the road flooding level but starting to fall. The A417 is still impassable."
           | _ => "The river is above the road flooding level. The A417 is impassable."
           end |}
  | FloodStatus.NEAR_FLOOD =>
      if nullOrOpen roadAssessment then
        {| StatusConfig.answer := "Maybe / soon.";
           StatusConfig.detail :=
             match trend with
             | TrendDirection.RISING =>
                 "The river is near the road flooding level and rising. The road may potentially be passable but conditions will likely worsen — drive with caution."
             | _ => "The river is near the road flooding level. The road may potentially be passable but may be affected if levels rise."
             end |}
      else
        {| StatusConfig.answer := "Probably.";
           StatusConfig.detail :=
             "The river is near the historic road flooding level and the road appears to have been closed." |}
  | FloodStatus.RECEDING =>
      {| StatusConfig.answer := "Receding.";
         StatusConfig.detail :=
           "The river was recently above road flooding level but has now dropped. Check the road status below." |}
  | FloodStatus.CLEAR =>
      {| StatusConfig.answer := "No.";
         StatusConfig.detail := "The river is within normal levels. The road should be clear." |}
  | FloodStatus.UNKNOWN =>
      {| StatusConfig.answer := "Unknown.";
         StatusConfig.detail :=
           "River level data is currently unavailable. Check the road status and flood warnings below." |}
  end.

(** The headline of the page, [getStatusConfig(floodStatus, trend,
    roadAssessment)] on the state. *)
Definition statusConfig (s : State.t) : StatusConfig.t :=
  getStatusConfig (State.floodStatus s) (State.trend s) (State.roadAssessment s).

End App.

(* ================================================================== *)
(** * The vocabulary of the statements, and sample inputs *)
(* ================================================================== *)

(** ** The comparison of binary64 numbers *)

Module Order.

Definition cmp (x y : float) : option comparison :=
  SFcompare (Prim2SF x) (Prim2SF y).

(** [x] is a number: not NaN. *)
Definition is_number (x : float) : Prop := cmp x x = Some Eq.

Ltac order_cases :=
  repeat match goal with
    | |- context [(?a ?= ?b)%Z] => destruct (Z.compare_spec a b)
    | H : context [(?a ?= ?b)%Z] |- _ => destruct (Z.compare_spec a b)
    | |- context [(?a ?= ?b)%positive] => destruct (Pos.compare_spec a b)
    | H : context [(?a ?= ?b)%positive] |- _ => destruct (Pos.compare_spec a b)
    end.

End Order.

(** ** Trend and flood status *)

Module ClassifierSpec.
Import Types Logic.

(** The difference [determineTrend] thresholds: last value minus first
    value of the trailing window. *)
Definition trend_of_diff (diff : float) : TrendDirection.t :=
  if abs diff <? 0.02 then TrendDirection.STEADY
  else if 0 <? diff then TrendDirection.RISING
  else TrendDirection.FALLING.

Definition reading (t : string) (v : float) : EAReading :=
  {| dateTime := t; value := v |}.

(** A reading at or above the road-flood level, and a reading newer than
    seven days before the clock of [w]: the two tests of the scan. *)
Definition reachedFlood (r : EAReading) : bool :=
  JS.geb (value r) THRESHOLDS.ROAD_FLOOD.

Definition withinSevenDays (h : JS.Host) (w : JS.World) (r : EAReading) : bool :=
  JS.gtb (JS.Date_getTime h (dateTime r)) (JS.Date_now w - SEVEN_DAYS_MS).

Definition recentFlood (h : JS.Host) (w : JS.World) (readings : list EAReading) : Prop :=
  exists r, In r readings /\ reachedFlood r = true /\ withinSevenDays h w r = true.

(** 2024-01-05T12:00:00Z, and the same instant ten days later. *)
Definition noon_5_jan : JS.World := {| JS.Date_now := 1704456000000 |}.

Definition noon_15_jan : JS.World := {| JS.Date_now := 1705320000000 |}.

Definition flood_of_3_jan : list EAReading :=
  [reading "2024-01-03T12:00:00Z" 4.1; reading "2024-01-04T12:00:00Z" 3.8].

End ClassifierSpec.

(** ** Reconciler *)

Module ReconcilerSpec.
Import Types Logic.

Definition sinceFlood (live : float) : TrafficResponse :=
  {| timestamp := "2024-01-05T12:00:00.000Z";
     location := "A417 Maisemore – Over Roundabout";
     status := (if JS.gtb live 0 then LIVE_DATA else NO_LIVE_DATA);
     window := {| description := "since 2024-01-04T12:00:00Z";
                  since := Some "2024-01-04T12:00:00Z"%string;
                  readings := 40;
                  readingsWithLiveData := live |};
     averageSpeedMph := None;
     mostRecentLiveSpeedMph := None;
     mostRecentLiveTimestamp := None |}.

End ReconcilerSpec.

(** ** Calls and what they depend on *)

Module DeterminismSpec.
Import Types Logic.

(** A call [f w a] is made in a world [w] with the arguments [a].  The
    result depends on the arguments alone when the world is irrelevant. *)
Definition depends_on_arguments_only {A B : Type} (f : JS.World -> A -> B) : Prop :=
  forall (w w' : JS.World) (a a' : A), a = a' -> f w a = f w' a'.

Definition call_determineFloodStatus (h : JS.Host) (w : JS.World)
    (a : option float * list EAReading) :=
  determineFloodStatus h w (fst a) (snd a).

Definition level_and_readings : option float * list EAReading :=
  (Some 3.5, ClassifierSpec.flood_of_3_jan).

(** Two clocks see the same window on [readings]: every reading at or
    above ROAD_FLOOD is within the trailing seven days of both, or of
    neither. *)
Definition sameWindow (h : JS.Host) (w w' : JS.World) (readings : list EAReading) : Prop :=
  forall r, In r readings -> ClassifierSpec.reachedFlood r = true ->
            ClassifierSpec.withinSevenDays h w r = ClassifierSpec.withinSevenDays h w' r.

(** A level that is settled before the readings are looked at: missing,
    in the FLOODED or NEAR_FLOOD band, or not above NORMAL_HIGH (NaN
    included). *)
Definition settledByLevel (currentLevel : option float) : Prop :=
  currentLevel = None \/
  exists c, currentLevel = Some c /\
            (JS.geb c (THRESHOLDS.ROAD_FLOOD - 0.05) = true \/
             JS.geb c (THRESHOLDS.FLOOD_WARNING - 0.05) = true \/
             JS.gtb c THRESHOLDS.NORMAL_HIGH = false).

(** 2024-01-05T13:00:00Z. *)
Definition one_pm_5_jan : JS.World := {| JS.Date_now := 1704459600000 |}.

End DeterminismSpec.

(** ** Route classification *)

Module RouteSpec.
Import RouteCheck.

Definition distanceTo (h : JS.Host) (target : LatLng) (p : Point) : float :=
  haversineM h (latitude p) (longitude p) (lat target) (lng target).

Definition statusOf (o : JS.Outcome RouteCheck) : option RouteStatus.t :=
  match o with
  | JS.Return rc => Some (status rc)
  | JS.Throw _ => None
  end.

(** The two conditions of the classification. *)
Definition isShortRoute (route : TomTomRoute) : Prop :=
  (lengthInMeters (summary route) / DIRECT_DISTANCE_M <? DETOUR_THRESHOLD_MULTIPLIER) = true.

Definition passesNearMidpoint (h : JS.Host) (route : TomTomRoute) : Prop :=
  exists p, In p (flat_map points (legs route)) /\
            (distanceTo h A417_MIDPOINT p <? MIDPOINT_PROXIMITY_M) = true.

Definition okResponse (routes : option (list TomTomRoute))
  : JS.Response TomTomRoutingResponse :=
  {| JS.ok := true; JS.status := 200; JS.text := "";
     JS.json := {| routes := routes |} |}.

Definition routeOf (length : float) (pts : list Point) : TomTomRoute :=
  {| summary := {| lengthInMeters := length; travelTimeInSeconds := 150;
                   trafficDelayInSeconds := 0 |};
     legs := [ {| points := pts |} ] |}.

(** A polyline from the origin along the A417, passing 45 m from the
    midpoint. *)
Definition alongA417 : list Point :=
  [ {| latitude := 51.889861372093094; longitude := -2.275701917721733 |};
    {| latitude := 51.8845; longitude := -2.2672 |};
    {| latitude := 51.87532802057413; longitude := -2.2633948798302583 |} ].

End RouteSpec.

(** ** Per-poll traffic classification *)

Module PollSpec.
Import TrafficMonitor.

(** [xs.reduce((a, b) => a + b, 0) / xs.length], and the same with
    [null] for the empty array. *)
Definition mean (xs : list float) : float := JS.sum xs / JS.of_nat (List.length xs).

Definition average (xs : list float) : option float :=
  match xs with
  | [] => None
  | _ :: _ => Some (mean xs)
  end.

(** The annotation arrays of one leg, empty when the leg has none. *)
Definition arrayOf {A} (f : Annotation -> option (list A)) (leg : MapboxLeg) : list A :=
  match field f leg with
  | Some xs => xs
  | None => []
  end.

(** The segments of a poll: each speed with the congestion tag at the
    same position, [unknown] where the tags run out. *)
Fixpoint segmentsOf (speeds : list float) (tags : list string) : list (float * string) :=
  match speeds with
  | [] => []
  | s :: speeds' =>
      match tags with
      | [] => (s, "unknown"%string) :: segmentsOf speeds' []
      | c :: tags' => (s, c) :: segmentsOf speeds' tags'
      end
  end.

(** The speeds, in mph, of the segments whose tag is not [unknown]. *)
Definition liveSegmentSpeeds (speeds : list float) (tags : list string) : list float :=
  map (fun sc => mpsToMph (fst sc))
      (filter (fun sc => negb (isUnknown (snd sc))) (segmentsOf speeds tags)).

Definition leg (speeds : option (list float)) (tags : option (list string)) : MapboxLeg :=
  {| annotation := Some {| speed := speeds; congestion := tags; distance := None |} |}.

Definition line : Geometry :=
  {| type := "LineString"; coordinates := [(-2.2672, 51.8883); (-2.2653, 51.8765)] |}.

Definition okResponse (legs : list MapboxLeg) : JS.Response MapboxMatchResponse :=
  {| JS.ok := true; JS.status := 200; JS.text := "";
     JS.json := {| code := "Ok";
                   matchings := Some [ {| confidence := 0.9; geometry := line;
                                          legs := legs |} ] |} |}.

(** Three segments at 10, 20 and 5 m/s, the second one stale. *)
Definition threeSegments : list MapboxLeg :=
  [ leg (Some [10; 20]) (Some ["low"; "unknown"]%string);
    leg (Some [5]) (Some ["heavy"%string]) ].

(** Segments agree where it matters when they have the same speed at
    every position whose tag is not [unknown]. *)
Inductive agreeOnLive : list float -> list float -> list string -> Prop :=
| agree_nil tags : agreeOnLive [] [] tags
| agree_stale s s' speeds speeds' :
    agreeOnLive speeds speeds' [] -> agreeOnLive (s :: speeds) (s' :: speeds') []
| agree_unknown s s' speeds speeds' tags :
    agreeOnLive speeds speeds' tags ->
    agreeOnLive (s :: speeds) (s' :: speeds') ("unknown"%string :: tags)
| agree_same s speeds speeds' c tags :
    agreeOnLive speeds speeds' tags ->
    agreeOnLive (s :: speeds) (s :: speeds') (c :: tags).

End PollSpec.

(** ** Window aggregation *)

Module WindowSpec.
Import TrafficMonitor.
Import PollSpec.

(** The test of the aggregation, [r.has_live_data === 1]. *)
Definition isLive (r : ReadingRow.t) : bool := ReadingRow.has_live_data r =? 1.

Definition liveWithSpeed (r : ReadingRow.t) : bool := isLive r && hasSpeed r.

(** [Math.round(x * 10) / 10]: one decimal place. *)
Definition round1 (x : float) : float := JS.Math_round (x * 10) / 10.

(** The row stored at time [t] for a successful poll with the legs
    [legs]. *)
Definition poll (t : string) (legs : list MapboxLeg) : ReadingRow.t :=
  pollAndStore t (fetchMapbox "token" (okResponse legs)).

Definition oneSegment (s : float) (tag : string) : list MapboxLeg :=
  [leg (Some [s]) (Some [tag])].

(** A poll whose only speed belongs to a stale segment while a second leg
    brings a live tag without a speed: live data, and no average speed. *)
Definition liveWithoutSpeed : list MapboxLeg :=
  [leg (Some [5]) (Some ["unknown"%string]); leg None (Some ["low"%string])].

(** Four minutes of 5 January 2024. *)
Definition t1201 : string := "2024-01-05T12:01:00.000Z".
Definition t1202 : string := "2024-01-05T12:02:00.000Z".
Definition t1203 : string := "2024-01-05T12:03:00.000Z".
Definition t1204 : string := "2024-01-05T12:04:00.000Z".

(** Three polls, two of them live at 20 and 30 mph. *)
Definition threePolls : list ReadingRow.t :=
  [ poll t1203 (oneSegment 8.94 "low");
    poll t1202 (oneSegment 9.03 "unknown");
    poll t1201 (oneSegment 13.41 "low") ].

(** The newest poll is live without a speed; the two older ones are live
    at 20.1 and 20.2 mph. *)
Definition newestWithoutSpeed : list ReadingRow.t :=
  [ poll t1203 liveWithoutSpeed;
    poll t1202 (oneSegment 8.985 "low");
    poll t1201 (oneSegment 9.03 "low") ].

(** The answer at 12:04 on the default window holding [rows]. *)
Definition answer (rows : list ReadingRow.t) : Aggregate.t :=
  aggregateReadings t1204 None (Some rows).

(** C8 in the words of the claim: the plain mean of the speeds of the
    live polls, and the newest live poll. *)
Module AsStated.
Definition averageSpeed (rows : list ReadingRow.t) : option float :=
  average (speedsOf (filter isLive rows)).

Definition mostRecentLive (rows : list ReadingRow.t) : option ReadingRow.t :=
  find isLive rows.
End AsStated.

End WindowSpec.

(** ** More sample readings, and the case analysis of the reconciler *)

Module ClassifierSamples.
Import Types Logic ClassifierSpec.

(** Two readings at flood level on 3 January: the higher one is the peak. *)
Definition two_peaks : list EAReading :=
  [reading "2024-01-03T06:00:00Z" 4.0; reading "2024-01-03T12:00:00Z" 4.2;
   reading "2024-01-03T18:00:00Z" 4.1].

End ClassifierSamples.

Module ReconcilerCases.
Import Types Logic.

(** Every flood status and route status, and both answers of the two
    tests on the traffic since the flood. *)
Ltac verdicts :=
  unfold assessRoadStatus;
  repeat match goal with
    | f : FloodStatus.t |- _ => destruct f
    | r : option RouteStatus.t |- _ => destruct r as [[]|]
    end;
  cbn [FloodStatus.eqb RouteStatus.equals RouteStatus.eqb orb];
  repeat match goal with
    | |- context [liveSince ?t] => destruct (liveSince t) eqn:?
    | |- context [noneSince ?t] => destruct (noneSince t) eqn:?
    end;
  cbn [isOpen confidence].

End ReconcilerCases.

(** ** The route-check worker *)

Module RouteWorkerSpec.
Import RouteWorker.

(** A response that carries the three CORS headers. *)
Definition hasCors (r : Response) : Prop :=
  forall header, In header CORS_HEADERS -> In header (headers r).

(** A cache that holds nothing, or a response with the CORS headers. *)
Definition corsCache (c : Cache) : Prop :=
  match c with
  | Some r => hasCors r
  | None => True
  end.

(** An upstream failure: HTTP 503. *)
Definition unavailable : JS.Response RouteCheck.TomTomRoutingResponse :=
  {| JS.ok := false; JS.status := 503; JS.text := "Service Unavailable";
     JS.json := {| RouteCheck.routes := None |} |}.

End RouteWorkerSpec.

(** ** The traffic worker's table *)

Module TableSpec.
Import TrafficMonitor.

(** The two spellings of an instant: [toISOString] writes the date, a
    [T] and the time of day; SQLite's [datetime] writes the date, a space
    and the time of day. *)
Definition isoStamp (date rest : string) : string := (date ++ "T" ++ rest)%string.
Definition sqlStamp (date time : string) : string := (date ++ " " ++ time)%string.

(** [a <= b] and [a >= b] on TEXT values. *)
Definition textLe (a b : string) : Prop := String.compare a b <> Gt.
Definition textGe (a b : string) : Prop := String.compare a b <> Lt.

(** A row stamped by [toISOString]: a calendar day of ten characters,
    a [T] and the time of day. *)
Definition isoStamped (r : ReadingRow.t) : Prop :=
  exists day rest,
    ReadingRow.timestamp r = isoStamp day rest /\ String.length day = 10%nat.

(** The calendar day of a row, and the rows stored on [date] or later. *)
Definition dayOf (r : ReadingRow.t) : string :=
  substring 0 10 (ReadingRow.timestamp r).

Definition onOrAfter (date : string) (r : ReadingRow.t) : bool :=
  negb (TrafficWorker.textLt (dayOf r) date).

(** A request without [since], or with an empty one. *)
Definition noSince (since : option string) : Prop :=
  since = None \/ since = Some ""%string.

(** Newest first: no row is older than a row that follows it. *)
Fixpoint newestFirst (rows : list ReadingRow.t) : Prop :=
  match rows with
  | [] => True
  | x :: rest =>
      Forall (fun y => textGe (ReadingRow.timestamp x) (ReadingRow.timestamp y)) rest
      /\ newestFirst rest
  end.

(** A poll with live data stored just after midnight, and one stored at
    noon without. *)
Definition midnightPoll : ReadingRow.t :=
  WindowSpec.poll "2024-01-05T00:00:05.000Z" (WindowSpec.oneSegment 8.94 "low").

Definition noonPoll : ReadingRow.t :=
  WindowSpec.poll "2024-01-05T12:03:00.000Z" (WindowSpec.oneSegment 9.03 "unknown").

Definition yesterdayPoll : ReadingRow.t :=
  WindowSpec.poll "2024-01-04T23:59:05.000Z" (WindowSpec.oneSegment 8.94 "low").

Definition threeDays : TrafficWorker.Table := [yesterdayPoll; midnightPoll; noonPoll].

End TableSpec.

(** ** The page *)

Module AppSpec.
Import Types Logic App.

(** The latest reading could not be had: the request failed, or the
    station reported none. *)
Definition noLatest (p : JS.Outcome (option EAReading)) : Prop :=
  p = JS.Return None \/ exists message, p = JS.Throw message.

(** The route status the page passes on. *)
Definition routeStatusOf (p : JS.Outcome RouteCheckResponse.t) : option RouteStatus.t :=
  match p with
  | JS.Return r => Some (RouteCheckResponse.status r)
  | JS.Throw _ => None
  end.

(** A traffic service that answers a request since [t] with [live]
    readings with live data, and fails on every other request. *)
Definition trafficSince (t : string) (live : float) (since : option string)
    : JS.Outcome TrafficResponse :=
  match since with
  | Some s => if String.eqb s t then JS.Return (ReconcilerSpec.sinceFlood live)
              else JS.Throw "Traffic API error: 500"
  | None => JS.Throw "Traffic API error: 500"
  end.

Definition offline {A} : JS.Outcome A := JS.Throw "Failed to fetch".

End AppSpec.

(* ================================================================== *)
(** * Properties *)
(* ================================================================== *)

(** ** The order of binary64 numbers

    [<?] and [<=?] are specified by [SFcompare] on the decoded numbers, a
    three-way comparison that is undefined exactly when an operand is NaN. *)

Module FloatOrder.
Import Order.

Lemma SFcompare_opp a b : SFcompare b a = option_map CompOpp (SFcompare a b).
Proof.
  destruct a as [sa|sa| |sa ma ea], b as [sb|sb| |sb mb eb]; simpl;
    try destruct sa; try destruct sb; try reflexivity.
  all: change (PosDef.Pos.compare_cont Eq) with Pos.compare.
  all: order_cases; simpl; subst; try reflexivity; try lia.
Qed.

Lemma SFcompare_trans a b c r :
  SFcompare a b = Some Lt \/ SFcompare a b = Some Eq ->
  SFcompare b c = Some r -> r <> Gt ->
  SFcompare a c = Some (match SFcompare a b with Some Lt => Lt | _ => r end).
Proof.
  destruct a as [sa|sa| |sa ma ea], b as [sb|sb| |sb mb eb], c as [sc|sc| |sc mc ec];
    simpl; try destruct sa; try destruct sb; try destruct sc;
    intros [H|H] H' Hr; try discriminate; try reflexivity; try assumption;
    try (injection H' as <-; congruence).
  all: revert H H'; change (PosDef.Pos.compare_cont Eq) with Pos.compare.
  all: order_cases; simpl; intros; subst; try discriminate; try reflexivity; try lia;
    try assumption; try (injection H' as <-; congruence).
Qed.

Lemma SFcompare_defined a b :
  SFcompare a a = Some Eq -> SFcompare b b = Some Eq -> SFcompare a b <> None.
Proof.
  destruct a as [sa|sa| |sa ma ea], b as [sb|sb| |sb mb eb]; simpl; congruence.
Qed.

Lemma SFcompare_refl a c b : SFcompare a b = Some c -> SFcompare a a = Some Eq.
Proof.
  destruct a as [sa|sa| |sa ma ea]; simpl; try destruct sa; try reflexivity;
    try discriminate; intros _.
  all: rewrite Z.compare_refl; change (PosDef.Pos.compare_cont Eq) with Pos.compare;
    rewrite Pos.compare_refl; reflexivity.
Qed.

Lemma ltb_cmp x y : (x <? y) = true <-> cmp x y = Some Lt.
Proof.
  rewrite ltb_spec. unfold SFltb, cmp.
  destruct (SFcompare _ _) as [[]|]; split; congruence.
Qed.

Lemma leb_cmp x y : (x <=? y) = true <-> cmp x y = Some Lt \/ cmp x y = Some Eq.
Proof.
  rewrite leb_spec. unfold SFleb, cmp.
  destruct (SFcompare _ _) as [[]|]; split; intros H; auto; try congruence;
    destruct H; congruence.
Qed.

Lemma cmp_opp x y : cmp y x = option_map CompOpp (cmp x y).
Proof. apply SFcompare_opp. Qed.

(** [x < y] excludes [y <= x], and [x <= y] excludes [y < x]. *)
Lemma ltb_not_geb x y : (x <? y) = true -> (y <=? x) = false.
Proof.
  intros H. apply ltb_cmp in H. apply not_true_is_false. intros G.
  apply leb_cmp in G. rewrite (cmp_opp x y), H in G. simpl in G.
  destruct G; discriminate.
Qed.

Lemma leb_not_gtb x y : (x <=? y) = true -> (y <? x) = false.
Proof.
  intros H. apply leb_cmp in H. apply not_true_is_false. intros G.
  apply ltb_cmp in G. rewrite (cmp_opp x y) in G.
  destruct H as [H|H]; rewrite H in G; discriminate.
Qed.

Lemma leb_ltb_trans x y z : (x <=? y) = true -> (y <? z) = true -> (x <? z) = true.
Proof.
  intros H G. apply leb_cmp in H. apply ltb_cmp in G. apply ltb_cmp.
  unfold cmp in *.
  rewrite (SFcompare_trans _ _ _ Lt H G) by discriminate.
  destruct H as [H|H]; rewrite H; reflexivity.
Qed.

Lemma ltb_trans x y z : (x <? y) = true -> (y <? z) = true -> (x <? z) = true.
Proof.
  intros H. apply leb_ltb_trans. apply leb_cmp. left. now apply ltb_cmp.
Qed.

Lemma ltb_is_number x y : (x <? y) = true -> is_number x.
Proof. intros H. apply ltb_cmp in H. exact (SFcompare_refl _ _ _ H). Qed.

(** Two numbers are comparable: when [x < y] fails, [y <= x] holds. *)
Lemma not_ltb_geb x y :
  is_number x -> is_number y -> (x <? y) = false -> (y <=? x) = true.
Proof.
  intros Hx Hy H. apply leb_cmp. rewrite (cmp_opp x y).
  pose proof (SFcompare_defined _ _ Hx Hy) as D. fold (cmp x y) in D.
  destruct (cmp x y) as [[]|] eqn:E; simpl; auto.
  - apply ltb_cmp in E. congruence.
  - congruence.
Qed.

(** Nothing is above [infinity]. *)
Lemma infinity_not_ltb b : (infinity <? b) = false.
Proof.
  rewrite ltb_spec. unfold SFltb.
  change (Prim2SF infinity) with (S754_infinity false).
  destruct (Prim2SF b) as [s|s| |s m e]; simpl; try destruct s; reflexivity.
Qed.

Lemma infinity_is_number : is_number infinity.
Proof. reflexivity. Qed.

End FloatOrder.

(* ================================================================== *)
(** ** Trend and flood-status classifier *)
(* ================================================================== *)

Module ClassifierProperties.
Import Types Logic.
Import ClassifierSpec.

(** With four readings or more, [determineTrend] reads [readings[n - 8]]
    (or [readings[0]] when [n < 8]) and [readings[n - 1]], and nothing
    else: the [TypeError] branch of the embedding is dead. *)
Lemma determineTrend_reads_window (readings : list EAReading) :
  4 <= List.length readings ->
  exists first last,
    nth_error readings (List.length readings - 8)%nat = Some first /\
    nth_error readings (List.length readings - 1)%nat = Some last /\
    determineTrend readings = trend_of_diff (value last - value first).
Proof.
  intros Hlen. unfold determineTrend, JS.slice_last.
  destruct (Nat.ltb_spec (List.length readings) 4) as [Hlt|_]; [lia|].
  rewrite length_skipn, !nth_error_skipn, Nat.add_0_r.
  match goal with
  | |- context [Nat.ltb ?a 2] => destruct (Nat.ltb_spec a 2) as [Hlt|_]; [lia|]
  end.
  match goal with
  | |- context [nth_error readings (?a + ?b)%nat] =>
      replace (a + b)%nat with (List.length readings - 1)%nat by lia
  end.
  destruct (nth_error readings (List.length readings - 8)%nat) as [first|] eqn:Hf.
  2: { apply nth_error_None in Hf. lia. }
  destruct (nth_error readings (List.length readings - 1)%nat) as [last|] eqn:Hl.
  2: { apply nth_error_None in Hl. lia. }
  exists first, last. repeat split.
Qed.

Lemma determineTrend_short (readings : list EAReading) :
  List.length readings < 4 -> determineTrend readings = TrendDirection.UNKNOWN.
Proof.
  intros Hlen. unfold determineTrend.
  destruct (Nat.ltb_spec (List.length readings) 4); [reflexivity|lia].
Qed.

(** C4.  [determineTrend] answers UNKNOWN on fewer than four readings.
    Otherwise, with [diff] the last value minus the first value of the
    trailing window of eight, it answers STEADY exactly when
    [|diff| < 0.02], RISING exactly when [diff > 0] and not STEADY, and
    FALLING in every other case; the bound is strict, a [diff] equal to
    [0.02] is not STEADY. *)
Theorem determineTrend_spec (readings : list EAReading) :
  (List.length readings < 4 -> determineTrend readings = TrendDirection.UNKNOWN) /\
  (4 <= List.length readings ->
   exists first last,
     nth_error readings (List.length readings - 8)%nat = Some first /\
     nth_error readings (List.length readings - 1)%nat = Some last /\
     let diff := value last - value first in
     (determineTrend readings = TrendDirection.STEADY <-> (abs diff <? 0.02) = true) /\
     (determineTrend readings = TrendDirection.RISING <->
        (0 <? diff) = true /\ (abs diff <? 0.02) = false) /\
     (determineTrend readings = TrendDirection.FALLING <->
        (0 <? diff) = false /\ (abs diff <? 0.02) = false) /\
     (diff = 0.02 -> determineTrend readings <> TrendDirection.STEADY)).
Proof.
  split; [apply determineTrend_short|].
  intros Hlen.
  destruct (determineTrend_reads_window readings Hlen) as (first & last & Hf & Hl & ->).
  exists first, last. split; [exact Hf|]. split; [exact Hl|].
  cbv zeta. unfold trend_of_diff.
  assert (boundary : value last - value first = 0.02 ->
                     (abs (value last - value first) <? 0.02) = false)
    by (intros ->; reflexivity).
  destruct (abs (value last - value first) <? 0.02);
    destruct (0 <? value last - value first);
    intuition congruence.
Qed.

(** Four readings rising from 1.00 to 1.02: the computed difference is
    just above 0.02 and the trend is RISING. *)
Lemma determineTrend_spec_witness :
  exists first last,
    nth_error [reading "a" 1; reading "b" 1; reading "c" 1; reading "d" 1.02] (4 - 8)%nat
      = Some first /\
    nth_error [reading "a" 1; reading "b" 1; reading "c" 1; reading "d" 1.02] (4 - 1)%nat
      = Some last /\
    (determineTrend [reading "a" 1; reading "b" 1; reading "c" 1; reading "d" 1.02]
       = TrendDirection.RISING <->
     (0 <? value last - value first) = true
     /\ (abs (value last - value first) <? 0.02) = false).
Proof.
  destruct (proj2 (determineTrend_spec
                     [reading "a" 1; reading "b" 1; reading "c" 1; reading "d" 1.02])
              (le_n 4))
    as (first & last & Hf & Hl & _ & Hr & _).
  exists first, last. exact (conj Hf (conj Hl Hr)).
Defined.

Example determineTrend_three_readings :
  determineTrend [reading "a" 1; reading "b" 2; reading "c" 3] = TrendDirection.UNKNOWN.
Proof. reflexivity. Qed.

(** Eight readings are compared, not nine: the first of nine is ignored. *)
Example determineTrend_trailing_eight :
  determineTrend
    [reading "t0" 5; reading "t1" 1; reading "t2" 1; reading "t3" 1; reading "t4" 1;
     reading "t5" 1; reading "t6" 1; reading "t7" 1; reading "t8" 1.01]
  = TrendDirection.STEADY.
Proof. reflexivity. Qed.

(** A difference of exactly 0.02 is outside the deadband. *)
Example determineTrend_exact_bound :
  (0.02 - 0 =? 0.02) = true /\
  determineTrend [reading "a" 0; reading "b" 0; reading "c" 0; reading "d" 0.02]
  = TrendDirection.RISING /\
  determineTrend [reading "a" 0.02; reading "b" 0; reading "c" 0; reading "d" 0]
  = TrendDirection.FALLING.
Proof. repeat split. Qed.

(** The subtraction is the binary64 one: from 0.01 to 0.03 the computed
    difference is 0.019999999999999997, below the bound. *)
Example determineTrend_rounded_difference :
  (0.03 - 0.01 <? 0.02) = true /\
  determineTrend [reading "a" 0.01; reading "b" 0.02; reading "c" 0.02; reading "d" 0.03]
  = TrendDirection.STEADY.
Proof. split; reflexivity. Qed.

Lemma recentFlood_existsb h w readings :
  existsb (fun r => JS.geb (value r) THRESHOLDS.ROAD_FLOOD
                    && JS.gtb (JS.Date_getTime h (dateTime r))
                              (JS.Date_now w - SEVEN_DAYS_MS)) readings = true
  <-> recentFlood h w readings.
Proof.
  rewrite existsb_exists. unfold recentFlood, reachedFlood, withinSevenDays.
  split; intros (r & Hin & H); exists r; split; auto.
  - now apply andb_true_iff in H.
  - now apply andb_true_iff.
Qed.

(** Below the two upper bands the answer is decided by the scan alone. *)
Lemma determineFloodStatus_lower_bands h w c readings :
  JS.geb c (THRESHOLDS.ROAD_FLOOD - 0.05) = false ->
  JS.geb c (THRESHOLDS.FLOOD_WARNING - 0.05) = false ->
  (determineFloodStatus h w (Some c) readings = FloodStatus.RECEDING
   <-> recentFlood h w readings /\ JS.gtb c THRESHOLDS.NORMAL_HIGH = true) /\
  (determineFloodStatus h w (Some c) readings = FloodStatus.CLEAR
   <-> ~ (recentFlood h w readings /\ JS.gtb c THRESHOLDS.NORMAL_HIGH = true)).
Proof.
  intros H1 H2. unfold determineFloodStatus. rewrite H1, H2.
  rewrite <- recentFlood_existsb.
  destruct (existsb _ readings); destruct (JS.gtb c THRESHOLDS.NORMAL_HIGH); simpl;
    intuition congruence.
Qed.

(** The bands are ordered: a level below the warning band is below the
    flood band, and a level at most NORMAL_HIGH is below both. *)
Lemma below_warning_band c :
  (c <? THRESHOLDS.FLOOD_WARNING - 0.05) = true ->
  JS.geb c (THRESHOLDS.ROAD_FLOOD - 0.05) = false /\
  JS.geb c (THRESHOLDS.FLOOD_WARNING - 0.05) = false.
Proof.
  intros H. unfold JS.geb. split.
  - apply FloatOrder.ltb_not_geb.
    apply (FloatOrder.ltb_trans _ _ _ H). reflexivity.
  - now apply FloatOrder.ltb_not_geb.
Qed.

Lemma at_most_normal_high c :
  (c <=? THRESHOLDS.NORMAL_HIGH) = true ->
  (c <? THRESHOLDS.FLOOD_WARNING - 0.05) = true /\
  JS.gtb c THRESHOLDS.NORMAL_HIGH = false.
Proof.
  intros H. split.
  - apply (FloatOrder.leb_ltb_trans _ _ _ H). reflexivity.
  - now apply FloatOrder.leb_not_gtb.
Qed.

(** C3.  [determineFloodStatus] is the threshold ladder, read top-down:
    no current level gives UNKNOWN; a level at or above ROAD_FLOOD - 0.05
    gives FLOODED; else a level at or above FLOOD_WARNING - 0.05 gives
    NEAR_FLOOD; else the answer is RECEDING exactly when some reading of
    the trailing seven days reached ROAD_FLOOD and the level is above
    NORMAL_HIGH, and CLEAR otherwise.  In particular a level below the
    warning band with every reading of the trailing seven days below
    ROAD_FLOOD, and any level at most NORMAL_HIGH, give CLEAR. *)
Theorem determineFloodStatus_ladder (h : JS.Host) (w : JS.World)
    (readings : list EAReading) :
  determineFloodStatus h w None readings = FloodStatus.UNKNOWN /\
  forall c : float,
    (JS.geb c (THRESHOLDS.ROAD_FLOOD - 0.05) = true ->
     determineFloodStatus h w (Some c) readings = FloodStatus.FLOODED) /\
    (JS.geb c (THRESHOLDS.ROAD_FLOOD - 0.05) = false ->
     JS.geb c (THRESHOLDS.FLOOD_WARNING - 0.05) = true ->
     determineFloodStatus h w (Some c) readings = FloodStatus.NEAR_FLOOD) /\
    (JS.geb c (THRESHOLDS.ROAD_FLOOD - 0.05) = false ->
     JS.geb c (THRESHOLDS.FLOOD_WARNING - 0.05) = false ->
     (determineFloodStatus h w (Some c) readings = FloodStatus.RECEDING
      <-> recentFlood h w readings /\ JS.gtb c THRESHOLDS.NORMAL_HIGH = true) /\
     (determineFloodStatus h w (Some c) readings = FloodStatus.CLEAR
      <-> ~ (recentFlood h w readings /\ JS.gtb c THRESHOLDS.NORMAL_HIGH = true))) /\
    ((c <? THRESHOLDS.FLOOD_WARNING - 0.05) = true ->
     (forall r, In r readings -> withinSevenDays h w r = true ->
                (value r <? THRESHOLDS.ROAD_FLOOD) = true) ->
     determineFloodStatus h w (Some c) readings = FloodStatus.CLEAR) /\
    ((c <=? THRESHOLDS.NORMAL_HIGH) = true ->
     determineFloodStatus h w (Some c) readings = FloodStatus.CLEAR).
Proof.
  split; [reflexivity|]. intros c. repeat apply conj.
  - intros H. unfold determineFloodStatus. now rewrite H.
  - intros H1 H2. unfold determineFloodStatus. now rewrite H1, H2.
  - apply determineFloodStatus_lower_bands.
  - intros Hc Hall. destruct (below_warning_band c Hc) as [H1 H2].
    apply (determineFloodStatus_lower_bands h w c readings H1 H2).
    intros [(r & Hin & Hflood & Hrecent) _].
    pose proof (FloatOrder.ltb_not_geb _ _ (Hall r Hin Hrecent)) as Hlow.
    unfold reachedFlood, JS.geb in Hflood. congruence.
  - intros Hc. destruct (at_most_normal_high c Hc) as [Hband Hhigh].
    destruct (below_warning_band c Hband) as [H1 H2].
    apply (determineFloodStatus_lower_bands h w c readings H1 H2).
    intros [_ Habove]. congruence.
Qed.

(** The river peaked at 4.10 m on 3 January and stands at 3.50 m on the
    5th: the level is below both upper bands and the scan decides. *)
Lemma determineFloodStatus_ladder_witness :
  determineFloodStatus RefHost.host noon_5_jan (Some 3.5) flood_of_3_jan
    = FloodStatus.RECEDING
  <-> recentFlood RefHost.host noon_5_jan flood_of_3_jan
      /\ JS.gtb 3.5 THRESHOLDS.NORMAL_HIGH = true.
Proof.
  refine (proj1 (proj1 (proj2 (proj2
            (proj2 (determineFloodStatus_ladder RefHost.host noon_5_jan flood_of_3_jan)
                   3.5))) _ _)); reflexivity.
Defined.

Example determineFloodStatus_four_metres :
  determineFloodStatus RefHost.host noon_5_jan (Some 4.00) [] = FloodStatus.FLOODED.
Proof. reflexivity. Qed.

Example determineFloodStatus_bands :
  (3.98 - 0.05 <=? 3.93) = true /\
  determineFloodStatus RefHost.host noon_5_jan (Some 3.93) [] = FloodStatus.FLOODED /\
  determineFloodStatus RefHost.host noon_5_jan (Some 3.92) [] = FloodStatus.NEAR_FLOOD /\
  determineFloodStatus RefHost.host noon_5_jan (Some 3.85) [] = FloodStatus.NEAR_FLOOD /\
  determineFloodStatus RefHost.host noon_5_jan (Some 3.84) [] = FloodStatus.CLEAR /\
  determineFloodStatus RefHost.host noon_5_jan (Some 3.5) flood_of_3_jan
    = FloodStatus.RECEDING /\
  determineFloodStatus RefHost.host noon_5_jan (Some 3.0) flood_of_3_jan
    = FloodStatus.CLEAR.
Proof. repeat split. Qed.

(** The reading after the last one at flood level, that reading itself
    when it is the last of the series, [null] without any. *)
Example findTimeWaterDroppedBelowFlood_examples :
  findTimeWaterDroppedBelowFlood
    [reading "t0" 3.5; reading "t1" 4.0; reading "t2" 3.9; reading "t3" 3.7]
  = Some "t2"%string /\
  findTimeWaterDroppedBelowFlood [reading "t0" 3.5; reading "t1" 4.0] = Some "t1"%string /\
  findTimeWaterDroppedBelowFlood [reading "t0" 3.5; reading "t1" 3.6] = None.
Proof. repeat split. Qed.

End ClassifierProperties.

(* ================================================================== *)
(** ** Road-assessment reconciler *)
(* ================================================================== *)

Module ReconcilerProperties.
Import Types Logic.
Import ReconcilerSpec.

(** C1.  The two precedence rules of [assessRoadStatus]: FLOODED gives
    closed with HIGH confidence whatever the route status and the traffic
    signals are; RECEDING with a traffic-since-flood answer that counts at
    least one reading with live data gives open with HIGH confidence
    whatever the route status is. *)
Theorem assessRoadStatus_precedence
    (routeStatus : option RouteStatus.t)
    (trafficData trafficSinceFlood : option TrafficResponse) :
  (isOpen (assessRoadStatus FloodStatus.FLOODED routeStatus trafficData trafficSinceFlood)
     = Some false /\
   confidence (assessRoadStatus FloodStatus.FLOODED routeStatus trafficData trafficSinceFlood)
     = HIGH) /\
  (forall t,
      trafficSinceFlood = Some t ->
      JS.gtb (readingsWithLiveData (window t)) 0 = true ->
      isOpen (assessRoadStatus FloodStatus.RECEDING routeStatus trafficData trafficSinceFlood)
        = Some true /\
      confidence (assessRoadStatus FloodStatus.RECEDING routeStatus trafficData trafficSinceFlood)
        = HIGH).
Proof.
  split; [split; reflexivity|].
  intros t -> Hlive. unfold assessRoadStatus, liveSince. cbn [FloodStatus.eqb].
  rewrite Hlive. split; reflexivity.
Qed.

(** Three cars seen since the water dropped, the planner still routing
    around: the road is reported open. *)
Lemma assessRoadStatus_precedence_witness :
  isOpen (assessRoadStatus FloodStatus.RECEDING (Some RouteStatus.ROUTING_AROUND)
                           None (Some (sinceFlood 3)))
    = Some true /\
  confidence (assessRoadStatus FloodStatus.RECEDING (Some RouteStatus.ROUTING_AROUND)
                               None (Some (sinceFlood 3)))
    = HIGH.
Proof.
  apply (proj2 (assessRoadStatus_precedence (Some RouteStatus.ROUTING_AROUND)
                  None (Some (sinceFlood 3)))
               (sinceFlood 3));
    reflexivity.
Defined.

Example assessRoadStatus_flooded_routing_through :
  assessRoadStatus FloodStatus.FLOODED (Some RouteStatus.ROUTING_THROUGH) None None
  = {| isOpen := Some false; confidence := HIGH;
       reason := "Water levels are above the road flooding threshold." |}.
Proof. reflexivity. Qed.

Example assessRoadStatus_receding_no_cars :
  assessRoadStatus FloodStatus.RECEDING (Some RouteStatus.ROUTING_THROUGH)
                   None (Some (sinceFlood 0))
  = {| isOpen := Some true; confidence := MEDIUM;
       reason := "The route planner is directing traffic through this road, but no cars have been detected yet. The traffic sensor can be unreliable, so the road is probably open." |}.
Proof. reflexivity. Qed.

(** None of the three status tests accepts UNKNOWN, so an unknown flood
    status runs the code written for CLEAR. *)
Lemma assessRoadStatus_unknown_runs_clear routeStatus trafficData trafficSinceFlood :
  assessRoadStatus FloodStatus.UNKNOWN routeStatus trafficData trafficSinceFlood
  = assessRoadStatus FloodStatus.CLEAR routeStatus trafficData trafficSinceFlood.
Proof. reflexivity. Qed.

(** C2.  What the code answers for an UNKNOWN flood status: with the
    planner routing through, open with HIGH confidence and the reason
    that water levels are normal; with the planner routing around, closed
    with MEDIUM confidence; with no route status, open with LOW confidence.
    In no case is the verdict the uncertain one. *)
Theorem assessRoadStatus_unknown_verdicts
    (trafficData trafficSinceFlood : option TrafficResponse) :
  assessRoadStatus FloodStatus.UNKNOWN (Some RouteStatus.ROUTING_THROUGH)
                   trafficData trafficSinceFlood
  = {| isOpen := Some true; confidence := HIGH;
       reason := "Water levels are normal and traffic is routing through." |} /\
  assessRoadStatus FloodStatus.UNKNOWN (Some RouteStatus.ROUTING_AROUND)
                   trafficData trafficSinceFlood
  = {| isOpen := Some false; confidence := MEDIUM;
       reason := "Water levels are normal, but the route planner is directing traffic around this road. There may be a closure for other reasons. The route planner can sometimes be wrong." |} /\
  assessRoadStatus FloodStatus.UNKNOWN None trafficData trafficSinceFlood
  = {| isOpen := Some true; confidence := LOW;
       reason := "Water levels are within normal range." |}.
Proof. repeat split. Qed.

(** C10.  The verdict of [assessRoadStatus] does not depend on its third
    argument, the current traffic window: two calls that differ in it
    alone return the same assessment. *)
Theorem assessRoadStatus_ignores_trafficData
    (floodStatus : FloodStatus.t) (routeStatus : option RouteStatus.t)
    (trafficData trafficData' trafficSinceFlood : option TrafficResponse) :
  assessRoadStatus floodStatus routeStatus trafficData trafficSinceFlood
  = assessRoadStatus floodStatus routeStatus trafficData' trafficSinceFlood.
Proof.
  unfold assessRoadStatus.
  destruct floodStatus; cbn [FloodStatus.eqb]; reflexivity.
Qed.

(** The traffic-since-flood argument does matter, so the independence
    above is a fact about the third argument only. *)
Example assessRoadStatus_reads_trafficSinceFlood :
  isOpen (assessRoadStatus FloodStatus.RECEDING None (Some (sinceFlood 3)) None) = None /\
  isOpen (assessRoadStatus FloodStatus.RECEDING None None (Some (sinceFlood 3))) = Some true.
Proof. split; reflexivity. Qed.

End ReconcilerProperties.

(* ================================================================== *)
(** ** What a classifier call depends on *)
(* ================================================================== *)

Module Determinism.
Import Types Logic.
Import DeterminismSpec.

Lemma scan_sameWindow h w w' (rs : list EAReading) :
  sameWindow h w w' rs ->
  existsb (fun r => JS.geb (value r) THRESHOLDS.ROAD_FLOOD
                    && JS.gtb (JS.Date_getTime h (dateTime r))
                              (JS.Date_now w - SEVEN_DAYS_MS)) rs
  = existsb (fun r => JS.geb (value r) THRESHOLDS.ROAD_FLOOD
                      && JS.gtb (JS.Date_getTime h (dateTime r))
                                (JS.Date_now w' - SEVEN_DAYS_MS)) rs.
Proof.
  induction rs as [|r rs IH]; intros H; [reflexivity|]. cbn [existsb].
  rewrite IH by (intros x Hx; apply H; now right). f_equal.
  pose proof (H r (or_introl eq_refl)) as Hr.
  unfold ClassifierSpec.reachedFlood, ClassifierSpec.withinSevenDays in Hr.
  destruct (JS.geb (value r) THRESHOLDS.ROAD_FLOOD); [|reflexivity].
  cbn [andb]. now apply Hr.
Qed.

Lemma peak_sameWindow h w w' (rs : list EAReading) :
  sameWindow h w w' rs ->
  forall st : float * option string,
    fold_left
      (fun (st : float * option string) r =>
         let '(peakValue, peakTime) := st in
         if JS.geb (value r) THRESHOLDS.ROAD_FLOOD
            && JS.gtb (JS.Date_getTime h (dateTime r)) (JS.Date_now w - SEVEN_DAYS_MS)
            && JS.gtb (value r) peakValue
         then (value r, Some (dateTime r))
         else st) rs st
    = fold_left
        (fun (st : float * option string) r =>
           let '(peakValue, peakTime) := st in
           if JS.geb (value r) THRESHOLDS.ROAD_FLOOD
              && JS.gtb (JS.Date_getTime h (dateTime r)) (JS.Date_now w' - SEVEN_DAYS_MS)
              && JS.gtb (value r) peakValue
           then (value r, Some (dateTime r))
           else st) rs st.
Proof.
  induction rs as [|r rs IH]; intros H st; [reflexivity|]. cbn [fold_left].
  pose proof (H r (or_introl eq_refl)) as Hr.
  unfold ClassifierSpec.reachedFlood, ClassifierSpec.withinSevenDays in Hr.
  destruct st as [peakValue peakTime].
  destruct (JS.geb (value r) THRESHOLDS.ROAD_FLOOD).
  - rewrite (Hr eq_refl). apply IH. intros x Hx. apply H. now right.
  - cbn [andb]. apply IH. intros x Hx. apply H. now right.
Qed.

(** C9, as the code has it.  [determineFloodStatus] and
    [findRecentFloodPeakTime] read the wall clock, and only to decide
    which readings at or above ROAD_FLOOD lie within the trailing seven
    days: two calls with the same arguments, made at two clock times,
    agree whenever both times put the same such readings in the window;
    and [determineFloodStatus] agrees at all clock times when the level
    is missing, in the FLOODED or NEAR_FLOOD band, or not above
    NORMAL_HIGH.  The clock reaches nothing else: what a load of the page
    derives with [determineTrend], [findTimeWaterDroppedBelowFlood] and
    [assessRoadStatus] is the same at two clock times as soon as the
    flood status is. *)
Theorem classifiers_clock_dependence (h : JS.Host) (w w' : JS.World) :
  (forall currentLevel readings,
      sameWindow h w w' readings ->
      determineFloodStatus h w currentLevel readings
      = determineFloodStatus h w' currentLevel readings) /\
  (forall currentLevel readings,
      settledByLevel currentLevel ->
      determineFloodStatus h w currentLevel readings
      = determineFloodStatus h w' currentLevel readings) /\
  (forall readings,
      sameWindow h w w' readings ->
      findRecentFloodPeakTime h w readings = findRecentFloodPeakTime h w' readings) /\
  (forall fetchRiverReadings fetchLatestReading fetchRouteCheck fetchTraffic,
      App.State.floodStatus
        (App.loadData h w fetchRiverReadings fetchLatestReading fetchRouteCheck
           fetchTraffic)
      = App.State.floodStatus
          (App.loadData h w' fetchRiverReadings fetchLatestReading fetchRouteCheck
             fetchTraffic) ->
      App.loadData h w fetchRiverReadings fetchLatestReading fetchRouteCheck fetchTraffic
      = App.loadData h w' fetchRiverReadings fetchLatestReading fetchRouteCheck
          fetchTraffic).
Proof.
  split; [|split; [|split]].
  - intros [c|] rs H; [|reflexivity]. unfold determineFloodStatus. cbv zeta.
    now rewrite (scan_sameWindow h w w' rs H).
  - intros currentLevel rs [-> | (c & -> & Hc)]; [reflexivity|].
    unfold determineFloodStatus. cbv zeta.
    destruct (JS.geb c (THRESHOLDS.ROAD_FLOOD - 0.05)); [reflexivity|].
    destruct (JS.geb c (THRESHOLDS.FLOOD_WARNING - 0.05)); [reflexivity|].
    destruct Hc as [Hc | [Hc | Hc]]; try discriminate Hc.
    rewrite Hc, !andb_false_r. reflexivity.
  - intros rs H. unfold findRecentFloodPeakTime. cbv zeta.
    now rewrite (peak_sameWindow h w w' rs H).
  - intros rr lt rc ft. unfold App.loadData. cbv zeta. cbn [App.State.floodStatus].
    intros E. rewrite E. reflexivity.
Qed.

Lemma classifiers_clock_dependence_witness :
  determineFloodStatus RefHost.host ClassifierSpec.noon_5_jan (Some 3.5)
                       ClassifierSpec.flood_of_3_jan
  = determineFloodStatus RefHost.host one_pm_5_jan (Some 3.5)
                         ClassifierSpec.flood_of_3_jan.
Proof.
  apply (proj1 (classifiers_clock_dependence RefHost.host ClassifierSpec.noon_5_jan
                  one_pm_5_jan)).
  intros r [<- | [<- | []]] _; reflexivity.
Defined.

(** C9, as stated, fails for [determineFloodStatus]: the same level and
    the same readings are RECEDING on 5 January and CLEAR ten days later,
    when the peak of 3 January has left the seven-day window; so the
    result does not depend on the arguments alone. *)
Lemma determineFloodStatus_reads_the_clock :
  call_determineFloodStatus RefHost.host ClassifierSpec.noon_5_jan level_and_readings
    = FloodStatus.RECEDING /\
  call_determineFloodStatus RefHost.host ClassifierSpec.noon_15_jan level_and_readings
    = FloodStatus.CLEAR /\
  ~ depends_on_arguments_only (call_determineFloodStatus RefHost.host).
Proof.
  split; [reflexivity|]. split; [reflexivity|].
  intros H.
  pose proof (H ClassifierSpec.noon_5_jan ClassifierSpec.noon_15_jan
                level_and_readings level_and_readings eq_refl) as E.
  vm_compute in E. discriminate.
Qed.

(** [findRecentFloodPeakTime] reads the same clock. *)
Example findRecentFloodPeakTime_reads_the_clock :
  findRecentFloodPeakTime RefHost.host ClassifierSpec.noon_5_jan
                          ClassifierSpec.flood_of_3_jan
    = Some "2024-01-03T12:00:00Z"%string /\
  findRecentFloodPeakTime RefHost.host ClassifierSpec.noon_15_jan
                          ClassifierSpec.flood_of_3_jan
    = None.
Proof. split; reflexivity. Qed.

End Determinism.

(* ================================================================== *)
(** ** Route classification *)
(* ================================================================== *)

Module RouteProperties.
Import RouteCheck.
Import RouteSpec.

Lemma closer_is_number h target m p :
  Order.is_number m -> Order.is_number (closer h target m p).
Proof.
  intros Hm. unfold closer.
  destruct (haversineM h _ _ _ _ <? m) eqn:E; [|exact Hm].
  exact (FloatOrder.ltb_is_number _ _ E).
Qed.

(** One turn of the loop keeps the smaller of the two distances. *)
Lemma closer_below h target m p b :
  Order.is_number m ->
  (closer h target m p <? b) = true
  <-> (m <? b) = true \/ (distanceTo h target p <? b) = true.
Proof.
  intros Hm. unfold closer, distanceTo.
  set (d := haversineM h _ _ _ _).
  destruct (d <? m) eqn:E; split; auto.
  - intros [H|H]; [|exact H]. exact (FloatOrder.ltb_trans _ _ _ E H).
  - intros [H|H]; [exact H|].
    apply (FloatOrder.leb_ltb_trans m d b); [|exact H].
    apply FloatOrder.not_ltb_geb; auto.
    exact (FloatOrder.ltb_is_number _ _ H).
Qed.

Lemma fold_closer_below h target pts : forall m b,
  Order.is_number m ->
  (fold_left (closer h target) pts m <? b) = true
  <-> (m <? b) = true \/ exists p, In p pts /\ (distanceTo h target p <? b) = true.
Proof.
  induction pts as [|p pts IH]; intros m b Hm; simpl.
  - split; auto. intros [H|(p & [] & _)]. exact H.
  - rewrite (IH _ b (closer_is_number h target m p Hm)).
    rewrite (closer_below h target m p b Hm). split.
    + intros [[H|H]|(q & Hq & H)]; eauto.
    + intros [H|(q & [<-|Hq] & H)]; eauto.
Qed.

(** [findClosestDistance] is below a bound exactly when some point of the
    route is: it is the minimum of the distances, and a distance that is
    NaN is never the minimum. *)
Lemma findClosestDistance_below h pts target b :
  (findClosestDistance h pts target <? b) = true
  <-> exists p, In p pts /\ (distanceTo h target p <? b) = true.
Proof.
  unfold findClosestDistance.
  rewrite (fold_closer_below h target pts infinity b FloatOrder.infinity_is_number).
  rewrite FloatOrder.infinity_not_ltb. split; [intros [H|H]|]; auto. discriminate.
Qed.

Lemma checkRoute_first_route h now apiKey res route rest :
  String.eqb apiKey "" = false -> JS.ok res = true ->
  routes (JS.json res) = Some (route :: rest) ->
  statusOf (checkRoute h now apiKey res)
  = Some (if (lengthInMeters (summary route) / DIRECT_DISTANCE_M
              <? DETOUR_THRESHOLD_MULTIPLIER)
             && (findClosestDistance h (flat_map points (legs route)) A417_MIDPOINT
                 <? MIDPOINT_PROXIMITY_M)
          then RouteStatus.ROUTING_THROUGH else RouteStatus.ROUTING_AROUND).
Proof.
  intros Hkey Hok Hroutes. unfold checkRoute. rewrite Hkey, Hok, Hroutes. reflexivity.
Qed.

(** C5.  Route classification, for a configured key and a successful
    response: with no candidate route the status is NO_ROUTE; with at
    least one, the status of the first route is ROUTING_THROUGH exactly
    when its length over DIRECT_DISTANCE is strictly below 2.5 and some
    point of it is strictly closer than 150 m to the A417 midpoint, and
    ROUTING_AROUND otherwise. *)
Theorem checkRoute_classification (h : JS.Host) (now apiKey : string)
    (res : JS.Response TomTomRoutingResponse) :
  String.eqb apiKey "" = false -> JS.ok res = true ->
  (routes (JS.json res) = None \/ routes (JS.json res) = Some [] ->
   statusOf (checkRoute h now apiKey res) = Some RouteStatus.NO_ROUTE) /\
  (forall route rest,
      routes (JS.json res) = Some (route :: rest) ->
      (statusOf (checkRoute h now apiKey res) = Some RouteStatus.ROUTING_THROUGH
       <-> isShortRoute route /\ passesNearMidpoint h route) /\
      (statusOf (checkRoute h now apiKey res) = Some RouteStatus.ROUTING_AROUND
       <-> ~ (isShortRoute route /\ passesNearMidpoint h route))).
Proof.
  intros Hkey Hok. split.
  - intros [Hr|Hr]; unfold checkRoute; rewrite Hkey, Hok, Hr; reflexivity.
  - intros route rest Hr.
    rewrite (checkRoute_first_route h now apiKey res route rest Hkey Hok Hr).
    unfold isShortRoute, passesNearMidpoint.
    rewrite <- (findClosestDistance_below h _ A417_MIDPOINT MIDPOINT_PROXIMITY_M).
    destruct (_ / _ <? _); destruct (findClosestDistance _ _ _ <? _); simpl;
      intuition congruence.
Qed.

Lemma checkRoute_classification_witness :
  statusOf (checkRoute RefHost.host "2024-01-05T12:00:00.000Z" "key"
                       (okResponse (Some [routeOf 1800 alongA417])))
    = Some RouteStatus.ROUTING_THROUGH
  <-> isShortRoute (routeOf 1800 alongA417)
      /\ passesNearMidpoint RefHost.host (routeOf 1800 alongA417).
Proof.
  exact (proj1 (proj2 (checkRoute_classification RefHost.host
                         "2024-01-05T12:00:00.000Z" "key"
                         (okResponse (Some [routeOf 1800 alongA417]))
                         eq_refl eq_refl)
                      (routeOf 1800 alongA417) [] eq_refl)).
Defined.

(** A route of 1800 m along the road is routed through; the same points
    with a length of 5000 m (ratio 2.78) are a detour; no route is
    NO_ROUTE. *)
Example checkRoute_examples :
  statusOf (checkRoute RefHost.host "now" "key" (okResponse (Some [routeOf 1800 alongA417])))
    = Some RouteStatus.ROUTING_THROUGH /\
  statusOf (checkRoute RefHost.host "now" "key" (okResponse (Some [routeOf 5000 alongA417])))
    = Some RouteStatus.ROUTING_AROUND /\
  statusOf (checkRoute RefHost.host "now" "key" (okResponse (Some [routeOf 4500 alongA417])))
    = Some RouteStatus.ROUTING_AROUND /\
  statusOf (checkRoute RefHost.host "now" "key" (okResponse (Some [])))
    = Some RouteStatus.NO_ROUTE /\
  statusOf (checkRoute RefHost.host "now" "key" (okResponse None))
    = Some RouteStatus.NO_ROUTE.
Proof. repeat split. Qed.

(** C6, as the code has it.  [findClosestDistance] raises no error on an
    empty point sequence: it returns [Infinity].  A first route whose
    legs hold no point at all is therefore classified, as
    ROUTING_AROUND. *)
Theorem checkRoute_zero_points (h : JS.Host) (now apiKey : string)
    (res : JS.Response TomTomRoutingResponse) (route : TomTomRoute)
    (rest : list TomTomRoute) :
  String.eqb apiKey "" = false -> JS.ok res = true ->
  routes (JS.json res) = Some (route :: rest) ->
  flat_map points (legs route) = [] ->
  findClosestDistance h [] A417_MIDPOINT = infinity /\
  statusOf (checkRoute h now apiKey res) = Some RouteStatus.ROUTING_AROUND.
Proof.
  intros Hkey Hok Hr Hpts. split; [reflexivity|].
  rewrite (checkRoute_first_route h now apiKey res route rest Hkey Hok Hr), Hpts.
  unfold findClosestDistance. simpl fold_left.
  rewrite FloatOrder.infinity_not_ltb, andb_false_r. reflexivity.
Qed.

Lemma checkRoute_zero_points_witness :
  findClosestDistance RefHost.host [] A417_MIDPOINT = infinity /\
  statusOf (checkRoute RefHost.host "2024-01-05T12:00:00.000Z" "key"
                       (okResponse (Some [routeOf 1800 []])))
    = Some RouteStatus.ROUTING_AROUND.
Proof.
  exact (checkRoute_zero_points RefHost.host "2024-01-05T12:00:00.000Z" "key"
           (okResponse (Some [routeOf 1800 []])) (routeOf 1800 []) []
           eq_refl eq_refl eq_refl eq_refl).
Defined.

(** C6, as stated, fails: the call on a route of 1800 m without points
    returns, with the status ROUTING_AROUND and [Infinity] as the closest
    distance, where the claim wants an error. *)
Lemma checkRoute_zero_points_returns :
  findClosestDistance RefHost.host [] A417_MIDPOINT = infinity /\
  checkRoute RefHost.host "2024-01-05T12:00:00.000Z" "key"
             (okResponse (Some [routeOf 1800 []]))
  = JS.Return
      {| timestamp := "2024-01-05T12:00:00.000Z";
         location := LOCATION;
         status := RouteStatus.ROUTING_AROUND;
         route := Some {| distanceM := 1800; durationSec := 150; trafficDelaySec := 0;
                          distanceRatio := 1; closestToMidpointM := infinity;
                          geometry := [] |} |}.
Proof. split; reflexivity. Qed.

End RouteProperties.

(* ================================================================== *)
(** ** Per-poll traffic classification *)
(* ================================================================== *)

Module PollProperties.
Import TrafficMonitor.
Import PollSpec.

Lemma skipn_cons_nth {A} (d : A) : forall i (l : list A) c tl,
  skipn i l = c :: tl -> nth i l d = c /\ skipn (S i) l = tl.
Proof.
  induction i as [|i IH]; destruct l as [|a l]; simpl; intros c tl H; try discriminate.
  - injection H as -> ->. split; reflexivity.
  - apply IH in H. exact H.
Qed.

Lemma skipn_nil_nth {A} (d : A) : forall i (l : list A),
  skipn i l = [] -> nth i l d = d /\ skipn (S i) l = [].
Proof.
  induction i as [|i IH]; destruct l as [|a l]; simpl; intros H; try discriminate; auto.
Qed.

(** The array [liveSpeedsMph] after the loop from segment [i] on. *)
Lemma visitAll_live tags dists speeds : forall i st,
  fst (visitAll tags dists st i speeds)
  = fst st ++ liveSegmentSpeeds speeds (skipn i tags).
Proof.
  induction speeds as [|s speeds IH]; intros i [live segs]; simpl.
  - unfold liveSegmentSpeeds. simpl. now rewrite app_nil_r.
  - rewrite IH. unfold visit.
    destruct (skipn i tags) as [|c tl] eqn:E.
    + destruct (skipn_nil_nth "unknown"%string i tags E) as [-> ->]. reflexivity.
    + destruct (skipn_cons_nth "unknown"%string i tags c tl E) as [-> ->].
      unfold liveSegmentSpeeds. simpl. destruct (isUnknown c); simpl; [reflexivity|].
      now rewrite <- app_assoc.
Qed.

(** The accumulators of [fetchMapbox] are the concatenations, leg after
    leg, of the speed, congestion and distance arrays. *)
Lemma gather_from legs : forall speeds tags dists,
  fold_left
    (fun '(allSpeeds, allCongestion, allDistances) leg =>
       (pushAll allSpeeds (field speed leg),
        pushAll allCongestion (field congestion leg),
        pushAll allDistances (field distance leg)))
    legs (speeds, tags, dists)
  = (speeds ++ flat_map (arrayOf speed) legs,
     tags ++ flat_map (arrayOf congestion) legs,
     dists ++ flat_map (arrayOf distance) legs).
Proof.
  induction legs as [|leg legs IH]; intros speeds tags dists; simpl.
  - now rewrite !app_nil_r.
  - rewrite IH. unfold pushAll, arrayOf.
    destruct (field speed leg), (field congestion leg), (field distance leg);
      simpl; rewrite <- ?app_assoc, ?app_nil_r; reflexivity.
Qed.

Lemma gather_concat legs :
  gather legs
  = (flat_map (arrayOf speed) legs,
     flat_map (arrayOf congestion) legs,
     flat_map (arrayOf distance) legs).
Proof. unfold gather. now rewrite gather_from. Qed.

Lemma some_tag_known tags :
  existsb (fun c => negb (isUnknown c)) tags = true
  <-> exists c, In c tags /\ c <> "unknown"%string.
Proof.
  rewrite existsb_exists. unfold isUnknown.
  split; intros (c & Hin & H); exists c; split; auto.
  - apply negb_true_iff in H. now apply String.eqb_neq.
  - apply negb_true_iff. now apply String.eqb_neq.
Qed.

Lemma every_tag_unknown tags :
  existsb (fun c => negb (isUnknown c)) tags = false
  <-> forall c, In c tags -> c = "unknown"%string.
Proof.
  split.
  - intros H c Hin.
    destruct (String.eqb_spec c "unknown") as [|Hne]; [assumption|].
    assert (existsb (fun c => negb (isUnknown c)) tags = true)
      by (apply some_tag_known; eauto).
    congruence.
  - intros H. apply not_true_is_false. intros E.
    apply some_tag_known in E as (c & Hin & Hne). auto.
Qed.

Lemma length_zero_iff_nil {A} (l : list A) : (List.length l =? 0)%nat = false <-> l <> [].
Proof. destruct l; simpl; split; congruence. Qed.

(** C7.  A poll with speed annotations is classified HAS_LIVE_DATA
    exactly when some congestion tag is not [unknown], and NO_LIVE_DATA
    exactly when every tag is; its average speed is the mean, over the
    segments whose tag is not [unknown], of their speeds in mph (and
    [null] when there is no such segment). *)
Theorem fetchMapbox_classification (token : string)
    (res : JS.Response MapboxMatchResponse)
    (matching : MapboxMatching) (rest : list MapboxMatching) :
  let allSpeeds := flat_map (arrayOf speed) (legs matching) in
  let allCongestion := flat_map (arrayOf congestion) (legs matching) in
  String.eqb token "" = false -> JS.ok res = true ->
  code (JS.json res) = "Ok"%string ->
  matchings (JS.json res) = Some (matching :: rest) ->
  allSpeeds <> [] ->
  exists r,
    fetchMapbox token res = JS.Return r /\
    (MapboxResult.status r = ReadingStatus.HAS_LIVE_DATA
     <-> exists c, In c allCongestion /\ c <> "unknown"%string) /\
    (MapboxResult.status r = ReadingStatus.NO_LIVE_DATA
     <-> forall c, In c allCongestion -> c = "unknown"%string) /\
    MapboxResult.avgSpeedMph r = average (liveSegmentSpeeds allSpeeds allCongestion).
Proof.
  intros allSpeeds allCongestion Htoken Hok Hcode Hm Hspeeds.
  unfold fetchMapbox. rewrite Htoken, Hok. cbn [negb]. cbv zeta.
  rewrite Hcode, Hm. change (String.eqb "Ok" "Ok") with true. cbv iota.
  rewrite gather_concat. fold allSpeeds allCongestion.
  set (allDistances := flat_map (arrayOf distance) (legs matching)).
  apply length_zero_iff_nil in Hspeeds. rewrite Hspeeds.
  pose proof (visitAll_live allCongestion allDistances allSpeeds 0 ([], [])) as Hlive.
  destruct (visitAll allCongestion allDistances ([], []) 0 allSpeeds) as [live segs].
  simpl in Hlive. subst live.
  eexists. split; [reflexivity|]. cbn [MapboxResult.status MapboxResult.avgSpeedMph].
  rewrite <- some_tag_known, <- every_tag_unknown.
  repeat split.
  - destruct (existsb _ allCongestion); [reflexivity|discriminate].
  - intros ->. reflexivity.
  - destruct (existsb _ allCongestion); [discriminate|reflexivity].
  - intros ->. reflexivity.
  - destruct (liveSegmentSpeeds allSpeeds allCongestion); reflexivity.
Qed.

Lemma fetchMapbox_classification_witness :
  exists r,
    fetchMapbox "token" (okResponse threeSegments) = JS.Return r /\
    (MapboxResult.status r = ReadingStatus.HAS_LIVE_DATA
     <-> exists c, In c ["low"; "unknown"; "heavy"]%string /\ c <> "unknown"%string) /\
    (MapboxResult.status r = ReadingStatus.NO_LIVE_DATA
     <-> forall c, In c ["low"; "unknown"; "heavy"]%string -> c = "unknown"%string) /\
    MapboxResult.avgSpeedMph r
    = average (liveSegmentSpeeds [10; 20; 5] ["low"; "unknown"; "heavy"]%string).
Proof.
  refine (fetchMapbox_classification "token" (okResponse threeSegments)
            {| confidence := 0.9; geometry := line; legs := threeSegments |} []
            eq_refl eq_refl eq_refl eq_refl _).
  discriminate.
Defined.

(** The stale segment at 20 m/s (44.7 mph) is left out: the average is
    that of 22.4 and 11.2 mph. *)
Example fetchMapbox_three_segments :
  exists r,
    fetchMapbox "token" (okResponse threeSegments) = JS.Return r /\
    MapboxResult.status r = ReadingStatus.HAS_LIVE_DATA /\
    MapboxResult.avgSpeedMph r = Some ((0 + 22.4 + 11.2) / 2) /\
    mpsToMph 20 = 44.7.
Proof. eexists. repeat split. Qed.

Example fetchMapbox_all_unknown :
  exists r,
    fetchMapbox "token" (okResponse [leg (Some [10; 20]) (Some ["unknown"; "unknown"]%string)])
      = JS.Return r /\
    MapboxResult.status r = ReadingStatus.NO_LIVE_DATA /\ MapboxResult.avgSpeedMph r = None.
Proof. eexists. repeat split. Qed.

(** Segments tagged [unknown] contribute nothing: changing their speeds
    leaves the live speeds, and so the average, unchanged. *)
Lemma unknown_segments_contribute_nothing speeds speeds' tags :
  agreeOnLive speeds speeds' tags ->
  liveSegmentSpeeds speeds tags = liveSegmentSpeeds speeds' tags.
Proof.
  unfold liveSegmentSpeeds.
  induction 1 as [tags|s s' speeds speeds' _ IH|s s' speeds speeds' tags _ IH
                  |s speeds speeds' c tags _ IH]; simpl.
  - reflexivity.
  - exact IH.
  - exact IH.
  - destruct (isUnknown c); simpl; [exact IH|now rewrite IH].
Qed.

End PollProperties.

(* ================================================================== *)
(** ** Window aggregation *)
(* ================================================================== *)

Module WindowProperties.
Import TrafficMonitor.
Import PollSpec PollProperties.
Import WindowSpec.

(** A row written by [pollAndStore] has [ReadingRow.has_live_data = 1] exactly when
    its status is HAS_LIVE_DATA. *)
Lemma pollAndStore_live now token res :
  isLive (pollAndStore now (fetchMapbox token res)) = true
  <-> ReadingRow.status (pollAndStore now (fetchMapbox token res)) = "HAS_LIVE_DATA"%string.
Proof.
  unfold fetchMapbox, isLive.
  destruct (String.eqb token ""); [simpl; split; discriminate|].
  destruct (negb (JS.ok res)); [simpl; split; discriminate|].
  cbv zeta.
  destruct (if String.eqb (code (JS.json res)) "Ok" then matchings (JS.json res) else None)
    as [[|matching rest]|]; try (simpl; split; discriminate).
  destruct (gather (legs matching)) as [[allSpeeds allCongestion] allDistances].
  destruct (List.length allSpeeds =? 0)%nat; [simpl; split; discriminate|].
  destruct (visitAll allCongestion allDistances ([], []) 0 allSpeeds) as [live segs].
  destruct (existsb _ allCongestion); simpl; split; try discriminate; reflexivity.
Qed.

Lemma find_filter {A} (p q : A -> bool) (l : list A) :
  find p (filter q l) = find (fun x => q x && p x) l.
Proof.
  induction l as [|a l IH]; simpl; [reflexivity|].
  destruct (q a); simpl; [|exact IH].
  destruct (p a); [reflexivity|exact IH].
Qed.

(** [find] returns the first element that passes the test: in a list that
    is newest first, the newest one. *)
Lemma find_first {A} (p : A -> bool) (pre : list A) (r : A) (post : list A) :
  (forall x, In x pre -> p x = false) -> p r = true ->
  find p (pre ++ r :: post) = Some r.
Proof.
  induction pre as [|a pre IH]; simpl; intros Hpre Hr.
  - now rewrite Hr.
  - rewrite (Hpre a (or_introl eq_refl)). apply IH; auto.
Qed.

Lemma find_nothing {A} (p : A -> bool) (l : list A) :
  (forall x, In x l -> p x = false) -> find p l = None.
Proof.
  induction l as [|a l IH]; simpl; intros H; [reflexivity|].
  rewrite (H a (or_introl eq_refl)). apply IH; auto.
Qed.

Lemma some_live_row (rows : list ReadingRow.t) :
  (0 <? List.length (filter isLive rows))%nat = true
  <-> exists r, In r rows /\ isLive r = true.
Proof.
  split.
  - destruct (filter isLive rows) as [|r l] eqn:E; [discriminate|]. intros _.
    exists r. apply filter_In. rewrite E. now left.
  - intros (r & Hr). apply filter_In in Hr.
    destruct (filter isLive rows); [destruct Hr|reflexivity].
Qed.

Lemma no_live_row (rows : list ReadingRow.t) :
  (0 <? List.length (filter isLive rows))%nat = false
  <-> forall r, In r rows -> isLive r = false.
Proof.
  split.
  - intros H r Hin. apply not_true_is_false. intros Hr.
    assert ((0 <? List.length (filter isLive rows))%nat = true)
      by (apply some_live_row; eauto).
    congruence.
  - intros H. apply not_true_is_false. intros E.
    apply some_live_row in E as (r & Hin & Hr). rewrite (H r Hin) in Hr. discriminate.
Qed.

(** The answer on a window with at least one row. *)
Lemma aggregateReadings_rows now since r rows :
  let live := filter isLive (r :: rows) in
  let newest := find liveWithSpeed (r :: rows) in
  Aggregate.status (aggregateReadings now since (Some (r :: rows)))
    = (if (0 <? List.length live)%nat then AggregatedStatus.LIKELY_OPEN
       else AggregatedStatus.NO_LIVE_DATA) /\
  Aggregate.averageSpeedMph (aggregateReadings now since (Some (r :: rows)))
    = option_map round1 (average (speedsOf live)) /\
  Aggregate.mostRecentLiveSpeedMph (aggregateReadings now since (Some (r :: rows)))
    = match newest with Some x => ReadingRow.avg_speed_mph x | None => None end /\
  Aggregate.mostRecentLiveTimestamp (aggregateReadings now since (Some (r :: rows)))
    = option_map ReadingRow.timestamp newest.
Proof.
  cbv zeta. unfold aggregateReadings. cbn [List.length Nat.eqb].
  cbn [Aggregate.status Aggregate.averageSpeedMph Aggregate.mostRecentLiveSpeedMph
       Aggregate.mostRecentLiveTimestamp].
  fold isLive. rewrite (find_filter hasSpeed isLive). fold liveWithSpeed.
  repeat apply conj; try reflexivity.
  destruct (speedsOf (filter isLive (r :: rows))); reflexivity.
Qed.

(** C8, as the code has it.  The status is LIKELY_OPEN exactly when some
    row of the window has live data, NO_LIVE_DATA exactly when the window
    is not empty and no row has, INSUFFICIENT_DATA exactly when the window
    is empty.  [averageSpeedMph] is the mean, rounded to one decimal place,
    of the speeds of the live rows that carry a speed, and [null] when
    there is none.  [mostRecentLiveSpeedMph] and [mostRecentLiveTimestamp]
    come from the first row, newest first, that is live and carries a
    speed, and are [null] when there is none. *)
Theorem aggregateReadings_window (now : string) (since : option string)
    (rows : list ReadingRow.t) :
  let a := aggregateReadings now since (Some rows) in
  (Aggregate.status a = AggregatedStatus.LIKELY_OPEN
   <-> exists r, In r rows /\ isLive r = true) /\
  (Aggregate.status a = AggregatedStatus.NO_LIVE_DATA
   <-> rows <> [] /\ forall r, In r rows -> isLive r = false) /\
  (Aggregate.status a = AggregatedStatus.INSUFFICIENT_DATA <-> rows = []) /\
  Aggregate.averageSpeedMph a
  = option_map round1 (average (speedsOf (filter isLive rows))) /\
  (forall pre r post,
      rows = pre ++ r :: post ->
      (forall x, In x pre -> liveWithSpeed x = false) -> liveWithSpeed r = true ->
      Aggregate.mostRecentLiveSpeedMph a = ReadingRow.avg_speed_mph r /\
      Aggregate.mostRecentLiveTimestamp a = Some (ReadingRow.timestamp r)) /\
  ((forall x, In x rows -> liveWithSpeed x = false) ->
   Aggregate.mostRecentLiveSpeedMph a = None /\
   Aggregate.mostRecentLiveTimestamp a = None).
Proof.
  cbv zeta. destruct rows as [|r0 rows].
  - repeat apply conj; try reflexivity; try discriminate.
    + intros (r & [] & _).
    + intros [H _]. now elim H.
    + intros pre r post E. destruct pre; discriminate.
    + intros _. split; reflexivity.
  - destruct (aggregateReadings_rows now since r0 rows) as (Hs & Ha & Hv & Ht).
    cbv zeta in Hs, Ha, Hv, Ht. rewrite Hs, Ha, Hv, Ht.
    rewrite <- some_live_row, <- no_live_row.
    split; [|split; [|split; [|split; [|split]]]].
    + destruct (0 <? _)%nat; split; congruence.
    + destruct (0 <? _)%nat; split; try congruence.
      * intros [_ E]. discriminate.
      * intros _. split; [discriminate|reflexivity].
    + destruct (0 <? _)%nat; split; discriminate.
    + reflexivity.
    + intros pre r post E Hpre Hr.
      rewrite E, (find_first liveWithSpeed pre r post Hpre Hr). split; reflexivity.
    + intros Hnone. rewrite (find_nothing liveWithSpeed _ Hnone). split; reflexivity.
Qed.

Example poll_rows :
  poll t1201 (oneSegment 8.94 "low")
  = {| ReadingRow.timestamp := t1201; ReadingRow.status := "HAS_LIVE_DATA";
       ReadingRow.has_live_data := 1; ReadingRow.avg_speed_mph := Some 20;
       ReadingRow.confidence := Some 0.9; ReadingRow.geometry_json := Some line |} /\
  poll t1202 (oneSegment 9.03 "unknown")
  = {| ReadingRow.timestamp := t1202; ReadingRow.status := "NO_LIVE_DATA";
       ReadingRow.has_live_data := 0; ReadingRow.avg_speed_mph := None;
       ReadingRow.confidence := Some 0.9; ReadingRow.geometry_json := Some line |} /\
  poll t1203 liveWithoutSpeed
  = {| ReadingRow.timestamp := t1203; ReadingRow.status := "HAS_LIVE_DATA";
       ReadingRow.has_live_data := 1; ReadingRow.avg_speed_mph := None;
       ReadingRow.confidence := Some 0.9; ReadingRow.geometry_json := Some line |}.
Proof. repeat split. Qed.

(** Two live polls at 20 and 30 mph and one without live data:
    LIKELY_OPEN, 25 mph. *)
Example aggregateReadings_three_polls :
  Aggregate.status (answer threePolls) = AggregatedStatus.LIKELY_OPEN /\
  Aggregate.averageSpeedMph (answer threePolls) = Some 25 /\
  Aggregate.mostRecentLiveSpeedMph (answer threePolls) = Some 20 /\
  Aggregate.mostRecentLiveTimestamp (answer threePolls) = Some t1203 /\
  Aggregate.window (answer threePolls)
  = {| Window.description := "last 30 minutes"; Window.since := None;
       Window.readings := 3; Window.readingsWithLiveData := Some 2%nat |}.
Proof. repeat split. Qed.

Example aggregateReadings_empty_window :
  Aggregate.status (answer []) = AggregatedStatus.INSUFFICIENT_DATA /\
  aggregateReadings t1204 None None = answer [].
Proof. split; reflexivity. Qed.

Lemma aggregateReadings_window_witness :
  Aggregate.mostRecentLiveSpeedMph (answer newestWithoutSpeed)
    = ReadingRow.avg_speed_mph (poll t1202 (oneSegment 8.985 "low")) /\
  Aggregate.mostRecentLiveTimestamp (answer newestWithoutSpeed)
    = Some (ReadingRow.timestamp (poll t1202 (oneSegment 8.985 "low"))).
Proof.
  refine (proj1 (proj2 (proj2 (proj2 (proj2
            (aggregateReadings_window t1204 None newestWithoutSpeed)))))
            [poll t1203 liveWithoutSpeed]
            (poll t1202 (oneSegment 8.985 "low"))
            [poll t1201 (oneSegment 9.03 "low")] eq_refl _ eq_refl).
  intros x [<-|[]]. reflexivity.
Defined.

(** C8, as stated, fails on [newestWithoutSpeed].  The mean of 20.1 and
    20.2 is 20.15 and the answer carries 20.2, its rounding to one decimal
    place; the newest live poll is the one of 12:03 and the answer carries
    the speed and the timestamp of the poll of 12:02, the newest live poll
    that has a speed. *)
Lemma aggregateReadings_rounds_and_skips :
  (AsStated.averageSpeed newestWithoutSpeed = Some 20.149999999999999 /\
   Aggregate.averageSpeedMph (answer newestWithoutSpeed) = Some 20.2 /\
   (20.149999999999999 =? 20.2) = false) /\
  (option_map ReadingRow.timestamp (AsStated.mostRecentLive newestWithoutSpeed)
     = Some t1203 /\
   Aggregate.mostRecentLiveTimestamp (answer newestWithoutSpeed) = Some t1202 /\
   Aggregate.mostRecentLiveSpeedMph (answer newestWithoutSpeed) = Some 20.1).
Proof. repeat split. Qed.

End WindowProperties.

(* ================================================================== *)
(** * Further properties of the classifiers *)
(* ================================================================== *)

(** ** More of the order of binary64 numbers *)

Module NumberOrder.
Import Order.

Lemma leb_trans x y z : (x <=? y) = true -> (y <=? z) = true -> (x <=? z) = true.
Proof.
  intros H G. apply FloatOrder.leb_cmp in H. apply FloatOrder.leb_cmp in G.
  apply FloatOrder.leb_cmp. unfold cmp in *.
  destruct G as [G|G].
  - rewrite (FloatOrder.SFcompare_trans _ _ _ Lt H G) by discriminate.
    destruct H as [H|H]; rewrite H; auto.
  - rewrite (FloatOrder.SFcompare_trans _ _ _ Eq H G) by discriminate.
    destruct H as [H|H]; rewrite H; auto.
Qed.

Lemma ltb_leb_trans x y z : (x <? y) = true -> (y <=? z) = true -> (x <? z) = true.
Proof.
  intros H G. apply FloatOrder.ltb_cmp in H. apply FloatOrder.leb_cmp in G.
  apply FloatOrder.ltb_cmp. unfold cmp in *.
  destruct G as [G|G].
  - rewrite (FloatOrder.SFcompare_trans _ _ _ Lt (or_introl H) G) by discriminate.
    now rewrite H.
  - rewrite (FloatOrder.SFcompare_trans _ _ _ Eq (or_introl H) G) by discriminate.
    now rewrite H.
Qed.

Lemma ltb_leb x y : (x <? y) = true -> (x <=? y) = true.
Proof. intros H. apply FloatOrder.leb_cmp. left. now apply FloatOrder.ltb_cmp. Qed.

Lemma leb_refl x : is_number x -> (x <=? x) = true.
Proof. intros H. apply FloatOrder.leb_cmp. now right. Qed.

Lemma leb_is_number_l x y : (x <=? y) = true -> is_number x.
Proof.
  intros H. apply FloatOrder.leb_cmp in H.
  destruct H as [H|H]; exact (FloatOrder.SFcompare_refl _ _ _ H).
Qed.

Lemma leb_is_number_r x y : (x <=? y) = true -> is_number y.
Proof.
  intros H. apply FloatOrder.leb_cmp in H.
  assert (exists c, cmp y x = Some c) as [c Hc].
  { rewrite (FloatOrder.cmp_opp x y). destruct H as [H|H]; rewrite H; simpl; eauto. }
  exact (FloatOrder.SFcompare_refl _ _ _ Hc).
Qed.

Lemma ltb_is_number_r x y : (x <? y) = true -> is_number y.
Proof. intros H. exact (leb_is_number_r _ _ (ltb_leb _ _ H)). Qed.

(** Every comparison with NaN fails. *)
Lemma nan_leb_l x y : ~ is_number x -> (x <=? y) = false.
Proof.
  intros H. apply not_true_is_false. intros G. exact (H (leb_is_number_l _ _ G)).
Qed.

Lemma nan_leb_r x y : ~ is_number y -> (x <=? y) = false.
Proof.
  intros H. apply not_true_is_false. intros G. exact (H (leb_is_number_r _ _ G)).
Qed.

Lemma nan_ltb_l x y : ~ is_number x -> (x <? y) = false.
Proof.
  intros H. apply not_true_is_false. intros G. exact (H (FloatOrder.ltb_is_number _ _ G)).
Qed.

Lemma nan_ltb_r x y : ~ is_number y -> (x <? y) = false.
Proof.
  intros H. apply not_true_is_false. intros G. exact (H (ltb_is_number_r _ _ G)).
Qed.

Lemma nan_is_not_a_number : ~ is_number nan.
Proof. unfold is_number, cmp. vm_compute. discriminate. Qed.

End NumberOrder.

(** ** Trend, flood status, peak and drop times *)

Module ClassifierExtras.
Import Types Logic.
Import Order ClassifierSpec ClassifierSamples.

(** X1.  With eight readings or more, [determineTrend] is blind to
    everything before the last eight: prepending older readings never
    changes the trend. *)
Theorem determineTrend_ignores_older (older recent : list EAReading) :
  8 <= List.length recent ->
  determineTrend (older ++ recent) = determineTrend recent.
Proof.
  intros Hlen.
  assert (Hall : 4 <= List.length (older ++ recent)) by (rewrite length_app; lia).
  destruct (ClassifierProperties.determineTrend_reads_window _ Hall)
    as (f1 & l1 & Hf1 & Hl1 & ->).
  assert (Hrec : 4 <= List.length recent) by lia.
  destruct (ClassifierProperties.determineTrend_reads_window _ Hrec)
    as (f2 & l2 & Hf2 & Hl2 & ->).
  rewrite length_app in Hf1, Hl1.
  rewrite nth_error_app2 in Hf1, Hl1 by lia.
  replace (List.length older + List.length recent - 8 - List.length older)%nat
    with (List.length recent - 8)%nat in Hf1 by lia.
  replace (List.length older + List.length recent - 1 - List.length older)%nat
    with (List.length recent - 1)%nat in Hl1 by lia.
  congruence.
Qed.

Lemma determineTrend_ignores_older_witness :
  determineTrend
    ([reading "t0" 9; reading "t1" 0.5]
       ++ [reading "t2" 1; reading "t3" 1; reading "t4" 1; reading "t5" 1;
           reading "t6" 1; reading "t7" 1; reading "t8" 1; reading "t9" 1.1])
  = determineTrend
      [reading "t2" 1; reading "t3" 1; reading "t4" 1; reading "t5" 1;
       reading "t6" 1; reading "t7" 1; reading "t8" 1; reading "t9" 1.1].
Proof.
  apply determineTrend_ignores_older. simpl. lia.
Defined.

(** The scan of [determineFloodStatus] as a test on one reading. *)
Lemma scan_agrees h w (rs rs' : list EAReading) :
  (forall r, withinSevenDays h w r = true -> (In r rs <-> In r rs')) ->
  (recentFlood h w rs <-> recentFlood h w rs').
Proof.
  intros H. unfold recentFlood.
  split; intros (r & Hin & Hf & Hw); exists r; repeat split; auto; now apply (H r Hw).
Qed.

Lemma determineFloodStatus_scan h w c rs rs' :
  (recentFlood h w rs <-> recentFlood h w rs') ->
  determineFloodStatus h w c rs = determineFloodStatus h w c rs'.
Proof.
  intros H. destruct c as [c|]; [|reflexivity]. unfold determineFloodStatus.
  destruct (JS.geb c _); [reflexivity|]. destruct (JS.geb c _); [reflexivity|].
  rewrite <- !ClassifierProperties.recentFlood_existsb in H.
  destruct (existsb _ rs); destruct (existsb _ rs'); try reflexivity.
  - destruct H as [H _]. specialize (H eq_refl). discriminate.
  - destruct H as [_ H]. specialize (H eq_refl). discriminate.
Qed.

(** X2.  [determineFloodStatus] reads the readings as a set, and only
    those of the trailing seven days: two series with the same readings
    inside the window give the same status, in whatever order they come
    and whatever older (or undated) readings they hold. *)
Theorem determineFloodStatus_window_set (h : JS.Host) (w : JS.World)
    (c : option float) (rs rs' : list EAReading) :
  (forall r, withinSevenDays h w r = true -> (In r rs <-> In r rs')) ->
  determineFloodStatus h w c rs = determineFloodStatus h w c rs'.
Proof.
  intros H. apply determineFloodStatus_scan. now apply scan_agrees.
Qed.

(** The series of 3 January reversed, with a flood of December added. *)
Lemma determineFloodStatus_window_set_witness :
  determineFloodStatus RefHost.host noon_5_jan (Some 3.5) flood_of_3_jan
  = determineFloodStatus RefHost.host noon_5_jan (Some 3.5)
      (reading "2023-12-01T12:00:00Z" 4.5 :: rev flood_of_3_jan).
Proof.
  apply determineFloodStatus_window_set.
  intros r Hr. simpl. split.
  - intros [<-|[<-|[]]]; auto.
  - intros [<-|[<-|[<-|[]]]]; auto. discriminate Hr.
Defined.

(** X3.  A current level that is NaN passes none of the threshold tests:
    the status is CLEAR, whatever the readings are. *)
Theorem determineFloodStatus_nan_level (h : JS.Host) (w : JS.World)
    (c : float) (rs : list EAReading) :
  ~ is_number c -> determineFloodStatus h w (Some c) rs = FloodStatus.CLEAR.
Proof.
  intros H. unfold determineFloodStatus, JS.geb, JS.gtb.
  rewrite !(NumberOrder.nan_leb_r _ c H), (NumberOrder.nan_ltb_r _ c H).
  now rewrite andb_false_r.
Qed.

Lemma determineFloodStatus_nan_level_witness :
  determineFloodStatus RefHost.host noon_5_jan (Some nan) flood_of_3_jan
  = FloodStatus.CLEAR.
Proof.
  apply determineFloodStatus_nan_level. exact NumberOrder.nan_is_not_a_number.
Defined.

(** One turn of the loop of [findRecentFloodPeakTime]. *)
Lemma peak_step h w (st : float * option string) (r : EAReading) :
  (fun (st : float * option string) r =>
     let '(peakValue, peakTime) := st in
     if JS.geb (value r) THRESHOLDS.ROAD_FLOOD
        && JS.gtb (JS.Date_getTime h (dateTime r)) (JS.Date_now w - SEVEN_DAYS_MS)
        && JS.gtb (value r) peakValue
     then (value r, Some (dateTime r))
     else st) st r
  = (if reachedFlood r && withinSevenDays h w r && (fst st <? value r)
     then (value r, Some (dateTime r)) else st).
Proof. destruct st. reflexivity. Qed.

(** What the loop keeps: the running peak only grows, it bounds every
    qualifying reading seen, and it is either the initial state or the
    value and time of one of them. *)
Lemma peak_loop h w (rs : list EAReading) : forall pv pt,
  is_number pv ->
  let st := fold_left
              (fun (st : float * option string) r =>
                 let '(peakValue, peakTime) := st in
                 if JS.geb (value r) THRESHOLDS.ROAD_FLOOD
                    && JS.gtb (JS.Date_getTime h (dateTime r))
                              (JS.Date_now w - SEVEN_DAYS_MS)
                    && JS.gtb (value r) peakValue
                 then (value r, Some (dateTime r))
                 else st)
              rs (pv, pt) in
  (pv <=? fst st) = true /\
  (forall r, In r rs -> reachedFlood r = true -> withinSevenDays h w r = true ->
             (value r <=? fst st) = true) /\
  (st = (pv, pt) \/
   exists r, In r rs /\ reachedFlood r = true /\ withinSevenDays h w r = true /\
             st = (value r, Some (dateTime r))).
Proof.
  induction rs as [|r rs IH]; intros pv pt Hpv; cbv zeta.
  - simpl. split; [now apply NumberOrder.leb_refl|]. split; [intros r []|now left].
  - cbn [fold_left]. rewrite (peak_step h w (pv, pt) r). cbn [fst].
    destruct (reachedFlood r) eqn:Hf; cbn [andb].
    2: { destruct (IH pv pt Hpv) as (H1 & H2 & H3). cbv zeta in H1, H2, H3.
         split; [exact H1|]. split.
         - intros x [<-|Hin] Hx Hwx; [congruence|auto].
         - destruct H3 as [H3|(x & Hin & Hx)]; [now left|right; exists x; simpl; tauto]. }
    destruct (withinSevenDays h w r) eqn:Hw; cbn [andb].
    2: { destruct (IH pv pt Hpv) as (H1 & H2 & H3). cbv zeta in H1, H2, H3.
         split; [exact H1|]. split.
         - intros x [<-|Hin] Hx Hwx; [congruence|auto].
         - destruct H3 as [H3|(x & Hin & Hx)]; [now left|right; exists x; simpl; tauto]. }
    assert (Hnum : is_number (value r))
      by exact (NumberOrder.leb_is_number_r _ _ Hf).
    destruct (pv <? value r) eqn:Hlt.
    + destruct (IH (value r) (Some (dateTime r)) Hnum) as (H1 & H2 & H3).
      cbv zeta in H1, H2, H3.
      split; [exact (NumberOrder.leb_trans _ _ _ (NumberOrder.ltb_leb _ _ Hlt) H1)|].
      split.
      * intros x [<-|Hin] Hx Hwx; [exact H1|auto].
      * right. destruct H3 as [H3|(x & Hin & Hx)].
        -- exists r. simpl. auto.
        -- exists x. simpl. tauto.
    + pose proof (FloatOrder.not_ltb_geb _ _ Hpv Hnum Hlt) as Hle.
      destruct (IH pv pt Hpv) as (H1 & H2 & H3). cbv zeta in H1, H2, H3.
      split; [exact H1|]. split.
      * intros x [<-|Hin] Hx Hwx; [exact (NumberOrder.leb_trans _ _ _ Hle H1)|auto].
      * destruct H3 as [H3|(x & Hin & Hx)]; [now left|right; exists x; simpl; tauto].
Qed.

(** X4.  When [findRecentFloodPeakTime] returns a time, it is the time of
    a reading of the trailing seven days at or above ROAD_FLOOD whose
    value no other such reading exceeds. *)
Theorem findRecentFloodPeakTime_is_peak (h : JS.Host) (w : JS.World)
    (rs : list EAReading) (t : string) :
  findRecentFloodPeakTime h w rs = Some t ->
  exists r, In r rs /\ dateTime r = t /\
            reachedFlood r = true /\ withinSevenDays h w r = true /\
            forall r', In r' rs -> reachedFlood r' = true ->
                       withinSevenDays h w r' = true ->
                       (value r' <=? value r) = true.
Proof.
  unfold findRecentFloodPeakTime. cbv zeta. intros Ht.
  destruct (peak_loop h w rs 0 None eq_refl) as (_ & Hmax & Hst). cbv zeta in Hmax, Hst.
  destruct Hst as [Hst|(r & Hin & Hf & Hw & Hst)].
  - rewrite Hst in Ht. discriminate.
  - rewrite Hst in Ht, Hmax. simpl in Ht, Hmax. injection Ht as <-.
    exists r. repeat split; auto.
Qed.

Lemma findRecentFloodPeakTime_is_peak_witness :
  exists r, In r two_peaks /\ dateTime r = "2024-01-03T12:00:00Z"%string /\
            reachedFlood r = true /\ withinSevenDays RefHost.host noon_5_jan r = true /\
            forall r', In r' two_peaks -> reachedFlood r' = true ->
                       withinSevenDays RefHost.host noon_5_jan r' = true ->
                       (value r' <=? value r) = true.
Proof.
  exact (findRecentFloodPeakTime_is_peak RefHost.host noon_5_jan two_peaks
           "2024-01-03T12:00:00Z" eq_refl).
Defined.

(** Without a qualifying reading the loop leaves its state alone; with one,
    a state below ROAD_FLOOD is left. *)
Lemma peak_loop_some h w (rs : list EAReading) : forall pv pt,
  (pv <? THRESHOLDS.ROAD_FLOOD) = true \/ pt <> None ->
  recentFlood h w rs ->
  snd (fold_left
         (fun (st : float * option string) r =>
            let '(peakValue, peakTime) := st in
            if JS.geb (value r) THRESHOLDS.ROAD_FLOOD
               && JS.gtb (JS.Date_getTime h (dateTime r))
                         (JS.Date_now w - SEVEN_DAYS_MS)
               && JS.gtb (value r) peakValue
            then (value r, Some (dateTime r))
            else st)
         rs (pv, pt)) <> None.
Proof.
  induction rs as [|r rs IH]; intros pv pt Hst (x & Hin & Hf & Hw); [destruct Hin|].
  cbn [fold_left]. rewrite (peak_step h w (pv, pt) r). cbn [fst].
  assert (Hkeep : forall pv' pt', pt' <> None ->
            snd (fold_left
                   (fun (st : float * option string) r =>
                      let '(peakValue, peakTime) := st in
                      if JS.geb (value r) THRESHOLDS.ROAD_FLOOD
                         && JS.gtb (JS.Date_getTime h (dateTime r))
                                   (JS.Date_now w - SEVEN_DAYS_MS)
                         && JS.gtb (value r) peakValue
                      then (value r, Some (dateTime r))
                      else st)
                   rs (pv', pt')) <> None).
  { clear. induction rs as [|r rs IH]; intros pv' pt' H; [exact H|].
    cbn [fold_left]. rewrite (peak_step h w (pv', pt') r).
    destruct (_ && _ && _); apply IH; [discriminate|exact H]. }
  destruct Hin as [<-|Hin].
  - rewrite Hf, Hw. cbn [andb]. destruct Hst as [Hst|Hst].
    + rewrite (NumberOrder.ltb_leb_trans _ _ _ Hst Hf). apply Hkeep. discriminate.
    + destruct (pv <? value r); apply Hkeep; [discriminate|exact Hst].
  - destruct (_ && _ && _).
    + apply Hkeep. discriminate.
    + apply IH; [exact Hst|]. exists x. auto.
Qed.

(** X5.  [findRecentFloodPeakTime] returns [null] exactly when no reading
    of the trailing seven days reached ROAD_FLOOD: it finds a peak
    whenever the scan of [determineFloodStatus] finds a recent flood. *)
Theorem findRecentFloodPeakTime_none_iff (h : JS.Host) (w : JS.World)
    (rs : list EAReading) :
  findRecentFloodPeakTime h w rs = None <-> ~ recentFlood h w rs.
Proof.
  split.
  - intros Hnone Hflood.
    apply (peak_loop_some h w rs 0 None (or_introl eq_refl) Hflood).
    exact Hnone.
  - intros Hno. unfold findRecentFloodPeakTime. cbv zeta.
    destruct (peak_loop h w rs 0 None eq_refl) as (_ & _ & Hst). cbv zeta in Hst.
    destruct Hst as [->|(r & Hin & Hf & Hw & _)]; [reflexivity|].
    elim Hno. exists r. auto.
Qed.

(** The loop of [findTimeWaterDroppedBelowFlood] walks down over the
    readings below flood level. *)
Lemma scanDown_skips (pre : list EAReading) (r : EAReading) (post : list EAReading) :
  (forall x, In x post -> reachedFlood x = false) ->
  forall j, j <= List.length post ->
  scanDown (pre ++ r :: post) (List.length pre + 1 + j)
  = scanDown (pre ++ r :: post) (List.length pre + 1).
Proof.
  intros Hpost. induction j as [|j IH]; intros Hj.
  - now rewrite Nat.add_0_r.
  - replace (List.length pre + 1 + S j)%nat with (S (List.length pre + 1 + j)) by lia.
    cbn [scanDown].
    rewrite nth_error_app2 by lia.
    replace (List.length pre + 1 + j - List.length pre)%nat with (S j) by lia.
    cbn [nth_error].
    destruct (nth_error post j) as [x|] eqn:E.
    2: { apply nth_error_None in E. lia. }
    pose proof (Hpost x (nth_error_In _ _ E)) as Hx. unfold reachedFlood in Hx.
    rewrite Hx. apply IH. lia.
Qed.

(** The loop stops at the last reading at flood level. *)
Lemma scanDown_last_flood (pre : list EAReading) (r : EAReading) (post : list EAReading) :
  reachedFlood r = true ->
  (forall x, In x post -> reachedFlood x = false) ->
  scanDown (pre ++ r :: post) (List.length (pre ++ r :: post))
  = Some (match post with
          | [] => dateTime r
          | next :: _ => dateTime next
          end).
Proof.
  intros Hr Hpost.
  rewrite length_app. cbn [List.length].
  replace (List.length pre + S (List.length post))%nat
    with (List.length pre + 1 + List.length post)%nat by lia.
  rewrite (scanDown_skips pre r post Hpost _ (le_n _)).
  replace (List.length pre + 1)%nat with (S (List.length pre)) by lia.
  cbn [scanDown].
  rewrite nth_error_app2 by lia. rewrite Nat.sub_diag. cbn [nth_error].
  unfold reachedFlood in Hr. rewrite Hr.
  rewrite nth_error_app2 by lia.
  replace (List.length pre + 1 - List.length pre)%nat with 1%nat by lia.
  destruct post; reflexivity.
Qed.

(** X6.  [findTimeWaterDroppedBelowFlood] finds the last reading at or
    above ROAD_FLOOD and returns the time of the reading that follows it,
    or its own time when it is the last reading of the series (the river
    has not dropped yet). *)
Theorem findTimeWaterDroppedBelowFlood_after_last_flood
    (pre : list EAReading) (r : EAReading) (post : list EAReading) :
  reachedFlood r = true ->
  (forall x, In x post -> reachedFlood x = false) ->
  findTimeWaterDroppedBelowFlood (pre ++ r :: post)
  = Some (match post with
          | [] => dateTime r
          | next :: _ => dateTime next
          end).
Proof. intros Hr Hpost. exact (scanDown_last_flood pre r post Hr Hpost). Qed.

Lemma findTimeWaterDroppedBelowFlood_after_last_flood_witness :
  findTimeWaterDroppedBelowFlood
    ([reading "t0" 4.1; reading "t1" 3.9] ++ reading "t2" 4.0
       :: [reading "t3" 3.9; reading "t4" 3.7])
  = Some "t3"%string.
Proof.
  refine (findTimeWaterDroppedBelowFlood_after_last_flood
            [reading "t0" 4.1; reading "t1" 3.9] (reading "t2" 4.0)
            [reading "t3" 3.9; reading "t4" 3.7] eq_refl _).
  intros x [<-|[<-|[]]]; reflexivity.
Defined.

Lemma scanDown_none (rs : list EAReading) : forall n,
  n <= List.length rs ->
  (forall x, In x rs -> reachedFlood x = false) ->
  scanDown rs n = None.
Proof.
  induction n as [|n IH]; intros Hn Hall; [reflexivity|].
  cbn [scanDown]. destruct (nth_error rs n) as [x|] eqn:E; [|reflexivity].
  pose proof (Hall x (nth_error_In _ _ E)) as Hx. unfold reachedFlood in Hx.
  rewrite Hx. apply IH; [lia|exact Hall].
Qed.

(** The last element that passes a test splits the list. *)
Lemma last_such {A} (p : A -> bool) (l : list A) :
  (exists x, In x l /\ p x = true) ->
  exists pre r post, l = pre ++ r :: post /\ p r = true /\
                     forall x, In x post -> p x = false.
Proof.
  induction l as [|a l IH]; intros (x & Hin & Hx); [destruct Hin|].
  destruct (existsb p l) eqn:E.
  - apply existsb_exists in E. destruct (IH E) as (pre & r & post & -> & Hr & Hpost).
    exists (a :: pre), r, post. auto.
  - exists [], a, l. split; [reflexivity|]. split.
    + destruct Hin as [->|Hin]; [exact Hx|].
      assert (existsb p l = true) by (apply existsb_exists; eauto). congruence.
    + intros y Hy. apply not_true_is_false. intros Hpy.
      assert (existsb p l = true) by (apply existsb_exists; eauto). congruence.
Qed.

(** X7.  [findTimeWaterDroppedBelowFlood] returns [null] exactly when no
    reading of the series is at or above ROAD_FLOOD; a time it returns is
    the time of a reading of the series. *)
Theorem findTimeWaterDroppedBelowFlood_none_iff (rs : list EAReading) :
  (findTimeWaterDroppedBelowFlood rs = None
   <-> forall x, In x rs -> reachedFlood x = false) /\
  (forall t, findTimeWaterDroppedBelowFlood rs = Some t ->
             exists x, In x rs /\ dateTime x = t).
Proof.
  assert (Hsplit : (exists x, In x rs /\ reachedFlood x = true) ->
                   exists x, In x rs /\
                             findTimeWaterDroppedBelowFlood rs = Some (dateTime x)).
  { intros H. destruct (last_such reachedFlood rs H) as (pre & r & post & -> & Hr & Hpost).
    unfold findTimeWaterDroppedBelowFlood.
    rewrite (scanDown_last_flood pre r post Hr Hpost).
    destruct post as [|next post].
    - exists r. split; [apply in_or_app; right; now left|reflexivity].
    - exists next. split; [apply in_or_app; right; right; now left|reflexivity]. }
  split; [split|].
  - intros Hnone x Hin. apply not_true_is_false. intros Hx.
    destruct Hsplit as (y & _ & Hy); [eauto|]. congruence.
  - intros Hall. apply scanDown_none; [lia|exact Hall].
  - intros t Ht. destruct (existsb reachedFlood rs) eqn:E.
    + apply existsb_exists in E. destruct (Hsplit E) as (y & Hin & Hy).
      exists y. split; [exact Hin|congruence].
    + assert (Hall : forall x, In x rs -> reachedFlood x = false).
      { intros x Hin. apply not_true_is_false. intros Hx.
        assert (existsb reachedFlood rs = true) by (apply existsb_exists; eauto).
        congruence. }
      unfold findTimeWaterDroppedBelowFlood in Ht.
      rewrite (scanDown_none rs _ (le_n _) Hall) in Ht. discriminate.
Qed.

Lemma receding_recentFlood h w c rs :
  determineFloodStatus h w c rs = FloodStatus.RECEDING -> recentFlood h w rs.
Proof.
  destruct c as [c|]; [|discriminate]. unfold determineFloodStatus.
  destruct (JS.geb c _); [discriminate|]. destruct (JS.geb c _); [discriminate|].
  intros H. apply ClassifierProperties.recentFlood_existsb.
  destruct (existsb _ rs); [reflexivity|discriminate].
Qed.

(** Once a reading has reached the flood level, the scan returns the time
    of one of the readings. *)
Lemma flood_drop_time (rs : list EAReading) :
  (exists r, In r rs /\ reachedFlood r = true) ->
  exists x, In x rs /\ findTimeWaterDroppedBelowFlood rs = Some (dateTime x).
Proof.
  intros H. destruct (last_such reachedFlood rs H) as (pre & r & post & -> & Hr & Hpost).
  unfold findTimeWaterDroppedBelowFlood.
  rewrite (scanDown_last_flood pre r post Hr Hpost).
  destruct post as [|next post].
  - exists r. split; [apply in_or_app; right; now left|reflexivity].
  - exists next. split; [apply in_or_app; right; right; now left|reflexivity].
Qed.

(** X8.  Whenever [determineFloodStatus] answers RECEDING,
    [findTimeWaterDroppedBelowFlood] on the same readings returns a time,
    the time of one of the readings: the caller always has a start for its
    traffic-since-flood request. *)
Theorem receding_has_drop_time (h : JS.Host) (w : JS.World)
    (c : option float) (rs : list EAReading) :
  determineFloodStatus h w c rs = FloodStatus.RECEDING ->
  exists x, In x rs /\ findTimeWaterDroppedBelowFlood rs = Some (dateTime x).
Proof.
  intros H. destruct (receding_recentFlood h w c rs H) as (r0 & Hin & Hf & _).
  apply flood_drop_time. eauto.
Qed.

Lemma receding_has_drop_time_witness :
  exists x, In x flood_of_3_jan /\
            findTimeWaterDroppedBelowFlood flood_of_3_jan = Some (dateTime x).
Proof.
  exact (receding_has_drop_time RefHost.host noon_5_jan (Some 3.5) flood_of_3_jan eq_refl).
Defined.

End ClassifierExtras.

(** ** The reconciler *)

Module ReconcilerExtras.
Import Types Logic.
Import ReconcilerCases.

Lemma high_when_receding (routeStatus : option RouteStatus.t)
    (trafficData trafficSinceFlood : option TrafficResponse) :
  confidence (assessRoadStatus FloodStatus.RECEDING routeStatus trafficData
                trafficSinceFlood) = HIGH
  <-> liveSince trafficSinceFlood = true.
Proof. verdicts; split; (discriminate || reflexivity). Qed.

(** X9.  The traffic-since-flood signal is read under RECEDING only: for
    every other flood status the assessment is the same whatever that
    signal is. *)
Theorem assessRoadStatus_sinceFlood_only_receding
    (floodStatus : FloodStatus.t) (routeStatus : option RouteStatus.t)
    (trafficData trafficSinceFlood trafficSinceFlood' : option TrafficResponse) :
  floodStatus <> FloodStatus.RECEDING ->
  assessRoadStatus floodStatus routeStatus trafficData trafficSinceFlood
  = assessRoadStatus floodStatus routeStatus trafficData trafficSinceFlood'.
Proof.
  intros H. destruct floodStatus; try reflexivity. now elim H.
Qed.

Lemma assessRoadStatus_sinceFlood_only_receding_witness :
  assessRoadStatus FloodStatus.CLEAR (Some RouteStatus.ROUTING_AROUND) None
                   (Some (ReconcilerSpec.sinceFlood 3))
  = assessRoadStatus FloodStatus.CLEAR (Some RouteStatus.ROUTING_AROUND) None None.
Proof.
  apply assessRoadStatus_sinceFlood_only_receding. discriminate.
Defined.

(** X10.  A closed verdict always rests on the flood level or on the
    route planner.  The road is reported closed exactly when the status
    is FLOODED; or the status is NEAR_FLOOD, or RECEDING without a reading
    with live data since the flood, and the planner routes around or
    finds no route; or the status is CLEAR or UNKNOWN and the planner
    routes around.  Silence of the traffic sensor alone never closes the
    road, and NO_ROUTE closes it only near or after a flood. *)
Theorem assessRoadStatus_closed_iff
    (floodStatus : FloodStatus.t) (routeStatus : option RouteStatus.t)
    (trafficData trafficSinceFlood : option TrafficResponse) :
  isOpen (assessRoadStatus floodStatus routeStatus trafficData trafficSinceFlood)
    = Some false
  <-> floodStatus = FloodStatus.FLOODED
      \/ (floodStatus = FloodStatus.NEAR_FLOOD /\
          (routeStatus = Some RouteStatus.ROUTING_AROUND \/
           routeStatus = Some RouteStatus.NO_ROUTE))
      \/ (floodStatus = FloodStatus.RECEDING /\
          liveSince trafficSinceFlood = false /\
          (routeStatus = Some RouteStatus.ROUTING_AROUND \/
           routeStatus = Some RouteStatus.NO_ROUTE))
      \/ ((floodStatus = FloodStatus.CLEAR \/ floodStatus = FloodStatus.UNKNOWN) /\
          routeStatus = Some RouteStatus.ROUTING_AROUND).
Proof. verdicts; intuition congruence. Qed.

(** X11.  The verdict is the uncertain one exactly when the status is
    RECEDING, no reading with live data came since the flood, and the
    route status is missing or ERROR. *)
Theorem assessRoadStatus_uncertain_iff
    (floodStatus : FloodStatus.t) (routeStatus : option RouteStatus.t)
    (trafficData trafficSinceFlood : option TrafficResponse) :
  isOpen (assessRoadStatus floodStatus routeStatus trafficData trafficSinceFlood) = None
  <-> floodStatus = FloodStatus.RECEDING /\
      liveSince trafficSinceFlood = false /\
      (routeStatus = None \/ routeStatus = Some RouteStatus.ERROR).
Proof. verdicts; intuition congruence. Qed.

(** X12.  HIGH confidence is given in three cases only: the road is
    flooded; cars were seen since the flood receded; or the level is not
    in any flood band and the planner routes through. *)
Theorem assessRoadStatus_high_iff
    (floodStatus : FloodStatus.t) (routeStatus : option RouteStatus.t)
    (trafficData trafficSinceFlood : option TrafficResponse) :
  confidence (assessRoadStatus floodStatus routeStatus trafficData trafficSinceFlood) = HIGH
  <-> floodStatus = FloodStatus.FLOODED \/
      (floodStatus = FloodStatus.RECEDING /\ liveSince trafficSinceFlood = true) \/
      ((floodStatus = FloodStatus.CLEAR \/ floodStatus = FloodStatus.UNKNOWN) /\
       routeStatus = Some RouteStatus.ROUTING_THROUGH).
Proof. verdicts; intuition congruence. Qed.

End ReconcilerExtras.

(* ================================================================== *)
(** * Further properties of the route-check worker *)
(* ================================================================== *)

Module RouteExtras.
Import RouteCheck.
Import Order RouteSpec.

(** What the loop of [findClosestDistance] keeps, from a running minimum
    [m] that is a number. *)
Lemma closest_loop h target (pts : list Point) : forall m,
  is_number m ->
  let r := fold_left (closer h target) pts m in
  is_number r /\
  (r <=? m) = true /\
  (forall p, In p pts -> is_number (distanceTo h target p) ->
             (r <=? distanceTo h target p) = true) /\
  (r = m \/ exists p, In p pts /\ r = distanceTo h target p).
Proof.
  induction pts as [|p pts IH]; intros m Hm; cbv zeta.
  - simpl. repeat split; auto using NumberOrder.leb_refl.
  - cbn [fold_left].
    assert (Hstep : is_number (closer h target m p) /\
                    (closer h target m p <=? m) = true /\
                    (is_number (distanceTo h target p) ->
                     (closer h target m p <=? distanceTo h target p) = true) /\
                    (closer h target m p = m \/
                     closer h target m p = distanceTo h target p)).
    { unfold closer, distanceTo. set (d := haversineM h _ _ _ _).
      destruct (d <? m) eqn:E.
      - pose proof (FloatOrder.ltb_is_number _ _ E) as Hd.
        repeat split; auto using NumberOrder.leb_refl, NumberOrder.ltb_leb.
      - repeat split; auto using NumberOrder.leb_refl.
        intros Hd. now apply FloatOrder.not_ltb_geb. }
    destruct Hstep as (Hnum & Hle & Hd & Hor).
    destruct (IH _ Hnum) as (H1 & H2 & H3 & H4). cbv zeta in H1, H2, H3, H4.
    split; [exact H1|]. split; [exact (NumberOrder.leb_trans _ _ _ H2 Hle)|]. split.
    + intros q [<-|Hq] Hnq; [|auto].
      exact (NumberOrder.leb_trans _ _ _ H2 (Hd Hnq)).
    + destruct H4 as [H4|(q & Hq & H4)].
      * rewrite H4. destruct Hor as [-> | ->]; [now left|right; exists p; simpl; auto].
      * right. exists q. simpl. auto.
Qed.

(** X13.  [findClosestDistance] returns the minimum of the distances: it
    is at most the distance of every route point whose distance is a
    number, and it is the distance of one of the points, or [Infinity]
    when no point has a distance below it. *)
Theorem findClosestDistance_is_minimum (h : JS.Host) (pts : list Point)
    (target : LatLng) :
  (forall p, In p pts -> is_number (distanceTo h target p) ->
             (findClosestDistance h pts target <=? distanceTo h target p) = true) /\
  (findClosestDistance h pts target = infinity \/
   exists p, In p pts /\ findClosestDistance h pts target = distanceTo h target p).
Proof.
  destruct (closest_loop h target pts infinity FloatOrder.infinity_is_number)
    as (_ & _ & H3 & H4).
  split; [exact H3|exact H4].
Qed.

(** X14.  [checkRoute] reports a missing key first: with an empty key
    it throws [TOMTOM_API_KEY is not configured] whatever the response
    is.  With a key and a response that is not ok it throws the message
    that carries the HTTP status and the body.  And whenever it returns,
    the key was not empty and the response was ok, the result is stamped
    with the current time, its status is never ERROR and its [route] is
    [null] exactly when the status is NO_ROUTE. *)
Theorem checkRoute_outcome (h : JS.Host) (now apiKey : string)
    (res : JS.Response TomTomRoutingResponse) :
  (apiKey = ""%string ->
   checkRoute h now apiKey res = JS.Throw "TOMTOM_API_KEY is not configured") /\
  (apiKey <> ""%string -> JS.ok res = false ->
   checkRoute h now apiKey res
   = JS.Throw ("TomTom Routing API returned " ++ JS.string_of_Z (JS.status res)
               ++ ": " ++ JS.text res)) /\
  (forall rc,
     checkRoute h now apiKey res = JS.Return rc ->
     apiKey <> ""%string /\
     JS.ok res = true /\
     timestamp rc = now /\
     status rc <> RouteStatus.ERROR /\
     (route rc = None <-> status rc = RouteStatus.NO_ROUTE)).
Proof.
  unfold checkRoute. split; [|split].
  - intros ->. reflexivity.
  - intros Hkey Hok. apply String.eqb_neq in Hkey. now rewrite Hkey, Hok.
  - intros rc. destruct (String.eqb apiKey "") eqn:Hkey; [discriminate|].
    apply String.eqb_neq in Hkey.
    destruct (JS.ok res); cbn [negb]; [|discriminate].
    cbv zeta. destruct (routes (JS.json res)) as [[|first rest]|];
      intros E; injection E as <-; cbn [timestamp status route];
      (split; [exact Hkey|]); (split; [reflexivity|]); (split; [reflexivity|]).
    + split; [discriminate|]. split; reflexivity.
    + destruct (_ && _); (split; [discriminate|]); split; discriminate.
    + split; [discriminate|]. split; reflexivity.
Qed.

Lemma checkRoute_outcome_witness :
  exists rc,
    checkRoute RefHost.host "2024-01-05T12:00:00.000Z" "key"
               (RouteSpec.okResponse (Some [RouteSpec.routeOf 1800 RouteSpec.alongA417]))
    = JS.Return rc /\
    "key"%string <> ""%string /\
    JS.ok (RouteSpec.okResponse (Some [RouteSpec.routeOf 1800 RouteSpec.alongA417]))
    = true /\
    timestamp rc = "2024-01-05T12:00:00.000Z"%string /\
    status rc <> RouteStatus.ERROR /\
    (route rc = None <-> status rc = RouteStatus.NO_ROUTE).
Proof.
  eexists. split; [reflexivity|].
  apply (proj2 (proj2 (checkRoute_outcome RefHost.host "2024-01-05T12:00:00.000Z" "key"
                         (RouteSpec.okResponse
                            (Some [RouteSpec.routeOf 1800 RouteSpec.alongA417]))))).
  reflexivity.
Defined.

End RouteExtras.

Module RouteWorkerExtras.
Import RouteWorker.
Import RouteWorkerSpec.

Lemma set_keeps name value (hs : list (string * string)) header :
  In header hs -> fst header <> name -> In header (set name value hs).
Proof.
  induction hs as [|[n v] hs IH]; intros Hin Hne; [destruct Hin|].
  cbn [set]. destruct (String.eqb_spec n name) as [->|Hn].
  - destruct Hin as [<-|Hin]; [now elim Hne|now right].
  - destruct Hin as [<-|Hin]; [now left|right; auto].
Qed.

Lemma jsonResponse_cors data status : hasCors (jsonResponse data status).
Proof.
  intros header Hin. unfold jsonResponse. cbn [headers]. apply in_or_app. now left.
Qed.

(** X15.  Every response of the worker carries the three CORS headers,
    provided the cached response, if there is one, does; and the cache
    after the call satisfies the same condition.  So from an empty cache on
    no response ever lacks them. *)
Theorem fetch_cors (h : JS.Host) (now method : string) (cache : Cache)
    (key : string) (upstream : JS.Response RouteCheck.TomTomRoutingResponse) :
  corsCache cache ->
  hasCors (fst (fetch h now method cache key upstream)) /\
  corsCache (snd (fetch h now method cache key upstream)).
Proof.
  intros Hc. unfold fetch.
  destruct (String.eqb method "OPTIONS"); [split; [intros x Hx; exact Hx|exact Hc]|].
  destruct (String.eqb method "GET"); cbn [negb];
    [|split; [apply jsonResponse_cors|exact Hc]].
  destruct cache as [cached|]; [split; exact Hc|].
  destruct (RouteCheck.checkRoute h now key upstream) as [data|message];
    [|split; [apply jsonResponse_cors|exact Hc]].
  cbv zeta. cbn [fst snd corsCache].
  assert (H : hasCors
                {| status := status (jsonResponse (Payload data) 200);
                   headers := set "Cache-Control"
                                  ("public, max-age=" ++ JS.string_of_Z CACHE_TTL_SECONDS)
                                  (headers (jsonResponse (Payload data) 200));
                   body := body (jsonResponse (Payload data) 200) |}).
  { intros header Hin. cbn [headers]. apply set_keeps.
    - now apply jsonResponse_cors.
    - destruct Hin as [<-|[<-|[<-|[]]]]; discriminate. }
  split; exact H.
Qed.

Lemma fetch_cors_witness :
  hasCors (fst (fetch RefHost.host "2024-01-05T12:00:00.000Z" "GET" None "key"
                      (RouteSpec.okResponse (Some [])))) /\
  corsCache (snd (fetch RefHost.host "2024-01-05T12:00:00.000Z" "GET" None "key"
                        (RouteSpec.okResponse (Some [])))).
Proof. exact (fetch_cors _ _ _ None _ _ I). Defined.

(** X16.  Only a successful answer is cached, and every one is.  A GET
    on an empty cache whose route check returned leaves in the cache the
    response it sends, which has status 200, the route check as its body
    and a [Cache-Control] header of 300 seconds.  Every other call, with
    another method, on a cache that holds a response, or with a route
    check that threw, leaves the cache as it found it: the 405 and 500
    responses are never stored. *)
Theorem fetch_caches_success_only (h : JS.Host) (now method : string) (cache : Cache)
    (key : string) (upstream : JS.Response RouteCheck.TomTomRoutingResponse) :
  (forall data,
     method = "GET"%string -> cache = None ->
     RouteCheck.checkRoute h now key upstream = JS.Return data ->
     snd (fetch h now method cache key upstream)
       = Some (fst (fetch h now method cache key upstream)) /\
     status (fst (fetch h now method cache key upstream)) = 200%Z /\
     body (fst (fetch h now method cache key upstream)) = Payload data /\
     In ("Cache-Control", "public, max-age=300")%string
        (headers (fst (fetch h now method cache key upstream)))) /\
  (method <> "GET"%string \/ cache <> None \/
   (exists message, RouteCheck.checkRoute h now key upstream = JS.Throw message) ->
   snd (fetch h now method cache key upstream) = cache).
Proof.
  split.
  - intros data -> -> E. unfold fetch. cbn [String.eqb Ascii.eqb Bool.eqb negb].
    rewrite E. cbn. auto 10.
  - intros H. unfold fetch.
    destruct (String.eqb method "OPTIONS"); [reflexivity|].
    destruct (String.eqb_spec method "GET") as [-> | _]; cbn [negb]; [|reflexivity].
    destruct cache as [cached|]; [reflexivity|].
    destruct (RouteCheck.checkRoute h now key upstream) as [data|message];
      [|reflexivity].
    destruct H as [H | [H | (message & H)]]; [now elim H|now elim H|discriminate].
Qed.

Lemma fetch_caches_success_only_witness :
  exists data,
    RouteCheck.checkRoute RefHost.host "2024-01-05T12:00:00.000Z" "key"
      (RouteSpec.okResponse (Some [RouteSpec.routeOf 1800 RouteSpec.alongA417]))
    = JS.Return data /\
    snd (fetch RefHost.host "2024-01-05T12:00:00.000Z" "GET" None "key"
           (RouteSpec.okResponse (Some [RouteSpec.routeOf 1800 RouteSpec.alongA417])))
    = Some (fst (fetch RefHost.host "2024-01-05T12:00:00.000Z" "GET" None "key"
                   (RouteSpec.okResponse
                      (Some [RouteSpec.routeOf 1800 RouteSpec.alongA417])))) /\
    status (fst (fetch RefHost.host "2024-01-05T12:00:00.000Z" "GET" None "key"
                   (RouteSpec.okResponse
                      (Some [RouteSpec.routeOf 1800 RouteSpec.alongA417])))) = 200%Z.
Proof.
  eexists. split; [reflexivity|].
  destruct (proj1 (fetch_caches_success_only RefHost.host "2024-01-05T12:00:00.000Z"
                     "GET" None "key"
                     (RouteSpec.okResponse
                        (Some [RouteSpec.routeOf 1800 RouteSpec.alongA417])))
                  _ eq_refl eq_refl eq_refl) as (Hcache & Hstatus & _).
  split; [exact Hcache|exact Hstatus].
Defined.

(** X17.  A successful answer is repeated from the cache.  After a GET
    on an empty cache whose route check returned, a GET that still finds
    the stored response in the cache returns that very response and
    leaves the cache alone: the route check is not run again, so the key,
    the upstream answer and the clock of the later call play no part. *)
Theorem fetch_repeats_cached (h : JS.Host) (now key : string)
    (upstream : JS.Response RouteCheck.TomTomRoutingResponse)
    (data : RouteCheck.RouteCheck) :
  RouteCheck.checkRoute h now key upstream = JS.Return data ->
  forall h' now' key' upstream',
    fetch h' now' "GET" (snd (fetch h now "GET" None key upstream)) key' upstream'
    = (fst (fetch h now "GET" None key upstream),
       snd (fetch h now "GET" None key upstream)).
Proof.
  intros E h' now' key' upstream'. unfold fetch at 2 3 4. cbn [String.eqb Ascii.eqb].
  cbn. rewrite E. reflexivity.
Qed.

Lemma fetch_repeats_cached_witness :
  fetch RefHost.host "2024-01-05T12:03:00.000Z" "GET"
        (snd (fetch RefHost.host "2024-01-05T12:00:00.000Z" "GET" None "key"
                    (RouteSpec.okResponse (Some [RouteSpec.routeOf 1800 RouteSpec.alongA417]))))
        "" unavailable
  = (fst (fetch RefHost.host "2024-01-05T12:00:00.000Z" "GET" None "key"
                (RouteSpec.okResponse (Some [RouteSpec.routeOf 1800 RouteSpec.alongA417]))),
     snd (fetch RefHost.host "2024-01-05T12:00:00.000Z" "GET" None "key"
                (RouteSpec.okResponse (Some [RouteSpec.routeOf 1800 RouteSpec.alongA417])))).
Proof.
  eapply fetch_repeats_cached. reflexivity.
Defined.

End RouteWorkerExtras.

(* ================================================================== *)
(** * Further properties of the traffic worker *)
(* ================================================================== *)

Module PollExtras.
Import TrafficMonitor.
Import PollSpec WindowSpec.

(** A live speed comes from a segment whose own tag is not [unknown]. *)
Lemma live_speed_has_tag (speeds : list float) : forall tags,
  liveSegmentSpeeds speeds tags <> [] ->
  existsb (fun c => negb (isUnknown c)) tags = true.
Proof.
  unfold liveSegmentSpeeds.
  induction speeds as [|s speeds IH]; intros tags H; [now elim H|].
  destruct tags as [|c tags]; cbn [segmentsOf filter snd] in H.
  - change (isUnknown "unknown") with true in H. cbn [negb] in H.
    specialize (IH [] H). discriminate IH.
  - cbn [existsb]. destruct (isUnknown c); cbn [negb orb] in *; [auto|reflexivity].
Qed.

(** The three shapes of a result of [fetchMapbox]. *)
Lemma fetchMapbox_cases (token : string)
    (res : JS.Response MapboxMatchResponse) (r : MapboxResult.t) :
  fetchMapbox token res = JS.Return r ->
  (MapboxResult.status r = ReadingStatus.NO_MATCH /\
   MapboxResult.hasLiveData r = false /\ MapboxResult.avgSpeedMph r = None /\
   MapboxResult.segmentsJson r = None) \/
  (MapboxResult.status r = ReadingStatus.NO_DATA /\
   MapboxResult.hasLiveData r = false /\ MapboxResult.avgSpeedMph r = None /\
   MapboxResult.segmentsJson r = None) \/
  (MapboxResult.status r
   = (if MapboxResult.hasLiveData r then ReadingStatus.HAS_LIVE_DATA
      else ReadingStatus.NO_LIVE_DATA) /\
   (MapboxResult.avgSpeedMph r <> None -> MapboxResult.hasLiveData r = true) /\
   MapboxResult.segmentsJson r <> None).
Proof.
  unfold fetchMapbox.
  destruct (String.eqb token ""); [discriminate|].
  destruct (negb (JS.ok res)); [discriminate|]. cbv zeta.
  destruct (if String.eqb (code (JS.json res)) "Ok" then matchings (JS.json res) else None)
    as [[|matching rest]|].
  1, 3: intros H; injection H as <-; left; cbn; auto.
  rewrite PollProperties.gather_concat.
  set (allSpeeds := flat_map (arrayOf speed) (legs matching)).
  set (allCongestion := flat_map (arrayOf congestion) (legs matching)).
  set (allDistances := flat_map (arrayOf distance) (legs matching)).
  destruct (List.length allSpeeds =? 0)%nat.
  { intros H; injection H as <-; right; left; cbn; auto. }
  pose proof (PollProperties.visitAll_live allCongestion allDistances allSpeeds 0 ([], []))
    as Hlive.
  destruct (visitAll allCongestion allDistances ([], []) 0 allSpeeds) as [live segs].
  simpl in Hlive. subst live.
  pose proof (live_speed_has_tag allSpeeds allCongestion) as Htag.
  intros H; injection H as <-. right; right.
  cbn [MapboxResult.hasLiveData MapboxResult.status MapboxResult.avgSpeedMph
       MapboxResult.segmentsJson].
  split; [reflexivity|]. split; [|discriminate].
  destruct (liveSegmentSpeeds allSpeeds allCongestion) as [|v vs].
  - intros H. now elim H.
  - intros _. apply Htag. discriminate.
Qed.

(** X18.  Whatever the token and the response, a result that
    [fetchMapbox] returns is coherent: [hasLiveData] is set exactly when
    the status is HAS_LIVE_DATA, an average speed is only ever reported
    together with live data, the status is never ERROR, and the segment
    list is missing exactly for NO_MATCH and NO_DATA. *)
Theorem fetchMapbox_coherent (token : string)
    (res : JS.Response MapboxMatchResponse) (r : MapboxResult.t) :
  fetchMapbox token res = JS.Return r ->
  (MapboxResult.hasLiveData r = true
   <-> MapboxResult.status r = ReadingStatus.HAS_LIVE_DATA) /\
  (MapboxResult.avgSpeedMph r <> None -> MapboxResult.hasLiveData r = true) /\
  MapboxResult.status r <> ReadingStatus.ERROR /\
  (MapboxResult.segmentsJson r = None
   <-> MapboxResult.status r = ReadingStatus.NO_MATCH
       \/ MapboxResult.status r = ReadingStatus.NO_DATA).
Proof.
  intros E.
  destruct (fetchMapbox_cases token res r E)
    as [(Hs & Hl & Ha & Hg)|[(Hs & Hl & Ha & Hg)|(Hs & Ha & Hg)]].
  - rewrite Hs, Hl, Ha, Hg. intuition congruence.
  - rewrite Hs, Hl, Ha, Hg. intuition congruence.
  - rewrite Hs. destruct (MapboxResult.hasLiveData r); intuition congruence.
Qed.

Lemma fetchMapbox_coherent_witness :
  exists r,
    fetchMapbox "token" (okResponse liveWithoutSpeed) = JS.Return r /\
    (MapboxResult.hasLiveData r = true
     <-> MapboxResult.status r = ReadingStatus.HAS_LIVE_DATA) /\
    (MapboxResult.avgSpeedMph r <> None -> MapboxResult.hasLiveData r = true).
Proof.
  eexists. split; [reflexivity|].
  split.
  - exact (proj1 (fetchMapbox_coherent "token" (okResponse liveWithoutSpeed) _ eq_refl)).
  - exact (proj1 (proj2 (fetchMapbox_coherent "token" (okResponse liveWithoutSpeed) _
                           eq_refl))).
Defined.

(** X19.  The row [pollAndStore] writes for an outcome of [fetchMapbox]
    carries the time of the poll; its [has_live_data] is 0 or 1, and 1
    exactly when its status is HAS_LIVE_DATA; it has an average speed only
    when it has live data; and its status is one of the five status
    words, ERROR exactly when the poll threw. *)
Theorem pollAndStore_row (now token : string)
    (res : JS.Response MapboxMatchResponse) :
  let row := pollAndStore now (fetchMapbox token res) in
  ReadingRow.timestamp row = now /\
  (ReadingRow.has_live_data row = 1 \/ ReadingRow.has_live_data row = 0) /\
  (isLive row = true <-> ReadingRow.status row = "HAS_LIVE_DATA"%string) /\
  (ReadingRow.avg_speed_mph row <> None -> isLive row = true) /\
  (ReadingRow.status row = "ERROR"%string
   <-> exists message, fetchMapbox token res = JS.Throw message) /\
  In (ReadingRow.status row)
     ["NO_MATCH"; "NO_DATA"; "HAS_LIVE_DATA"; "NO_LIVE_DATA"; "ERROR"]%string.
Proof.
  cbv zeta.
  split; [destruct (fetchMapbox token res); reflexivity|].
  split; [destruct (fetchMapbox token res) as [r|]; cbn;
          [destruct (MapboxResult.hasLiveData r)|]; auto|].
  split; [apply WindowProperties.pollAndStore_live|].
  destruct (fetchMapbox token res) as [r|message] eqn:E.
  - unfold isLive. cbn.
    destruct (fetchMapbox_cases token res r E)
      as [(Hs & Hl & Ha & _)|[(Hs & Hl & Ha & _)|(Hs & Ha & _)]].
    + rewrite Hs, Ha. cbn. split; [intros H; now elim H|].
      split; [|auto 10]. split; [discriminate|intros (m & Hm); discriminate].
    + rewrite Hs, Ha. cbn. split; [intros H; now elim H|].
      split; [|auto 10]. split; [discriminate|intros (m & Hm); discriminate].
    + rewrite Hs. split; [intros H; rewrite (Ha H); reflexivity|].
      destruct (MapboxResult.hasLiveData r); cbn; (split; [|auto 10]);
        (split; [discriminate|intros (m & Hm); discriminate]).
  - unfold isLive. cbn. split; [intros H; now elim H|]. split; [|auto 10].
    split; eauto.
Qed.

End PollExtras.

(** ** The order of TEXT values *)

Module TextOrder.
Import TableSpec.

Lemma ascii_compare_refl c : Ascii.compare c c = Eq.
Proof. unfold Ascii.compare. apply N.compare_refl. Qed.

Lemma compare_refl s : String.compare s s = Eq.
Proof.
  induction s as [|c s IH]; [reflexivity|]. simpl. now rewrite ascii_compare_refl.
Qed.

Lemma ascii_compare_trans a b c r :
  Ascii.compare a b <> Gt -> Ascii.compare b c = r -> r <> Gt ->
  Ascii.compare a c = match Ascii.compare a b with Lt => Lt | _ => r end.
Proof.
  unfold Ascii.compare.
  destruct (N.compare_spec (N_of_ascii a) (N_of_ascii b)) as [E|L|G]; intros H1 H2 H3.
  - rewrite E. exact H2.
  - apply N.compare_lt_iff. subst r.
    destruct (N.compare_spec (N_of_ascii b) (N_of_ascii c)); try lia. now elim H3.
  - now elim H1.
Qed.

(** The comparison of strings is transitive. *)
Lemma compare_trans a : forall b c,
  String.compare a b <> Gt -> String.compare b c <> Gt ->
  String.compare a c
  = match String.compare a b with Lt => Lt | _ => String.compare b c end.
Proof.
  induction a as [|x a IH]; intros [|y b] [|z c]; simpl; intros H1 H2;
    try reflexivity; try (now elim H1); try (now elim H2).
  destruct (Ascii.compare x y) eqn:Exy; try (now elim H1).
  - apply Ascii.compare_eq_iff in Exy. subst y.
    destruct (Ascii.compare x z); [now apply IH| |now elim H2].
    destruct (String.compare a b); reflexivity.
  - destruct (Ascii.compare y z) eqn:Eyz; try (now elim H2).
    + apply Ascii.compare_eq_iff in Eyz. subst z. now rewrite Exy.
    + rewrite (ascii_compare_trans x y z Lt) by (congruence || discriminate).
      now rewrite Exy.
Qed.

Lemma textLe_trans a b c : textLe a b -> textLe b c -> textLe a c.
Proof.
  unfold textLe. intros H1 H2. rewrite (compare_trans a b c H1 H2).
  destruct (String.compare a b) eqn:E; cbv iota;
    [exact H2|discriminate|now elim H1].
Qed.

Lemma textGe_le a b : textGe a b <-> textLe b a.
Proof.
  unfold textGe, textLe. rewrite (String.compare_antisym a b).
  destruct (String.compare b a); simpl; split; intros H;
    try discriminate; now elim H.
Qed.

Lemma textGe_trans a b c : textGe a b -> textGe b c -> textGe a c.
Proof.
  rewrite !textGe_le. intros H1 H2. exact (textLe_trans _ _ _ H2 H1).
Qed.

Lemma textLt_false_ge a b : TrafficWorker.textLt a b = false <-> textGe a b.
Proof.
  unfold TrafficWorker.textLt, textGe.
  destruct (String.compare a b); split; intros H;
    try discriminate; try reflexivity; now elim H.
Qed.

Lemma textLt_ge a b : TrafficWorker.textLt a b = true -> textGe b a.
Proof.
  unfold TrafficWorker.textLt, textGe. rewrite (String.compare_antisym b a).
  destruct (String.compare a b); simpl; intros H; discriminate.
Qed.

(** Two texts that start with dates of the same length compare as their
    dates do, and as the rest does when the dates are equal. *)
Lemma compare_dated (d1 : string) : forall d2 t1 t2,
  String.length d1 = String.length d2 ->
  String.compare (d1 ++ t1) (d2 ++ t2)
  = match String.compare d1 d2 with
    | Eq => String.compare t1 t2
    | c => c
    end.
Proof.
  induction d1 as [|x d1 IH]; intros [|y d2] t1 t2 Hlen; try discriminate; simpl.
  - reflexivity.
  - destruct (Ascii.compare x y); try reflexivity. apply IH. now injection Hlen.
Qed.

(** An ISO stamp against an SQLite stamp: the dates decide, and on the
    same date the ISO stamp is the greater one, whatever the times are. *)
Lemma sql_before_iso d d' time rest :
  String.length d' = String.length d ->
  TrafficWorker.textLt (sqlStamp d' time) (isoStamp d rest) = true <-> textLe d' d.
Proof.
  intros Hlen. unfold TrafficWorker.textLt, sqlStamp, isoStamp, textLe.
  rewrite (compare_dated d' d _ _ Hlen).
  destruct (String.compare d' d); simpl; split; intros H;
    try discriminate; try reflexivity; now elim H.
Qed.

Lemma iso_before_sql d d' time rest :
  String.length d = String.length d' ->
  TrafficWorker.textLt (isoStamp d rest) (sqlStamp d' time) = true
  <-> String.compare d d' = Lt.
Proof.
  intros Hlen. unfold TrafficWorker.textLt, sqlStamp, isoStamp.
  rewrite (compare_dated d d' _ _ Hlen).
  destruct (String.compare d d'); simpl; split; intros H;
    try discriminate; try reflexivity.
Qed.

End TextOrder.

(** ** The table and its queries *)

Module TableExtras.
Import TrafficMonitor TrafficWorker.
Import PollSpec WindowSpec TableSpec.

Lemma In_insertDesc r x (rows : list ReadingRow.t) :
  In x (insertDesc r rows) <-> x = r \/ In x rows.
Proof.
  induction rows as [|y rows IH]; simpl.
  - intuition.
  - destruct (textLt _ _); simpl; rewrite ?IH; intuition.
Qed.

Lemma In_orderDesc x (rows : list ReadingRow.t) : In x (orderDesc rows) <-> In x rows.
Proof.
  induction rows as [|y rows IH]; simpl; [tauto|].
  rewrite In_insertDesc, IH. intuition.
Qed.

Lemma In_select cutoff db x :
  In x (select cutoff db)
  <-> In x db /\ textLt cutoff (ReadingRow.timestamp x) = true.
Proof. unfold select. rewrite In_orderDesc. apply filter_In. Qed.

Lemma insertDesc_newestFirst r rows : newestFirst rows -> newestFirst (insertDesc r rows).
Proof.
  induction rows as [|x rows IH]; simpl.
  - intros _. split; [constructor|exact I].
  - intros [Hx Hs].
    destruct (textLt (ReadingRow.timestamp x) (ReadingRow.timestamp r)) eqn:E.
    + pose proof (TextOrder.textLt_ge _ _ E) as Hrx.
      split; [|split; assumption].
      constructor; [exact Hrx|].
      rewrite Forall_forall in Hx |- *. intros y Hy.
      exact (TextOrder.textGe_trans _ _ _ Hrx (Hx y Hy)).
    + apply TextOrder.textLt_false_ge in E.
      split; [|exact (IH Hs)].
      rewrite Forall_forall in Hx |- *. intros y Hy.
      apply In_insertDesc in Hy. destruct Hy as [-> | Hy]; auto.
Qed.

Lemma orderDesc_newestFirst rows : newestFirst (orderDesc rows).
Proof.
  induction rows as [|r rows IH]; simpl; [exact I|].
  now apply insertDesc_newestFirst.
Qed.

(** In a list that is newest first, [find] returns a row that no other
    row passing the test is newer than. *)
Lemma find_newest (p : ReadingRow.t -> bool) rows r :
  newestFirst rows -> find p rows = Some r ->
  In r rows /\ p r = true /\
  forall y, In y rows -> p y = true ->
            textGe (ReadingRow.timestamp r) (ReadingRow.timestamp y).
Proof.
  induction rows as [|x rows IH]; simpl; [discriminate|].
  intros [Hx Hs]. destruct (p x) eqn:Hp.
  - intros H. injection H as <-. repeat split; auto.
    intros y [<- | Hy] _.
    + unfold textGe. rewrite TextOrder.compare_refl. discriminate.
    + rewrite Forall_forall in Hx. auto.
  - intros H. destruct (IH Hs H) as (Hin & Hr & Hmax). repeat split; auto.
    intros y [<- | Hy] Hpy; [congruence|auto].
Qed.

(** The rows of a query are those of the table, in another order. *)
Lemma length_insertDesc r rows : List.length (insertDesc r rows) = S (List.length rows).
Proof.
  induction rows as [|x rows IH]; simpl; [reflexivity|].
  destruct (textLt _ _); simpl; [reflexivity|now rewrite IH].
Qed.

Lemma length_orderDesc rows : List.length (orderDesc rows) = List.length rows.
Proof.
  induction rows as [|x rows IH]; simpl; [reflexivity|].
  now rewrite length_insertDesc, IH.
Qed.

Lemma substring_prefix (d : string) : forall s, substring 0 (String.length d) (d ++ s) = d.
Proof.
  induction d as [|c d IH]; intros s; simpl.
  - destruct s; reflexivity.
  - now rewrite IH.
Qed.

(** On a row stamped by [toISOString], the test of the default query
    looks at the calendar day only. *)
Lemma default_cutoff_by_day date time r :
  String.length date = 10%nat -> isoStamped r ->
  textLt (sqlStamp date time) (ReadingRow.timestamp r) = onOrAfter date r.
Proof.
  intros Hdate (day & rest & Hts & Hday). unfold onOrAfter, dayOf. rewrite Hts.
  unfold isoStamp at 2. rewrite <- Hday at 1. rewrite substring_prefix.
  assert (Hlen : String.length date = String.length day) by congruence.
  destruct (textLt day date) eqn:E; simpl.
  - apply not_true_is_false. intros H.
    apply (TextOrder.sql_before_iso day date time rest Hlen) in H.
    apply TextOrder.textGe_le in H. apply TextOrder.textLt_false_ge in H. congruence.
  - apply (TextOrder.sql_before_iso day date time rest Hlen).
    apply TextOrder.textGe_le. now apply TextOrder.textLt_false_ge.
Qed.

Lemma filter_ext_Forall {A} (p q : A -> bool) (P : A -> Prop) (l : list A) :
  (forall x, P x -> p x = q x) -> Forall P l -> filter p l = filter q l.
Proof.
  intros H. induction 1 as [|x l Hx Hl IH]; simpl; [reflexivity|].
  now rewrite (H x Hx), IH.
Qed.

Lemma select_default date time db :
  String.length date = 10%nat -> Forall isoStamped db ->
  select (sqlStamp date time) db = orderDesc (filter (onOrAfter date) db).
Proof.
  intros Hdate Hdb. unfold select. f_equal.
  apply (filter_ext_Forall _ _ isoStamped); [|exact Hdb].
  intros r Hr. now apply default_cutoff_by_day.
Qed.

Lemma default_cutoff now windowStart db since :
  noSince since ->
  TrafficWorker.aggregateReadings now windowStart db since
  = TrafficMonitor.aggregateReadings now since (Some (select windowStart db)).
Proof. intros [-> | ->]; reflexivity. Qed.

Lemma readings_length now since rows :
  Window.readings (Aggregate.window (TrafficMonitor.aggregateReadings now since (Some rows)))
  = List.length rows.
Proof. destruct rows; reflexivity. Qed.

Lemma status_live now since rows r :
  In r rows -> isLive r = true ->
  Aggregate.status (TrafficMonitor.aggregateReadings now since (Some rows))
  = AggregatedStatus.LIKELY_OPEN.
Proof.
  intros Hin Hr. destruct rows as [|x rows]; [destruct Hin|].
  destruct (WindowProperties.aggregateReadings_rows now since x rows) as (Hs & _). rewrite Hs.
  replace (0 <? List.length (filter isLive (x :: rows)))%nat with true; [reflexivity|].
  symmetry. apply WindowProperties.some_live_row. eauto.
Qed.

(** X20.  The default window, the last 30 minutes by its label, is cut by
    calendar day.  The query compares the stored [toISOString] text with the text
    of [datetime('now', '-30 minutes')], which has a space where the
    stored text has a [T]: on a table of rows stamped by [toISOString],
    the window of a request without [since] holds every row stored on
    the cutoff's day or later, whatever the time of day of the cutoff
    and of the row. *)
Theorem aggregateReadings_default_window_by_day (now date time : string)
    (db : Table) (since : option string) :
  String.length date = 10%nat -> Forall isoStamped db -> noSince since ->
  Window.readings
    (Aggregate.window (TrafficWorker.aggregateReadings now (sqlStamp date time) db since))
  = List.length (filter (onOrAfter date) db).
Proof.
  intros Hdate Hdb Hsince.
  rewrite (default_cutoff _ _ _ _ Hsince), readings_length.
  rewrite (select_default date time db Hdate Hdb). apply length_orderDesc.
Qed.

Lemma isoStamped_threeDays : Forall isoStamped threeDays.
Proof.
  repeat constructor.
  - exists "2024-01-04"%string, "23:59:05.000Z"%string. split; reflexivity.
  - exists "2024-01-05"%string, "00:00:05.000Z"%string. split; reflexivity.
  - exists "2024-01-05"%string, "12:03:00.000Z"%string. split; reflexivity.
Qed.

Lemma aggregateReadings_default_window_by_day_witness :
  Window.readings
    (Aggregate.window
       (TrafficWorker.aggregateReadings "2024-01-05T12:04:00.000Z"
          (sqlStamp "2024-01-05" "11:34:00") threeDays None))
  = 2%nat.
Proof.
  apply (aggregateReadings_default_window_by_day "2024-01-05T12:04:00.000Z"
           "2024-01-05" "11:34:00" threeDays None).
  - reflexivity.
  - exact isoStamped_threeDays.
  - left. reflexivity.
Defined.

(** X21.  A poll with live data stored at any time of the cutoff's day
    makes the answer of a request without [since] LIKELY_OPEN, however
    long before the cutoff it was stored. *)
Theorem aggregateReadings_same_day_is_live (now date time rest : string)
    (db : Table) (since : option string) (r : ReadingRow.t) :
  noSince since -> In r db ->
  ReadingRow.timestamp r = isoStamp date rest -> ReadingRow.has_live_data r = 1 ->
  Aggregate.status (TrafficWorker.aggregateReadings now (sqlStamp date time) db since)
  = AggregatedStatus.LIKELY_OPEN.
Proof.
  intros Hsince Hin Hts Hlive. rewrite (default_cutoff _ _ _ _ Hsince).
  apply (status_live now since _ r).
  - apply In_select. split; [exact Hin|]. rewrite Hts.
    apply (TextOrder.sql_before_iso date date time rest eq_refl).
    unfold textLe. rewrite TextOrder.compare_refl. discriminate.
  - unfold isLive. rewrite Hlive. reflexivity.
Qed.

Lemma aggregateReadings_same_day_is_live_witness :
  Aggregate.status
    (TrafficWorker.aggregateReadings "2024-01-05T23:59:00.000Z"
       (sqlStamp "2024-01-05" "23:29:00") threeDays None)
  = AggregatedStatus.LIKELY_OPEN.
Proof.
  apply (aggregateReadings_same_day_is_live "2024-01-05T23:59:00.000Z"
           "2024-01-05" "23:29:00" "00:00:05.000Z" threeDays None midnightPoll).
  - left. reflexivity.
  - right. left. reflexivity.
  - reflexivity.
  - reflexivity.
Defined.

(** X22.  The rows reach the aggregation newest first, as its comment
    says: the timestamp reported as [mostRecentLiveTimestamp] is that of
    a row of the window that is live and carries a speed, and no such
    row of the window has a later timestamp. *)
Theorem aggregateReadings_most_recent (now windowStart : string) (db : Table)
    (since : option string) (cutoff t : string) :
  cutoff = match since with
           | Some s => if String.eqb s "" then windowStart else s
           | None => windowStart
           end ->
  Aggregate.mostRecentLiveTimestamp
    (TrafficWorker.aggregateReadings now windowStart db since) = Some t ->
  (exists r, In r db /\ textLt cutoff (ReadingRow.timestamp r) = true
             /\ liveWithSpeed r = true /\ ReadingRow.timestamp r = t)
  /\ forall r, In r db -> textLt cutoff (ReadingRow.timestamp r) = true ->
               liveWithSpeed r = true -> textGe t (ReadingRow.timestamp r).
Proof.
  intros Hcut. unfold TrafficWorker.aggregateReadings. cbv zeta. rewrite <- Hcut.
  destruct (select cutoff db) as [|x rows] eqn:E; [discriminate|].
  destruct (WindowProperties.aggregateReadings_rows now since x rows) as (_ & _ & _ & Ht).
  rewrite Ht. clear Ht.
  destruct (find liveWithSpeed (x :: rows)) as [r|] eqn:F; [|discriminate].
  intros H. injection H as <-.
  assert (Hsorted : newestFirst (x :: rows))
    by (rewrite <- E; apply orderDesc_newestFirst).
  destruct (find_newest liveWithSpeed (x :: rows) r Hsorted F) as (Hin & Hr & Hmax).
  rewrite <- E in Hin, Hmax. split.
  - exists r. apply In_select in Hin. tauto.
  - intros y Hy Hcy Hly. apply Hmax; [|exact Hly]. apply In_select. tauto.
Qed.

Lemma aggregateReadings_most_recent_witness :
  (exists r, In r threeDays
             /\ textLt "2024-01-04T12:00:00.000Z" (ReadingRow.timestamp r) = true
             /\ liveWithSpeed r = true
             /\ ReadingRow.timestamp r = "2024-01-05T00:00:05.000Z"%string)
  /\ forall r, In r threeDays ->
               textLt "2024-01-04T12:00:00.000Z" (ReadingRow.timestamp r) = true ->
               liveWithSpeed r = true ->
               textGe "2024-01-05T00:00:05.000Z" (ReadingRow.timestamp r).
Proof.
  apply (aggregateReadings_most_recent "2024-01-05T12:04:00.000Z"
           (sqlStamp "2024-01-05" "11:34:00") threeDays
           (Some "2024-01-04T12:00:00.000Z"%string)).
  - reflexivity.
  - reflexivity.
Defined.

Lemma In_prune cutoff db r :
  In r (prune cutoff db)
  <-> In r db /\ textLt (ReadingRow.timestamp r) cutoff = false.
Proof.
  unfold prune. rewrite filter_In. now rewrite negb_true_iff.
Qed.

(** X23.  What a poll leaves in the table: the rows it found and the row
    it wrote, without those stored on a calendar day before the day of
    [datetime('now', '-7 days')].  The rows of that day are all kept,
    whatever their time of day, and so is the row just written as long
    as its day is not before that day. *)
Theorem pollAndStore_prunes_by_day (now date time : string)
    (result : JS.Outcome MapboxResult.t) (db : Table) (r : ReadingRow.t) :
  String.length date = 10%nat -> isoStamped r ->
  (In r (TrafficWorker.pollAndStore now (sqlStamp date time) result db)
   <-> (In r db \/ r = TrafficMonitor.pollAndStore now result)
       /\ onOrAfter date r = true).
Proof.
  intros Hdate (day & rest & Hts & Hday). unfold TrafficWorker.pollAndStore.
  rewrite In_prune, in_app_iff. simpl.
  assert (Hlen : String.length day = String.length date) by congruence.
  assert (Hsame : textLt (ReadingRow.timestamp r) (sqlStamp date time)
                  = textLt (dayOf r) date).
  { unfold dayOf. rewrite Hts. unfold isoStamp at 2.
    rewrite <- Hday at 1. rewrite substring_prefix.
    unfold textLt at 1.
    unfold isoStamp, sqlStamp. rewrite (TextOrder.compare_dated day date _ _ Hlen).
    unfold textLt. destruct (String.compare day date); reflexivity. }
  rewrite Hsame. unfold onOrAfter. rewrite negb_true_iff.
  intuition (subst; auto).
Qed.

Lemma pollAndStore_prunes_by_day_witness :
  In midnightPoll
    (TrafficWorker.pollAndStore "2024-01-12T23:59:00.000Z"
       (sqlStamp "2024-01-05" "23:59:00") (JS.Throw "Mapbox API error: 500") threeDays)
  <-> (In midnightPoll threeDays
       \/ midnightPoll
          = TrafficMonitor.pollAndStore "2024-01-12T23:59:00.000Z"
              (JS.Throw "Mapbox API error: 500"))
      /\ onOrAfter "2024-01-05" midnightPoll = true.
Proof.
  apply (pollAndStore_prunes_by_day "2024-01-12T23:59:00.000Z" "2024-01-05" "23:59:00"
           (JS.Throw "Mapbox API error: 500") threeDays midnightPoll).
  - reflexivity.
  - exists "2024-01-05"%string, "00:00:05.000Z"%string. split; reflexivity.
Defined.

End TableExtras.

(** ** The aggregation *)

Module AggregateExtras.
Import TrafficMonitor.
Import PollSpec WindowSpec.

Lemma speedsOf_find (rows : list ReadingRow.t) :
  speedsOf rows = [] <-> find hasSpeed rows = None.
Proof.
  induction rows as [|r rows IH]; simpl; [tauto|].
  unfold hasSpeed at 1. destruct (ReadingRow.avg_speed_mph r); [|exact IH].
  split; discriminate.
Qed.

Lemma find_hasSpeed (rows : list ReadingRow.t) r :
  find hasSpeed rows = Some r -> ReadingRow.avg_speed_mph r <> None.
Proof.
  intros H. apply find_some in H as [_ H]. unfold hasSpeed in H.
  destruct (ReadingRow.avg_speed_mph r); [discriminate|discriminate].
Qed.

(** X24.  The fields of an answer agree with each other, whatever the
    rows are: an average speed is reported exactly when a most recent
    live speed is, and exactly when a most recent live timestamp is; an
    answer that reports a speed says LIKELY_OPEN; the answer is
    INSUFFICIENT_DATA exactly when it counts no reading; and it never
    counts more readings with live data than readings. *)
Theorem aggregateReadings_coherent (now : string) (since : option string)
    (rows : option (list ReadingRow.t)) :
  let a := aggregateReadings now since rows in
  (Aggregate.averageSpeedMph a = None <-> Aggregate.mostRecentLiveSpeedMph a = None)
  /\ (Aggregate.mostRecentLiveSpeedMph a = None
      <-> Aggregate.mostRecentLiveTimestamp a = None)
  /\ (Aggregate.averageSpeedMph a <> None
      -> Aggregate.status a = AggregatedStatus.LIKELY_OPEN)
  /\ (Aggregate.status a = AggregatedStatus.INSUFFICIENT_DATA
      <-> Window.readings (Aggregate.window a) = 0%nat)
  /\ (forall n, Window.readingsWithLiveData (Aggregate.window a) = Some n ->
                (n <= Window.readings (Aggregate.window a))%nat).
Proof.
  cbv zeta. unfold aggregateReadings.
  destruct rows as [[|r rows]|]; cbn [List.length Nat.eqb];
    cbn [Aggregate.status Aggregate.averageSpeedMph Aggregate.mostRecentLiveSpeedMph
         Aggregate.mostRecentLiveTimestamp Aggregate.window Window.readings
         Window.readingsWithLiveData];
    try (repeat split; (discriminate || congruence || tauto)).
  set (live := filter _ (r :: rows)).
  pose proof (speedsOf_find live) as Hfind.
  split; [|split; [|split; [|split]]].
  - destruct (speedsOf live) as [|v vs] eqn:Es.
    + assert (F : find hasSpeed live = None) by now apply Hfind.
      rewrite F. simpl. tauto.
    + destruct (find hasSpeed live) as [x|] eqn:F.
      * pose proof (find_hasSpeed live x F) as Hx. simpl.
        split; [discriminate|intros H; now elim Hx].
      * assert (v :: vs = []) by now apply Hfind. discriminate.
  - destruct (find hasSpeed live) as [x|] eqn:F.
    + pose proof (find_hasSpeed live x F) as Hx.
      split; [intros H; now elim Hx|discriminate].
    + tauto.
  - destruct live as [|x l]; simpl; [intros H; now elim H|reflexivity].
  - destruct (0 <? List.length live)%nat; split; discriminate.
  - intros n H. injection H as <-. apply filter_length_le.
Qed.

End AggregateExtras.

(* ================================================================== *)
(** ** The page: what a load leaves in the state *)
(* ================================================================== *)

Module AppExtras.
Import Types Logic App.
Import ClassifierSpec AppSpec.
Import ReconcilerCases.

Lemma noLatest_level (p : JS.Outcome (option EAReading)) :
  noLatest p -> orElse p None = None.
Proof. intros [-> | (message & ->)]; reflexivity. Qed.

Lemma attempt_routeStatus (p : JS.Outcome RouteCheckResponse.t) :
  option_map RouteCheckResponse.status (attempt p) = routeStatusOf p.
Proof. destruct p; reflexivity. Qed.

(** X25.  Without a latest reading the page does not know the river:
    the flood status is UNKNOWN and the headline says so, whatever the
    other requests returned.  The road card under that headline is the
    one of a clear river: the assessment is the one [assessRoadStatus]
    gives for CLEAR and the same route status. *)
Theorem loadData_without_latest (h : JS.Host) (w : JS.World)
    (fetchRiverReadings : JS.Outcome (list EAReading))
    (fetchLatestReading : JS.Outcome (option EAReading))
    (fetchRouteCheck : JS.Outcome RouteCheckResponse.t)
    (fetchTraffic : option string -> JS.Outcome TrafficResponse) :
  noLatest fetchLatestReading ->
  let s := loadData h w fetchRiverReadings fetchLatestReading fetchRouteCheck
             fetchTraffic in
  State.currentLevel s = None
  /\ State.floodStatus s = FloodStatus.UNKNOWN
  /\ StatusConfig.answer (statusConfig s) = "Unknown."%string
  /\ State.roadAssessment s
     = Some (assessRoadStatus FloodStatus.CLEAR (routeStatusOf fetchRouteCheck)
               None None).
Proof.
  intros H. cbv zeta. unfold statusConfig, loadData. cbv zeta.
  cbn [State.currentLevel State.floodStatus State.trend State.roadAssessment].
  rewrite (noLatest_level _ H), attempt_routeStatus. cbn [option_map determineFloodStatus].
  repeat split.
Qed.

Lemma loadData_without_latest_witness :
  let s := loadData RefHost.host noon_5_jan (JS.Return flood_of_3_jan) offline
             offline (fun _ => offline) in
  State.currentLevel s = None
  /\ State.floodStatus s = FloodStatus.UNKNOWN
  /\ StatusConfig.answer (statusConfig s) = "Unknown."%string
  /\ State.roadAssessment s
     = Some (assessRoadStatus FloodStatus.CLEAR (routeStatusOf offline) None None).
Proof.
  apply (loadData_without_latest RefHost.host noon_5_jan (JS.Return flood_of_3_jan)
           offline offline (fun _ => offline)).
  right. exists "Failed to fetch"%string. reflexivity.
Defined.

(** X26.  When a load finds the river RECEDING it has a drop time, the
    time of one of the readings, and the road card has HIGH confidence
    exactly when the traffic request since that time succeeded and
    reported a reading with live data: the answer to the request without
    [since] plays no part. *)
Theorem loadData_receding (h : JS.Host) (w : JS.World)
    (fetchRiverReadings : JS.Outcome (list EAReading))
    (fetchLatestReading : JS.Outcome (option EAReading))
    (fetchRouteCheck : JS.Outcome RouteCheckResponse.t)
    (fetchTraffic : option string -> JS.Outcome TrafficResponse) :
  let s := loadData h w fetchRiverReadings fetchLatestReading fetchRouteCheck
             fetchTraffic in
  State.floodStatus s = FloodStatus.RECEDING ->
  exists x a,
    In x (State.readings s)
    /\ findTimeWaterDroppedBelowFlood (State.readings s) = Some (dateTime x)
    /\ State.roadAssessment s = Some a
    /\ (confidence a = HIGH
        <-> dateTime x <> ""%string
            /\ exists t, fetchTraffic (Some (dateTime x)) = JS.Return t
                         /\ JS.gtb (readingsWithLiveData (window t)) 0 = true).
Proof.
  cbv zeta. unfold loadData. cbv zeta.
  cbn [State.floodStatus State.readings State.roadAssessment].
  set (rs := orElse fetchRiverReadings []).
  set (level := option_map value (orElse fetchLatestReading None)).
  generalize (option_map RouteCheckResponse.status (attempt fetchRouteCheck)).
  generalize (attempt (fetchTraffic None)).
  intros tData rStatus Hst. rewrite Hst.
  destruct (ClassifierExtras.receding_recentFlood h w level rs Hst) as (r0 & Hin & Hf & _).
  destruct (ClassifierExtras.flood_drop_time rs (ex_intro _ r0 (conj Hin Hf)))
    as (x & Hx & Hdrop).
  exists x. eexists. split; [exact Hx|]. split; [exact Hdrop|]. split; [reflexivity|].
  rewrite Hdrop. cbn [FloodStatus.eqb orb].
  rewrite ReconcilerExtras.high_when_receding.
  destruct (String.eqb (dateTime x) "") eqn:E;
    [apply String.eqb_eq in E|apply String.eqb_neq in E].
  - cbn [liveSince]. split; [discriminate|]. intros [Hne _]. now elim Hne.
  - destruct (fetchTraffic (Some (dateTime x))) as [t|message]; cbn [attempt liveSince].
    + split.
      * intros Hlive. split; [exact E|]. eauto.
      * intros (_ & t0 & Ht0 & Hlive). injection Ht0 as <-. exact Hlive.
    + split; [discriminate|]. intros (_ & t & Ht & _). discriminate.
Qed.

Lemma loadData_receding_witness :
  let s := loadData RefHost.host noon_5_jan (JS.Return flood_of_3_jan)
             (JS.Return (Some (reading "2024-01-05T11:45:00Z" 3.5))) offline
             (trafficSince "2024-01-04T12:00:00Z" 3) in
  exists x a,
    In x (State.readings s)
    /\ findTimeWaterDroppedBelowFlood (State.readings s) = Some (dateTime x)
    /\ State.roadAssessment s = Some a
    /\ (confidence a = HIGH
        <-> dateTime x <> ""%string
            /\ exists t, trafficSince "2024-01-04T12:00:00Z" 3 (Some (dateTime x))
                         = JS.Return t
                         /\ JS.gtb (readingsWithLiveData (window t)) 0 = true).
Proof.
  apply (loadData_receding RefHost.host noon_5_jan (JS.Return flood_of_3_jan)
           (JS.Return (Some (reading "2024-01-05T11:45:00Z" 3.5))) offline
           (trafficSince "2024-01-04T12:00:00Z" 3)).
  reflexivity.
Defined.

Lemma headline_cases (status : FloodStatus.t) (trend : TrendDirection.t)
    (routeStatus : option RouteStatus.t)
    (trafficData trafficSinceFlood : option TrafficResponse) :
  let a := assessRoadStatus status routeStatus trafficData trafficSinceFlood in
  let answer := StatusConfig.answer (getStatusConfig status trend (Some a)) in
  (answer = "Yes."%string -> isOpen a = Some false)
  /\ (answer = "Probably."%string -> isOpen a = Some false)
  /\ (answer = "Maybe / soon."%string -> isOpen a = Some true)
  /\ (isOpen a = None -> answer = "Receding."%string).
Proof.
  cbv zeta. verdicts;
    cbn [getStatusConfig nullOrOpen isOpen StatusConfig.answer];
    repeat split; intros H; (discriminate H || reflexivity).
Qed.

(** X27.  The headline never contradicts the road card of the same
    load.  When the headline is [Yes.] or [Probably.] the card reports
    the road closed; when it is [Maybe / soon.] the card reports it
    open; and a card that cannot tell stands under [Receding.] only. *)
Theorem loadData_headline_agrees (h : JS.Host) (w : JS.World)
    (fetchRiverReadings : JS.Outcome (list EAReading))
    (fetchLatestReading : JS.Outcome (option EAReading))
    (fetchRouteCheck : JS.Outcome RouteCheckResponse.t)
    (fetchTraffic : option string -> JS.Outcome TrafficResponse) :
  let s := loadData h w fetchRiverReadings fetchLatestReading fetchRouteCheck
             fetchTraffic in
  let answer := StatusConfig.answer (statusConfig s) in
  exists a,
    State.roadAssessment s = Some a
    /\ (answer = "Yes."%string -> isOpen a = Some false)
    /\ (answer = "Probably."%string -> isOpen a = Some false)
    /\ (answer = "Maybe / soon."%string -> isOpen a = Some true)
    /\ (isOpen a = None -> answer = "Receding."%string).
Proof.
  cbv zeta. unfold statusConfig, loadData. cbv zeta.
  cbn [State.floodStatus State.trend State.roadAssessment].
  eexists. split; [reflexivity|]. apply headline_cases.
Qed.

End AppExtras.
